(** * navcat vs recast-navigation-js benchmark harness (src/main.ts)

    A shallow embedding of the measurement core of [src/main.ts]:
    the [benchmark] primitive, [gatherTrianglesFromScene], the option
    records handed to the two navmesh generators, [benchmarkGeneration],
    [verifyPaths], [benchmarkQueries] and the orchestration in [run].

    JavaScript numbers are IEEE-754 binary64 values: they are modelled by
    Rocq's primitive floats, whose operations are specified by
    [FloatAxioms] over [SpecFloat].  Effects (the clock, the console, the
    two backends) are modelled by explicit state passing over an abstract
    [World]; every effectful operation also appends one event to a trace,
    so that "how often" and "with which arguments" are statements about
    the trace of a run.

    The definitions of Part I describe the runs in which every callback
    and every backend call returns.  Build calls that throw are treated
    in [Throwing], which repeats [benchmark], [benchmarkGeneration] and
    [run] for callbacks that may throw; the two agree when nothing is
    thrown ([run_agrees]). *)

From Stdlib Require Import List ZArith NArith Bool String Ascii Lia.
From Stdlib Require Import Floats Uint63 DecimalString.
From Stdlib Require Import Sorted Permutation.
Import ListNotations.

Set Warnings "-inexact-float,-register-all,-abstract-large-number".

(* ====================================================================== *)
(** * Part I: definitions                                                  *)
(* ====================================================================== *)

(* ---------------------------------------------------------------------- *)
(** ** JavaScript numbers                                                  *)
(* ---------------------------------------------------------------------- *)

Module Number.

Local Open Scope Z_scope.

(** Smallest exponent of a binary64 value: [-1074]. *)
Definition emin64 : Z := SpecFloat.emin prec emax.

(** Rank given to the infinities: above every finite rank. *)
Definition inf_rank : Z := 2 ^ 2098.

(** An order embedding of the non-NaN doubles into [Z]: a finite value
    [m * 2^e] is sent to [m * 2^(e - emin64)], both zeros to [0]. *)
Definition SFrank (x : spec_float) : Z :=
  match x with
  | S754_zero _ => 0
  | S754_nan => 0
  | S754_infinity s => cond_Zopp s inf_rank
  | S754_finite s m e => cond_Zopp s (Z.pos m * 2 ^ (e - emin64))
  end.

(** Sign of a value, as the outcome of comparing it with zero. *)
Definition SFsgn (x : spec_float) : comparison :=
  match x with
  | S754_zero _ | S754_nan => Eq
  | S754_infinity s | S754_finite s _ _ => if s then Lt else Gt
  end.

Definition SFis_nan (x : spec_float) : bool :=
  match x with S754_nan => true | _ => false end.

Definition SFis_finite (x : spec_float) : bool :=
  match x with S754_zero _ | S754_finite _ _ _ => true | _ => false end.

(** The mantissa of a shift record is still positive. *)
Definition shr_pos (mrs : shr_record) : Prop :=
  exists q, shr_m mrs = Z.pos q.

(** [x] is a finite value or an infinity of sign [s]. *)
Definition SFsigned (s : bool) (x : spec_float) : Prop :=
  (exists m e, x = S754_finite s m e) \/ x = S754_infinity s.

Definition rank (x : float) : Z := SFrank (Prim2SF x).

(** [a <= b] on numbers, as a proposition. *)
Definition le (a b : float) : Prop := (a <=? b)%float = true.

Definition not_nan (x : float) : Prop := is_nan x = false.
Definition finite (x : float) : Prop := is_finite x = true.

(** A non-negative integer as a number.  Exact below [2^53], which
    covers every array length. *)
Definition of_nat (n : nat) : float :=
  PrimFloat.of_uint63 (Uint63.of_Z (Z.of_nat n)).

(** [Math.ceil]. A finite double with a non-negative exponent is an
    integer already; otherwise its magnitude is below [2^53] and the
    integer part is found by shifting the mantissa. *)
Definition Math_ceil (x : float) : float :=
  match Prim2SF x with
  | S754_finite s m e =>
      if 0 <=? e then x
      else
        let q := Z.shiftr (Z.pos m) (- e) in
        let exact := Z.shiftl q (- e) =? Z.pos m in
        if s then (- PrimFloat.of_uint63 (Uint63.of_Z q))%float
        else PrimFloat.of_uint63 (Uint63.of_Z (if exact then q else q + 1))
  | _ => x
  end.

(** [Math.fround]: the conversion applied to every element stored into
    a [Float32Array] (round to nearest binary32, ties to even). *)
Definition Math_fround (x : float) : float :=
  match Prim2SF x with
  | S754_finite s m e => SF2Prim (binary_round 24 128 s m e)
  | _ => x
  end.

(** Decimal text of a non-negative integer inside a template literal. *)
Definition to_string (n : nat) : string :=
  NilEmpty.string_of_uint (Nat.to_uint n).

End Number.

(* ---------------------------------------------------------------------- *)
(** ** Arrays of numbers                                                   *)
(* ---------------------------------------------------------------------- *)

(** What reading an element of a [number[]] yields: [sorted[i]] is
    [undefined] when [i] is not an index of the array. *)
Inductive js_value : Type :=
| Undefined
| Number (x : float).

Definition array_get (a : list float) (i : Z) : js_value :=
  if (i <? 0)%Z then Undefined
  else match nth_error a (Z.to_nat i) with
       | Some x => Number x
       | None => Undefined
       end.

Definition array_length {A} (a : list A) : Z := Z.of_nat (List.length a).

(** [Array.prototype.sort(comparefn)].  The language specifies a stable
    sort; for a consistent comparator the result is therefore unique, and
    it is computed here by stable insertion: an element moves past [y]
    only when [comparefn x y > 0].  A [NaN] from the comparator counts as
    [+0], as in the specification of [sort].  Where the comparator is
    not consistent on the elements, as [(a, b) => a - b] is on a series
    that holds a [NaN], the language leaves the order to the
    implementation and this is one admissible order among others: what
    is proved below of the order is for series without [NaN], the rest
    uses only that the result is a permutation. *)
Fixpoint sort_insert (comparefn : float -> float -> float)
         (x : float) (l : list float) : list float :=
  match l with
  | [] => [x]
  | y :: l' =>
      if (0 <? comparefn x y)%float then y :: sort_insert comparefn x l'
      else x :: l
  end.

Fixpoint array_sort (comparefn : float -> float -> float)
         (l : list float) : list float :=
  match l with
  | [] => []
  | x :: l' => sort_insert comparefn x (array_sort comparefn l')
  end.

(** [Array.prototype.reduce(f, init)]. *)
Definition array_reduce {A B} (f : B -> A -> B) (init : B) (l : list A) : B :=
  fold_left f l init.

(* ---------------------------------------------------------------------- *)
(** ** The host, traces and the effect monad                               *)
(* ---------------------------------------------------------------------- *)

(** Everything outside the harness.  [World] is the state of the page
    (clock, backends, whatever the callbacks touch); [performance_now]
    reads the clock and may change the world; [exponentiate] is the [**]
    operator, whose result the language leaves implementation-approximated
    (addition, subtraction, division and [Math.sqrt] are the correctly
    rounded binary64 operations). *)
Class Host : Type := {
  World : Type;
  performance_now : World -> float * World;
  exponentiate : float -> float -> float;
}.

(** The record returned by [benchmark].  [median], [min] and [max] are
    read out of an array and are [undefined] when it is empty. *)
Record BenchmarkResult : Type := {
  name : string;
  warmupRuns : nat;
  runs : nat;
  times : list float;
  mean : float;
  median : js_value;
  min : js_value;
  max : js_value;
  stdDev : float;
}.

(** A thrown value, as the handler of [run().catch] uses it:
    [error_string] is [String(err)], [error_stack] is [err.stack] where
    the value has one ([undefined] otherwise). *)
Record js_error : Type := {
  error_string : string;
  error_stack : option string;
}.

(** [String(err.stack || err)]: the stack when it is a non-empty string,
    otherwise the value converted to a string. *)
Definition overlay_text (err : js_error) : string :=
  match error_stack err with
  | Some (String c stack) => String c stack
  | _ => error_string err
  end.

(** One event per effectful operation, in execution order.  [call] is the
    type of the records of calls to external services; the events of a
    callback are nested under its [Invoke].  [ConsoleError] is
    [console.error(err)], which logs the thrown value itself. *)
Inductive event (call : Type) : Type :=
| ConsoleLog (msg : string)
| ConsoleLogResult (label : string) (r : BenchmarkResult)
| ConsoleError (err : js_error)
| ErrorOverlay (text : string)
| Status (text : string)
| PerformanceNow (t : float)
| Invoke (body : list (event call))
| Call (c : call).

Arguments ConsoleLog {call} msg.
Arguments ConsoleLogResult {call} label r.
Arguments ConsoleError {call} err.
Arguments ErrorOverlay {call} text.
Arguments Status {call} text.
Arguments PerformanceNow {call} t.
Arguments Invoke {call} body.
Arguments Call {call} c.

Section Effects.

Context {host : Host} {call : Type}.

(** A computation: from the world to a result, the next world and the
    events performed. *)
Definition M (A : Type) : Type := World -> A * World * list (event call).

Definition ret {A} (a : A) : M A := fun w => (a, w, []).

Definition bind {A B} (m : M A) (f : A -> M B) : M B :=
  fun w =>
    let '(a, w1, t1) := m w in
    let '(b, w2, t2) := f a w1 in
    (b, w2, t1 ++ t2).

Definition emit (e : event call) : M unit := fun w => (tt, w, [e]).

Definition console_log (msg : string) : M unit := emit (ConsoleLog msg).
Definition console_log_result (label : string) (r : BenchmarkResult) : M unit :=
  emit (ConsoleLogResult label r).
Definition console_error (err : js_error) : M unit := emit (ConsoleError err).

(** [statusElement.textContent = text]. *)
Definition set_status (text : string) : M unit := emit (Status text).

(** [performance.now()]. *)
Definition now : M float :=
  fun w => let '(t, w') := performance_now w in (t, w', [PerformanceNow t]).

(** Calling a closure [fn: () => void].  The variables the closure
    captures and assigns are threaded through as [S]. *)
Definition invoke {S} (fn : S -> M S) (s : S) : M S :=
  fun w => let '(s', w', t) := fn s w in (s', w', [Invoke t]).

(** Projections of a run. *)
Definition result_of {A} (r : A * World * list (event call)) : A := fst (fst r).
Definition world_of {A} (r : A * World * list (event call)) : World := snd (fst r).
Definition trace_of {A} (r : A * World * list (event call)) : list (event call) := snd r.

End Effects.

Declare Scope js_scope.
Delimit Scope js_scope with js.
Notation "x <- m ;; k" := (bind m (fun x => k))
  (at level 61, m at next level, right associativity) : js_scope.
Notation "' p <- m ;; k" := (bind m (fun p => k))
  (at level 61, p pattern, m at next level, right associativity) : js_scope.
Notation "m ;;; k" := (bind m (fun _ => k))
  (at level 61, right associativity) : js_scope.

(* ---------------------------------------------------------------------- *)
(** ** [benchmark]                                                         *)
(* ---------------------------------------------------------------------- *)

Section Benchmark.

Context {host : Host} {call : Type}.
Local Open Scope js_scope.
Local Open Scope string_scope.

(** [warmupRuns] and [runs] are iteration counts: natural numbers, as at
    every call site.  A callback is a function of the variables it
    captures; here it returns (callbacks that throw are the subject of
    [Throwing] below).

    [for (let i = 0; i < warmupRuns; i++) fn();] *)
Fixpoint warmup_loop {S} (fn : S -> M (call:=call) S) (n : nat) (s : S) : M S :=
  match n with
  | O => ret s
  | Datatypes.S n' => s' <- invoke fn s ;; warmup_loop fn n' s'
  end.

(** [for (let i = 0; i < runs; i++) { start; fn(); end; times.push(end - start) }] *)
Fixpoint timed_loop {S} (fn : S -> M (call:=call) S) (n : nat)
         (times : list float) (s : S) : M (list float * S) :=
  match n with
  | O => ret (times, s)
  | Datatypes.S n' =>
      start <- now ;;
      s' <- invoke fn s ;;
      end_ <- now ;;
      timed_loop fn n' (times ++ [(end_ - start)%float]) s'
  end.

(** The block under [// calculate stats].  On an array length, which is
    a non-negative integer, [Math.floor(sorted.length / 2)] is the integer
    quotient; [sorted.length - 1] is [-1] for the empty array, and reading
    at [-1] yields [undefined]. *)
Definition calculate_stats (name : string) (warmupRuns runs : nat)
           (times : list float) : BenchmarkResult :=
  let sorted := array_sort (fun a b => a - b)%float times in
  let mean :=
    (array_reduce (fun a b => a + b) 0 times / Number.of_nat (List.length times))%float in
  let median := array_get sorted (array_length sorted / 2) in
  let min := array_get sorted 0 in
  let max := array_get sorted (array_length sorted - 1) in
  let variance :=
    (array_reduce (fun sum time => sum + exponentiate (time - mean) 2) 0 times
     / Number.of_nat (List.length times))%float in
  let stdDev := PrimFloat.sqrt variance in
  {| name := name; warmupRuns := warmupRuns; runs := runs; times := times;
     mean := mean; median := median; min := min; max := max;
     stdDev := stdDev |}.

(** [benchmark(name, fn, warmupRuns, runs)]; [s] holds the initial values
    of the variables [fn] captures, the result their final values. *)
Definition benchmark {S} (name : string) (fn : S -> M (call:=call) S)
           (warmupRuns runs : nat) (s : S) : M (BenchmarkResult * S) :=
  console_log (name ++ ": running " ++ Number.to_string warmupRuns
                    ++ " warmup iterations...") ;;;
  s1 <- warmup_loop fn warmupRuns s ;;
  console_log (name ++ ": running " ++ Number.to_string runs
                    ++ " benchmark iterations...") ;;;
  '(times, s2) <- timed_loop fn runs [] s1 ;;
  ret (calculate_stats name warmupRuns runs times, s2).

(** Default arguments of [benchmark]: [warmupRuns = 3], [runs = 10]. *)
Definition default_warmupRuns : nat := 3.
Definition default_runs : nat := 10.

End Benchmark.

(* ---------------------------------------------------------------------- *)
(** ** Scene graphs and [gatherTrianglesFromScene]                         *)
(* ---------------------------------------------------------------------- *)

Module THREE.

Record Vector3 : Type := { x : float; y : float; z : float }.

(** [Matrix4] and [Vector3.applyMatrix4] belong to the rendering
    library; the extractor only applies them. *)
Class Transform : Type := {
  Matrix4 : Type;
  applyMatrix4 : Matrix4 -> Vector3 -> Vector3;
}.

Section Scene.

Context {T : Transform}.

(** [geometry.attributes.position] holds [count] vertices read by
    [getX/getY/getZ]; [geometry.index] is [null] for a non-indexed
    geometry, otherwise its elements are read by [index.getX]. *)
Record BufferGeometry : Type := {
  position : list Vector3;
  index : option (list N);
}.

Record Mesh : Type := {
  geometry : BufferGeometry;
  matrixWorld : Matrix4;
}.

(** A node of the scene graph.  [isMesh] holds exactly for the nodes
    that carry a [Mesh]. *)
Inductive Object3D : Type :=
| Node (mesh : option Mesh) (children : list Object3D).

Definition as_mesh (o : Object3D) : option Mesh :=
  match o with Node m _ => m end.

(** [Object3D.traverse(callback)]: the callback on the node itself,
    then on every child, recursively, in stored order. *)
Fixpoint traverse {S} (callback : Object3D -> S -> S)
         (o : Object3D) (s : S) : S :=
  match o with
  | Node _ cs =>
      fold_left (fun acc c => traverse callback c acc) cs (callback o s)
  end.

End Scene.

End THREE.

(** The two typed arrays returned by the extractor. *)
Record TriangleBuffer : Type := {
  positions : list float;   (* Float32Array *)
  indices : list N;         (* Uint32Array *)
}.

Section Gather.

Context {T : THREE.Transform}.

(** The three variables the traversal callback captures. *)
Record gather_state : Type := {
  g_positions : list float;
  g_indices : list N;
  vertexOffset : N;
}.

(** The body of [if ((child as THREE.Mesh).isMesh) { ... }]. *)
Definition gather_mesh (mesh : THREE.Mesh) (st : gather_state)
  : gather_state :=
  let position := THREE.position (THREE.geometry mesh) in
  let index := THREE.index (THREE.geometry mesh) in
  let worldMatrix := THREE.matrixWorld mesh in
  let count := List.length position in
  (* add vertices (transformed by world matrix) *)
  let pushed :=
    flat_map (fun p =>
                let vec := THREE.applyMatrix4 worldMatrix p in
                [THREE.x vec; THREE.y vec; THREE.z vec]) position in
  (* add indices (offset by current vertex count) *)
  let added :=
    match index with
    | Some ix => map (fun i => (i + vertexOffset st)%N) ix
    | None =>
        map (fun i => (N.of_nat i + vertexOffset st)%N) (seq 0 count)
    end in
  {| g_positions := g_positions st ++ pushed;
     g_indices := g_indices st ++ added;
     vertexOffset := (vertexOffset st + N.of_nat count)%N |}.

(** The callback passed to [object.traverse]. *)
Definition gather_child (child : THREE.Object3D) (st : gather_state)
  : gather_state :=
  match THREE.as_mesh child with
  | Some mesh => gather_mesh mesh st
  | None => st
  end.

(** [new Uint32Array(indices)] stores every element modulo [2^32]. *)
Definition to_uint32 (n : N) : N := (n mod 2 ^ 32)%N.

Definition gatherTrianglesFromScene (object : THREE.Object3D)
  : TriangleBuffer :=
  let st :=
    THREE.traverse gather_child object
      {| g_positions := []; g_indices := []; vertexOffset := 0%N |} in
  {| positions := map Number.Math_fround (g_positions st);
     indices := map to_uint32 (g_indices st) |}.

(** Number of position triples of a buffer: [positions.length / 3]. *)
Definition vertex_count (b : TriangleBuffer) : N :=
  (N.of_nat (List.length (positions b)) / 3)%N.

(** The mesh nodes of a scene in traversal order. *)
Fixpoint meshes_of (o : THREE.Object3D) : list THREE.Mesh :=
  match o with
  | THREE.Node m cs =>
      match m with Some mesh => [mesh] | None => [] end
        ++ flat_map meshes_of cs
  end.

(** The index sequence a mesh contributes before offsetting. *)
Definition local_indices (m : THREE.Mesh) : list N :=
  match THREE.index (THREE.geometry m) with
  | Some ix => ix
  | None => map N.of_nat (seq 0 (List.length (THREE.position (THREE.geometry m))))
  end.

(** The indices of a sequence of meshes, each mesh's indices offset by the
    number of vertices of the meshes before it, starting from [offset]. *)
Fixpoint offset_indices (offset : N) (ms : list THREE.Mesh) : list N :=
  match ms with
  | [] => []
  | m :: ms' =>
      map (fun i => (i + offset)%N) (local_indices m)
        ++ offset_indices
             (offset + N.of_nat (List.length (THREE.position (THREE.geometry m))))%N
             ms'
  end.

(** A mesh is a well-formed triangle list: whole triangles only, every
    index names one of its own vertices. *)
Definition well_formed_mesh (m : THREE.Mesh) : Prop :=
  (List.length (local_indices m) mod 3 = 0)%nat /\
  Forall (fun i => (i < N.of_nat (List.length (THREE.position (THREE.geometry m))))%N)
         (local_indices m).

(** What the traversal maintains: three numbers per vertex, every index
    below the running vertex count, whole triangles only. *)
Definition gather_inv (st : gather_state) : Prop :=
  N.of_nat (List.length (g_positions st)) = (3 * vertexOffset st)%N /\
  Forall (fun i => (i < vertexOffset st)%N) (g_indices st) /\
  List.length (g_indices st) mod 3 = 0.

End Gather.

(* ---------------------------------------------------------------------- *)
(** ** Generation options and their two backend encodings                  *)
(* ---------------------------------------------------------------------- *)

Record GenerationOptions : Type := {
  cellSize : float;
  cellHeight : float;
  walkableRadiusVoxels : float;
  walkableRadiusWorld : float;
  walkableClimbVoxels : float;
  walkableClimbWorld : float;
  walkableHeightVoxels : float;
  walkableHeightWorld : float;
  walkableSlopeAngleDegrees : float;
  borderSize : float;
  minRegionArea : float;
  mergeRegionArea : float;
  maxSimplificationError : float;
  maxEdgeLength : float;
  maxVerticesPerPoly : float;
  detailSampleDistance : float;
  detailSampleMaxError : float;
}.

Definition createGenerationOptions : GenerationOptions :=
  let cellSize := 0.15%float in
  let cellHeight := 0.3%float in
  let walkableClimbWorld := 0.5%float in
  let walkableHeightWorld := 1.0%float in
  let walkableRadiusWorld := 0.2%float in
  {| cellSize := cellSize;
     cellHeight := cellHeight;
     walkableRadiusVoxels := Number.Math_ceil (walkableRadiusWorld / cellHeight);
     walkableRadiusWorld := walkableRadiusWorld;
     walkableClimbVoxels := Number.Math_ceil (walkableClimbWorld / cellHeight);
     walkableClimbWorld := walkableClimbWorld;
     walkableHeightVoxels := Number.Math_ceil (walkableHeightWorld / cellHeight);
     walkableHeightWorld := walkableHeightWorld;
     walkableSlopeAngleDegrees := 45;
     borderSize := 0;
     minRegionArea := 8;
     mergeRegionArea := 20;
     maxSimplificationError := 1.3;
     maxEdgeLength := 6.0;
     maxVerticesPerPoly := 6;
     detailSampleDistance := 5.0;
     detailSampleMaxError := 1.3 |}.

Module Recast.

(** The configuration object of [generateSoloNavMesh] of
    recast-navigation/generators. *)
Record Config : Type := {
  cs : float;
  ch : float;
  walkableRadius : float;
  walkableClimb : float;
  walkableHeight : float;
  walkableSlopeAngle : float;
  borderSize : float;
  minRegionArea : float;
  mergeRegionArea : float;
  maxSimplificationError : float;
  maxEdgeLen : float;
  maxVertsPerPoly : float;
  detailSampleDist : float;
  detailSampleMaxError : float;
}.

End Recast.

Module Navcat.

(** A point as navcat takes it: the array [[x, y, z]]. *)
Definition Vec3 : Type := (float * float * float)%type.

(** The options object of [generateSoloNavMesh] of navcat/blocks. *)
Record Options : Type := {
  cellSize : float;
  cellHeight : float;
  walkableRadiusVoxels : float;
  walkableRadiusWorld : float;
  walkableClimbVoxels : float;
  walkableClimbWorld : float;
  walkableHeightVoxels : float;
  walkableHeightWorld : float;
  walkableSlopeAngleDegrees : float;
  borderSize : float;
  minRegionArea : float;
  mergeRegionArea : float;
  maxSimplificationError : float;
  maxEdgeLength : float;
  maxVerticesPerPoly : float;
  detailSampleDistance : float;
  detailSampleMaxError : float;
}.

End Navcat.

(** [const recastOptions = { ... }] of [benchmarkGeneration]. *)
Definition recastOptions (options : GenerationOptions) : Recast.Config :=
  {| Recast.cs := cellSize options;
     Recast.ch := cellHeight options;
     Recast.walkableRadius := walkableRadiusVoxels options;
     Recast.walkableClimb := walkableClimbVoxels options;
     Recast.walkableHeight := walkableHeightVoxels options;
     Recast.walkableSlopeAngle := walkableSlopeAngleDegrees options;
     Recast.borderSize := borderSize options;
     Recast.minRegionArea := minRegionArea options;
     Recast.mergeRegionArea := mergeRegionArea options;
     Recast.maxSimplificationError := maxSimplificationError options;
     Recast.maxEdgeLen := maxEdgeLength options;
     Recast.maxVertsPerPoly := maxVerticesPerPoly options;
     Recast.detailSampleDist := detailSampleDistance options;
     Recast.detailSampleMaxError := detailSampleMaxError options |}.

(** [const navcatOptions = { ... }] of [benchmarkGeneration]. *)
Definition navcatOptions (options : GenerationOptions) : Navcat.Options :=
  {| Navcat.cellSize := cellSize options;
     Navcat.cellHeight := cellHeight options;
     Navcat.walkableRadiusVoxels := walkableRadiusVoxels options;
     Navcat.walkableRadiusWorld := walkableRadiusWorld options;
     Navcat.walkableClimbVoxels := walkableClimbVoxels options;
     Navcat.walkableClimbWorld := walkableClimbWorld options;
     Navcat.walkableHeightVoxels := walkableHeightVoxels options;
     Navcat.walkableHeightWorld := walkableHeightWorld options;
     Navcat.walkableSlopeAngleDegrees := walkableSlopeAngleDegrees options;
     Navcat.borderSize := borderSize options;
     Navcat.minRegionArea := (minRegionArea options * minRegionArea options)%float;
     Navcat.mergeRegionArea := (mergeRegionArea options * mergeRegionArea options)%float;
     Navcat.maxSimplificationError := maxSimplificationError options;
     Navcat.maxEdgeLength := maxEdgeLength options;
     Navcat.maxVerticesPerPoly := maxVerticesPerPoly options;
     Navcat.detailSampleDistance := (cellSize options * detailSampleDistance options)%float;
     Navcat.detailSampleMaxError := (cellHeight options * detailSampleMaxError options)%float |}.

(* ---------------------------------------------------------------------- *)
(** ** The two backends                                                    *)
(* ---------------------------------------------------------------------- *)

(** The navmesh engines, the formatting builtins and the display helpers,
    as opaque services over the [World]; the functions give what a call
    yields when it returns.  Recast declares the [navMesh] of a build
    result optional: [None] stands for [undefined].  navcat declares it
    always present, so a navcat build that returns hands back a handle.
    The variable [navcatNav] of the harness is another matter: it starts
    as [null!] and holds a handle only once a build has been made. *)
Class Backends {host : Host} : Type := {
  RecastNavMesh : Type;
  NavcatNavMesh : Type;
  NavcatIntermediates : Type;
  NavcatQueryFilter : Type;
  NavcatPathPoint : Type;
  DEFAULT_QUERY_FILTER : NavcatQueryFilter;
  (** [p.position] of a point of a navcat path. *)
  point_position : NavcatPathPoint -> Navcat.Vec3;
  (** [recastNavigation.init()]. *)
  recast_init : World -> World;
  (** [recastNavigationGenerators.generateSoloNavMesh(positions, indices, config).navMesh] *)
  recast_generateSoloNavMesh :
    list float -> list N -> Recast.Config -> World -> option RecastNavMesh * World;
  (** [navcatBlocks.generateSoloNavMesh({positions, indices}, options)]:
      its [navMesh] and [intermediates]. *)
  navcat_generateSoloNavMesh :
    list float -> list N -> Navcat.Options -> World ->
    (NavcatNavMesh * NavcatIntermediates) * World;
  (** [navcat.findPath(navMesh, start, end, halfExtents, filter).path] *)
  navcat_findPath :
    option NavcatNavMesh -> Navcat.Vec3 -> Navcat.Vec3 -> Navcat.Vec3 ->
    NavcatQueryFilter -> World -> list NavcatPathPoint * World;
  (** [recastQuery.computePath(start, end, options?).path] on a query
      object made for [navMesh]; the last argument is the optional
      [halfExtents] of [options]. *)
  recast_computePath :
    RecastNavMesh -> THREE.Vector3 -> THREE.Vector3 -> option THREE.Vector3 ->
    World -> list THREE.Vector3 * World;
  (** [Number.prototype.toFixed], [toLocaleString] and the conversion of
      a number inside a template literal. *)
  toFixed : float -> nat -> string;
  toLocaleString : nat -> string;
  toString : float -> string;
  (** The [stack] property the engine gives to [new Error(message)]
      thrown by [benchmarkGeneration], where it provides one. *)
  Error_stack : string -> option string;
}.

Section Calls.

Context {host : Host} {B : Backends}.

(** Records of the calls made into the packages of the two backends,
    constructor calls included: arguments, and for the build calls the
    handle that came back, or what the call threw. *)
Inductive backend_call : Type :=
| RecastInit
| RecastGenerate (positions : list float) (indices : list N)
                 (config : Recast.Config) (navMesh : option RecastNavMesh)
| NavcatGenerate (positions : list float) (indices : list N)
                 (options : Navcat.Options) (navMesh : NavcatNavMesh)
| NavcatFindPath (navMesh : option NavcatNavMesh)
                 (start end_ halfExtents : Navcat.Vec3)
                 (filter : NavcatQueryFilter)
| RecastComputePath (navMesh : RecastNavMesh)
                    (start end_ : THREE.Vector3)
                    (halfExtents : option THREE.Vector3)
| CreateNavMeshHelper (navMesh : option NavcatNavMesh)
| DrawNavMesh (navMesh : RecastNavMesh)
| NewDebugDrawer
| NewNavMeshQuery (navMesh : RecastNavMesh)
| RecastGenerateThrew (positions : list float) (indices : list N)
                      (config : Recast.Config) (err : js_error)
| NavcatGenerateThrew (positions : list float) (indices : list N)
                      (options : Navcat.Options) (err : js_error).

Definition JS : Type -> Type := M (call := backend_call).

Definition call_recast_init : JS unit :=
  fun w => (tt, recast_init w, [Call RecastInit]).

Definition call_recast_generate positions indices config
  : JS (option RecastNavMesh) :=
  fun w =>
    let '(nav, w') := recast_generateSoloNavMesh positions indices config w in
    (nav, w', [Call (RecastGenerate positions indices config nav)]).

Definition call_navcat_generate positions indices options
  : JS (NavcatNavMesh * NavcatIntermediates) :=
  fun w =>
    let '(r, w') := navcat_generateSoloNavMesh positions indices options w in
    (r, w', [Call (NavcatGenerate positions indices options (fst r))]).

Definition call_navcat_findPath nav start end_ halfExtents filter
  : JS (list NavcatPathPoint) :=
  fun w =>
    let '(p, w') := navcat_findPath nav start end_ halfExtents filter w in
    (p, w', [Call (NavcatFindPath nav start end_ halfExtents filter)]).

Definition call_recast_computePath nav start end_ halfExtents
  : JS (list THREE.Vector3) :=
  fun w =>
    let '(p, w') := recast_computePath nav start end_ halfExtents w in
    (p, w', [Call (RecastComputePath nav start end_ halfExtents)]).

End Calls.

(* ---------------------------------------------------------------------- *)
(** ** The harness                                                         *)
(* ---------------------------------------------------------------------- *)

(** How a function that may [throw] ends. *)
Inductive outcome (A : Type) : Type :=
| Returned (a : A)
| Thrown (err : js_error).

Arguments Returned {A} a.
Arguments Thrown {A} err.

(** What [verifyPaths] adds to a [THREE.Group]. *)
Inductive visual : Type :=
| Line (points : list THREE.Vector3) (color : N)
| Sphere (center : THREE.Vector3) (color : N).

Record Group : Type := {
  group_name : string;
  group_children : list visual;
}.

Section Harness.

Context {host : Host} {B : Backends} {T : THREE.Transform}.
Local Open Scope js_scope.
Local Open Scope string_scope.

Record GenerationResults : Type := {
  navcatNav : option NavcatNavMesh;
  navcatIntermediates : option NavcatIntermediates;
  navcatGenTime : BenchmarkResult;
  recastNav : RecastNavMesh;
  recastGenTime : BenchmarkResult;
}.

Record PathVerification : Type := {
  navcatPath : list NavcatPathPoint;
  recastPath : list THREE.Vector3;
  navcatPathVisuals : Group;
  recastPathVisuals : Group;
}.

Record QueryBenchmarkResults : Type := {
  navcatQueryTime : BenchmarkResult;
  recastQueryTime : BenchmarkResult;
}.

(** [new Error(message)]: its string form is ["Error: " + message]
    ([Error.prototype.toString], for a non-empty message), its stack the
    engine's. *)
Definition new_Error (message : string) : js_error :=
  {| error_string :=
       match message with
       | EmptyString => "Error"
       | _ => "Error: " ++ message
       end;
     error_stack := Error_stack message |}.

Definition initializeRecast : JS float :=
  start <- now ;;
  call_recast_init ;;;
  end_ <- now ;;
  let initTime := (end_ - start)%float in
  console_log ("Recast init: " ++ toFixed initTime 2 ++ "ms") ;;;
  ret initTime.

(** The closure timed for Recast:
    [() => { const result = generateSoloNavMesh(positions, indices, recastOptions);
             recastNav = result.navMesh ?? undefined; }].
    The captured variable is [recastNav]. *)
Definition recast_generation_fn (positions : list float) (indices : list N)
           (recastOptions : Recast.Config)
  : option RecastNavMesh -> JS (option RecastNavMesh) :=
  fun _ =>
    navMesh <- call_recast_generate positions indices recastOptions ;;
    ret navMesh.

(** The closure timed for navcat:
    [() => { const result = generateSoloNavMesh(navcatInput, navcatOptions);
             navcatNav = result.navMesh;
             navcatIntermediates = result.intermediates; }].
    The captured variables are [navcatNav] and [navcatIntermediates]. *)
Definition navcat_generation_fn (positions : list float) (indices : list N)
           (navcatOptions : Navcat.Options)
  : option NavcatNavMesh * option NavcatIntermediates ->
    JS (option NavcatNavMesh * option NavcatIntermediates) :=
  fun _ =>
    result <- call_navcat_generate positions indices navcatOptions ;;
    ret (Some (fst result), Some (snd result)).

Definition benchmarkGeneration (positions : list float) (indices : list N)
           (options : GenerationOptions) : JS (outcome GenerationResults) :=
  (* Recast generation *)
  set_status "Benchmarking Recast generation..." ;;;
  let recastOptions := recastOptions options in
  '(recastGenTime, recastNav) <-
    benchmark "recast generation"
      (recast_generation_fn positions indices recastOptions)
      default_warmupRuns default_runs None ;;
  console_log_result "Recast generation:" recastGenTime ;;;
  match recastNav with
  | None => ret (Thrown (new_Error "Recast navmesh generation failed"))
  | Some recastNav =>
      (* Navcat generation *)
      set_status "Benchmarking Navcat generation..." ;;;
      let navcatOptions := navcatOptions options in
      '(navcatGenTime, (navcatNav, navcatIntermediates)) <-
        benchmark "navcat generation"
          (navcat_generation_fn positions indices navcatOptions)
          default_warmupRuns default_runs (None, None) ;;
      console_log_result "Navcat generation:" navcatGenTime ;;;
      ret (Returned {| navcatNav := navcatNav;
                       navcatIntermediates := navcatIntermediates;
                       navcatGenTime := navcatGenTime;
                       recastNav := recastNav;
                       recastGenTime := recastGenTime |})
  end.

Definition visualizeNavMeshes (genResults : GenerationResults) : JS unit :=
  (* Navcat navmesh *)
  emit (Call (CreateNavMeshHelper (navcatNav genResults))) ;;;
  (* Recast navmesh *)
  emit (Call NewDebugDrawer) ;;;
  emit (Call (DrawNavMesh (recastNav genResults))).

(** The test coordinates shared by [verifyPaths] and [benchmarkQueries]. *)
Definition startPos : THREE.Vector3 :=
  {| THREE.x := (-3.94)%float; THREE.y := 0.26%float; THREE.z := 4%float |}.
Definition endPos : THREE.Vector3 :=
  {| THREE.x := 2.52%float; THREE.y := 2.39%float; THREE.z := (-2.2)%float |}.
Definition halfExtents : THREE.Vector3 :=
  {| THREE.x := 1%float; THREE.y := 1%float; THREE.z := 1%float |}.

(** [[v.x, v.y, v.z]] *)
Definition to_array (v : THREE.Vector3) : Navcat.Vec3 :=
  (THREE.x v, THREE.y v, THREE.z v).

(** [new THREE.Vector3(p[0], p[1], p[2])] *)
Definition of_array (p : Navcat.Vec3) : THREE.Vector3 :=
  let '(a, b, c) := p in {| THREE.x := a; THREE.y := b; THREE.z := c |}.

Definition path_visuals (points : list THREE.Vector3) (color : N)
  : list visual :=
  Line points color :: map (fun point => Sphere point color) points.

Definition verifyPaths (genResults : GenerationResults) : JS PathVerification :=
  set_status "Verifying paths..." ;;;
  (* Navcat path *)
  navcatPath <-
    call_navcat_findPath (navcatNav genResults)
      (to_array startPos) (to_array endPos) (to_array halfExtents)
      DEFAULT_QUERY_FILTER ;;
  console_log ("Navcat path points: "
                 ++ Number.to_string (List.length navcatPath)) ;;;
  (* Visualize navcat path (green) *)
  let navcatPathPoints :=
    map (fun p => of_array (point_position p)) navcatPath in
  let navcatPathVisuals :=
    {| group_name := "Navcat Path (Green)";
       group_children := path_visuals navcatPathPoints 65280 |} in
  (* Recast path *)
  emit (Call (NewNavMeshQuery (recastNav genResults))) ;;;
  recastFoundPath <-
    call_recast_computePath (recastNav genResults) startPos endPos None ;;
  console_log ("Recast path points: "
                 ++ Number.to_string (List.length recastFoundPath)) ;;;
  (* Visualize recast path (red) *)
  let recastPathVisuals :=
    {| group_name := "Recast Path (Red)";
       group_children :=
         match recastFoundPath with
         | [] => []
         | _ :: _ => path_visuals recastFoundPath 16711680
         end |} in
  ret {| navcatPath := navcatPath;
         recastPath := recastFoundPath;
         navcatPathVisuals := navcatPathVisuals;
         recastPathVisuals := recastPathVisuals |}.

(** [() => { recastQuery.computePath(startPos, endPos); }] *)
Definition recast_query_fn (navMesh : RecastNavMesh) : unit -> JS unit :=
  fun _ =>
    call_recast_computePath navMesh startPos endPos None ;;;
    ret tt.

(** [() => { navcat.findPath(navMesh, start, end, halfExtents, filter); }] *)
Definition navcat_query_fn (navMesh : option NavcatNavMesh)
           (navcatStart navcatEnd navcatHalfExtents : Navcat.Vec3)
           (navcatQueryFilter : NavcatQueryFilter) : unit -> JS unit :=
  fun _ =>
    call_navcat_findPath navMesh navcatStart navcatEnd navcatHalfExtents
      navcatQueryFilter ;;;
    ret tt.

Definition benchmarkQueries (genResults : GenerationResults)
  : JS QueryBenchmarkResults :=
  set_status "Benchmarking queries..." ;;;
  (* Recast query benchmark *)
  emit (Call (NewNavMeshQuery (recastNav genResults))) ;;;
  '(recastQueryTime, _) <-
    benchmark "recast query"
      (recast_query_fn (recastNav genResults)) 100 10000 tt ;;
  console_log_result
    ("Recast query (" ++ Number.to_string (runs recastQueryTime)
                      ++ " iterations):") recastQueryTime ;;;
  (* Navcat query benchmark *)
  let navcatQueryFilter := DEFAULT_QUERY_FILTER in
  let navcatStart := to_array startPos in
  let navcatEnd := to_array endPos in
  let navcatHalfExtents := to_array halfExtents in
  '(navcatQueryTime, _) <-
    benchmark "navcat query"
      (navcat_query_fn (navcatNav genResults)
         navcatStart navcatEnd navcatHalfExtents navcatQueryFilter)
      100 10000 tt ;;
  console_log_result
    ("Navcat query (" ++ Number.to_string (runs navcatQueryTime)
                      ++ " iterations):") navcatQueryTime ;;;
  ret {| navcatQueryTime := navcatQueryTime;
         recastQueryTime := recastQueryTime |}.

Definition newline : string := String (ascii_of_nat 10) EmptyString.

Definition displaySummary (recastInitTime : float)
           (genResults : GenerationResults)
           (queryResults : QueryBenchmarkResults) : JS unit :=
  let gen r := toFixed (mean r) 2 ++ "ms ± " ++ toFixed (stdDev r) 2 ++ "ms" in
  let query r :=
    toFixed (mean r) 3 ++ "ms ± " ++ toFixed (stdDev r) 3 ++ "ms (total: "
      ++ toFixed (mean r * Number.of_nat (runs r))%float 0 ++ "ms)" in
  let summary :=
    "=== BENCHMARK RESULTS ===" ++ newline ++ newline
    ++ "Recast Init: " ++ toFixed recastInitTime 2 ++ "ms" ++ newline ++ newline
    ++ "Generation:" ++ newline
    ++ "  Navcat: " ++ gen (navcatGenTime genResults) ++ newline
    ++ "  Recast: " ++ gen (recastGenTime genResults) ++ newline ++ newline
    ++ "Query (per query, "
    ++ Number.to_string (warmupRuns (navcatQueryTime queryResults))
    ++ " warmup + "
    ++ toLocaleString (runs (navcatQueryTime queryResults)) ++ " runs):" ++ newline
    ++ "  Navcat: " ++ query (navcatQueryTime queryResults) ++ newline
    ++ "  Recast: " ++ query (recastQueryTime queryResults) ++ newline ++ newline
    ++ "Visualization:" ++ newline
    ++ "  Green = Navcat Path" ++ newline
    ++ "  Red = Recast Path" ++ newline
    ++ "  Use GUI to toggle meshes and paths" in
  console_log summary ;;;
  set_status summary.

(** [setupScene], from the loaded model on: the extraction of the
    geometry and the status lines.  The renderer, the camera, the lights
    and the animation loop do not take part. *)
Definition setupScene (glbScene : THREE.Object3D) : JS TriangleBuffer :=
  set_status "Loading model..." ;;;
  (* Extract geometry *)
  set_status "Extracting geometry..." ;;;
  let buffer := gatherTrianglesFromScene glbScene in
  set_status
    ("Triangles: "
       ++ toString (Number.of_nat (List.length (indices buffer)) / 3)%float
       ++ ", Vertices: "
       ++ toString (Number.of_nat (List.length (positions buffer)) / 3)%float) ;;;
  ret buffer.

(** [run] on a loaded model, together with the handler of
    [run().catch(...)].  The GUI toggles do not take part. *)
Definition run (glbScene : THREE.Object3D) : JS unit :=
  set_status "Initializing..." ;;;
  (* Setup scene and load model *)
  sceneSetup <- setupScene glbScene ;;
  (* Initialize Recast *)
  set_status "Initializing Recast..." ;;;
  recastInitTime <- initializeRecast ;;
  (* Create generation options *)
  let options := createGenerationOptions in
  (* Run generation benchmarks *)
  generated <-
    benchmarkGeneration (positions sceneSetup) (indices sceneSetup) options ;;
  match generated with
  | Thrown err =>
      console_error err ;;;
      emit (ErrorOverlay (overlay_text err))
  | Returned genResults =>
      (* Visualize navmeshes *)
      visualizeNavMeshes genResults ;;;
      (* Verify paths *)
      pathVisuals <- verifyPaths genResults ;;
      (* Run query benchmarks *)
      queryResults <- benchmarkQueries genResults ;;
      (* Display summary *)
      displaySummary recastInitTime genResults queryResults
  end.

End Harness.

(* ---------------------------------------------------------------------- *)
(** ** Reading traces                                                      *)
(* ---------------------------------------------------------------------- *)

Section Traces.

Context {call : Type}.

(** The clock values read by the traced function itself (not by the
    callbacks it invokes), in order. *)
Fixpoint clock_readings (t : list (event call)) : list float :=
  match t with
  | [] => []
  | PerformanceNow x :: t' => x :: clock_readings t'
  | _ :: t' => clock_readings t'
  end.

(** Clock readings paired up into elapsed times. *)
Fixpoint durations (readings : list float) : list float :=
  match readings with
  | start :: end_ :: rest => (end_ - start)%float :: durations rest
  | _ => []
  end.

(** Sum of a series, left to right from [0]. *)
Definition sum_numbers (l : list float) : float :=
  fold_left PrimFloat.add l 0%float.

(** Number of callback invocations made by the traced function itself. *)
Fixpoint invocations (t : list (event call)) : nat :=
  match t with
  | [] => 0
  | Invoke _ :: t' => S (invocations t')
  | _ :: t' => invocations t'
  end.

(** Every call to an external service, including those made inside
    callbacks, in execution order. *)
Fixpoint calls_of_event (e : event call) : list call :=
  match e with
  | Call c => [c]
  | Invoke body => flat_map calls_of_event body
  | _ => []
  end.

Definition calls_of (t : list (event call)) : list call :=
  flat_map calls_of_event t.

(** One timed iteration: clock before, events of the callback, clock
    after. *)
Definition measurement : Type := (float * list (event call) * float)%type.

Definition measurement_events (m : measurement) : list (event call) :=
  let '(start, body, end_) := m in
  [PerformanceNow start; Invoke body; PerformanceNow end_].

Definition measurement_time (m : measurement) : float :=
  let '(start, _, end_) := m in (end_ - start)%float.

End Traces.

Section BackendTraces.

Context {host : Host} {B : Backends}.

(** Handles handed back by the Recast build calls of a trace. *)
Definition recast_builds (t : list (event backend_call))
  : list (option RecastNavMesh) :=
  flat_map (fun c => match c with
                     | RecastGenerate _ _ _ nav => [nav]
                     | _ => []
                     end) (calls_of t).

(** Handles handed back by the navcat build calls of a trace. *)
Definition navcat_builds (t : list (event backend_call))
  : list NavcatNavMesh :=
  flat_map (fun c => match c with
                     | NavcatGenerate _ _ _ nav => [nav]
                     | _ => []
                     end) (calls_of t).

(** Configurations received by the Recast build calls of a trace. *)
Definition recast_configs (t : list (event backend_call))
  : list Recast.Config :=
  flat_map (fun c => match c with
                     | RecastGenerate _ _ cfg _ => [cfg]
                     | RecastGenerateThrew _ _ cfg _ => [cfg]
                     | _ => []
                     end) (calls_of t).

(** Options received by the navcat build calls of a trace. *)
Definition navcat_options (t : list (event backend_call))
  : list Navcat.Options :=
  flat_map (fun c => match c with
                     | NavcatGenerate _ _ opts _ => [opts]
                     | NavcatGenerateThrew _ _ opts _ => [opts]
                     | _ => []
                     end) (calls_of t).

(** The pathfinding queries of a trace. *)
Definition is_path_query (c : backend_call) : bool :=
  match c with
  | NavcatFindPath _ _ _ _ _ | RecastComputePath _ _ _ _ => true
  | _ => false
  end.

Definition path_queries (t : list (event backend_call)) : list backend_call :=
  filter is_path_query (calls_of t).

(** The search half-extents a query invocation received, if any. *)
Definition query_halfExtents (c : backend_call) : option THREE.Vector3 :=
  match c with
  | NavcatFindPath _ _ _ h _ => Some (of_array h)
  | RecastComputePath _ _ _ h => h
  | _ => None
  end.

Definition query_start (c : backend_call) : option THREE.Vector3 :=
  match c with
  | NavcatFindPath _ s _ _ _ => Some (of_array s)
  | RecastComputePath _ s _ _ => Some s
  | _ => None
  end.

Definition query_end (c : backend_call) : option THREE.Vector3 :=
  match c with
  | NavcatFindPath _ _ e _ _ => Some (of_array e)
  | RecastComputePath _ _ e _ => Some e
  | _ => None
  end.

(** The mesh-build calls. *)
Definition is_build (c : backend_call) : bool :=
  match c with
  | RecastGenerate _ _ _ _ | NavcatGenerate _ _ _ _
  | RecastGenerateThrew _ _ _ _ | NavcatGenerateThrew _ _ _ _ => true
  | _ => false
  end.

(** The stages of [run] that follow a successful generation (the
    [Returned] branch of [run]). *)
Definition after_generation (recastInitTime : float) (g : GenerationResults)
  : JS unit :=
  (visualizeNavMeshes g ;;;
   pathVisuals <- verifyPaths g ;;
   queryResults <- benchmarkQueries g ;;
   displaySummary recastInitTime g queryResults)%js.

End BackendTraces.

(* ---------------------------------------------------------------------- *)
(** ** Concrete hosts for the examples                                     *)
(* ---------------------------------------------------------------------- *)

Module Examples.

(** A host whose clock replays a script, one value per reading ([0]
    once the script is used up), and whose [**] is exact on squares. *)
Definition scripted_host : Host :=
  {| World := list float;
     performance_now :=
       fun w => match w with
                | [] => (0%float, [])
                | t :: w' => (t, w')
                end;
     exponentiate := fun b _ => (b * b)%float |}.

(** Backends with numbered handles.  Recast hands back a navmesh iff
    [recast_ok]; a navcat query finds a one-point path iff [navcat_ok]
    and an empty one otherwise; a Recast query finds a one-point path;
    errors carry no stack. *)
Definition stub_backends (recast_ok navcat_ok : bool)
  : Backends (host := scripted_host) :=
  {| RecastNavMesh := nat;
     NavcatNavMesh := nat;
     NavcatIntermediates := nat;
     NavcatQueryFilter := unit;
     NavcatPathPoint := Navcat.Vec3;
     DEFAULT_QUERY_FILTER := tt;
     point_position := fun p => p;
     recast_init := fun w => w;
     recast_generateSoloNavMesh :=
       fun _ _ _ w => (if recast_ok then Some 1 else None, w);
     navcat_generateSoloNavMesh := fun _ _ _ w => ((2, 3), w);
     navcat_findPath :=
       fun _ s _ _ _ w => (if navcat_ok then [s] else [], w);
     recast_computePath := fun _ s _ _ w => ([s], w);
     toFixed := fun _ _ => "0"%string;
     toLocaleString := Number.to_string;
     toString := fun _ => "0"%string;
     Error_stack := fun _ => None |}.

(** Rigid translations as world matrices. *)
Definition translations : THREE.Transform :=
  {| THREE.Matrix4 := THREE.Vector3;
     THREE.applyMatrix4 :=
       fun m v =>
         {| THREE.x := (THREE.x v + THREE.x m)%float;
            THREE.y := (THREE.y v + THREE.y m)%float;
            THREE.z := (THREE.z v + THREE.z m)%float |} |}.

Definition origin : THREE.Vector3 :=
  {| THREE.x := 0%float; THREE.y := 0%float; THREE.z := 0%float |}.

Definition vertex (a b c : float) : THREE.Vector3 :=
  {| THREE.x := a; THREE.y := b; THREE.z := c |}.

(** A non-indexed triangle placed at [at_]. *)
Definition triangle (at_ : THREE.Vector3) : THREE.Mesh (T := translations) :=
  @THREE.Build_Mesh translations
    {| THREE.position := [vertex 0 0 0; vertex 1 0 0; vertex 0 0 1];
       THREE.index := None |}
    at_.

(** A group with two sibling triangles. *)
Definition two_triangles : THREE.Object3D (T := translations) :=
  THREE.Node None
    [THREE.Node (Some (triangle origin)) [];
     THREE.Node (Some (triangle (vertex 10 0 0))) []].

(** A mesh of three vertices whose index buffer holds two entries, one
    of them out of range. *)
Definition corrupt_mesh : THREE.Mesh (T := translations) :=
  @THREE.Build_Mesh translations
    {| THREE.position := [vertex 0 0 0; vertex 1 0 0; vertex 0 0 1];
       THREE.index := Some [0%N; 7%N] |}
    origin.

Definition corrupt_scene : THREE.Object3D (T := translations) :=
  THREE.Node (Some corrupt_mesh) [].

(** A mesh of four vertices without index list. *)
Definition quad_mesh : THREE.Mesh (T := translations) :=
  @THREE.Build_Mesh translations
    {| THREE.position :=
         [vertex 0 0 0; vertex 1 0 0; vertex 1 0 1; vertex 0 0 1];
       THREE.index := None |}
    origin.

Definition quad_scene : THREE.Object3D (T := translations) :=
  THREE.Node None [THREE.Node (Some quad_mesh) []].

(** Generation results over the stub backends, as [benchmarkGeneration]
    returns them when both builds hand back a navmesh. *)
Definition sample_generation (recast_ok navcat_ok : bool)
  : GenerationResults (B := stub_backends recast_ok navcat_ok) :=
  @Build_GenerationResults scripted_host (stub_backends recast_ok navcat_ok)
    (Some 2) (Some 3)
    (calculate_stats (host := scripted_host) "navcat generation" 3 10 [])
    1
    (calculate_stats (host := scripted_host) "recast generation" 3 10 []).

(** A callback that does nothing. *)
Definition noop : unit -> M (host := scripted_host) (call := Empty_set) unit :=
  fun _ => ret tt.

End Examples.

(* ---------------------------------------------------------------------- *)
(** ** Further readings of scenes and traces                               *)
(* ---------------------------------------------------------------------- *)

Section SceneMeasures.

Context {T : THREE.Transform}.

(** The numbers a mesh contributes to [positions]: the world-space
    coordinates of its vertices, three per vertex. *)
Definition world_coordinates (m : THREE.Mesh) : list float :=
  flat_map (fun p =>
              let vec := THREE.applyMatrix4 (THREE.matrixWorld m) p in
              [THREE.x vec; THREE.y vec; THREE.z vec])
           (THREE.position (THREE.geometry m)).

(** Number of vertices of a sequence of meshes. *)
Definition total_vertices (ms : list THREE.Mesh) : nat :=
  list_sum (map (fun m => List.length (THREE.position (THREE.geometry m))) ms).

End SceneMeasures.

Section TimedIterations.

Context {call : Type}.

(** The timed iterations of a trace: every clock reading that is followed
    by the invocation of a callback and a second clock reading. *)
Fixpoint measurements (t : list (event call))
  : list (measurement (call:=call)) :=
  match t with
  | [] => []
  | PerformanceNow start :: t' =>
      match t' with
      | Invoke body :: PerformanceNow end_ :: rest =>
          (start, body, end_) :: measurements rest
      | _ => measurements t'
      end
  | _ :: t' => measurements t'
  end.

(** The calls to external services made inside a timed iteration. *)
Definition measurement_calls (m : measurement (call:=call)) : list call :=
  let '(_, body, _) := m in calls_of body.

(** The texts the traced function itself writes to the status line
    ([statusElement.textContent = ...]), in order. *)
Fixpoint status_lines (t : list (event call)) : list string :=
  match t with
  | [] => []
  | Status text :: t' => text :: status_lines t'
  | _ :: t' => status_lines t'
  end.

End TimedIterations.

(* ---------------------------------------------------------------------- *)
(** ** Counting and chaining the invocations of a callback                 *)
(* ---------------------------------------------------------------------- *)

Section Invocations.

Context {host : Host} {call : Type}.
Local Open Scope js_scope.

(** A callback instrumented with a counter of its own invocations:
    [() => { count++; fn(); }]. *)
Definition counted {S} (fn : S -> M (call:=call) S)
  : nat * S -> M (call:=call) (nat * S) :=
  fun cs =>
    s' <- fn (snd cs) ;;
    ret (Datatypes.S (fst cs), s').

(** [runs] lists successive invocations of [fn], each given by the
    captured variables and the world it starts from: the first starts
    from the variables [s], every other from the variables its
    predecessor left, and the last one leaves [final]. *)
Fixpoint chained {S} (fn : S -> M (call:=call) S) (s : S)
         (runs : list (S * World)) (final : S) : Prop :=
  match runs with
  | [] => final = s
  | (s0, w0) :: rest =>
      s0 = s /\ chained fn (result_of (fn s0 w0)) rest final
  end.

(** The events of the invocation that starts from [sw]. *)
Definition invocation_events {S} (fn : S -> M (call:=call) S)
           (sw : S * World) : list (event call) :=
  trace_of (fn (fst sw) (snd sw)).

(** A computation that returns what [m] returns. *)
Definition returning {A} (m : M (call:=call) A) : M (call:=call) (outcome A) :=
  fun w => let '(a, w', t) := m w in (Returned a, w', t).

(** The calls of a loop whose callback makes one call [mk x] per
    invocation: those of the invocations that returned, followed by the
    call that threw when the loop ended as [Thrown]. *)
Definition calls_until {X A} (mk : X -> call) (mk_threw : js_error -> call)
           (xs : list X) (r : outcome A) : list call :=
  map mk xs ++ match r with
               | Returned _ => []
               | Thrown err => [mk_threw err]
               end.

End Invocations.

(* ---------------------------------------------------------------------- *)
(** ** Build calls that throw                                              *)
(* ---------------------------------------------------------------------- *)

(** Which build calls throw: [Some (err, w')] when the call throws [err]
    and leaves the world [w'], [None] when it returns (with the result
    [Backends] gives).  An exception is how a navcat build fails; a
    Recast build can fail either way. *)
Class BuildExceptions {host : Host} {B : Backends} : Type := {
  recast_generate_throws :
    list float -> list N -> Recast.Config -> World -> option (js_error * World);
  navcat_generate_throws :
    list float -> list N -> Navcat.Options -> World -> option (js_error * World);
}.

(** The harness with build calls that may throw.  Nothing between the
    build call and the handler of [run().catch] catches an exception: it
    ends the callback, the loop of [benchmark], [benchmarkGeneration]
    and [run]. *)
Module Throwing.

Section Loops.

Context {host : Host} {call : Type}.
Local Open Scope js_scope.
Local Open Scope string_scope.

(** Calling a closure [fn: () => void] that may throw. *)
Definition invoke {S A} (fn : S -> M (call:=call) A) (s : S) : M A :=
  fun w => let '(a, w', t) := fn s w in (a, w', [Invoke t]).

(** [for (let i = 0; i < warmupRuns; i++) fn();] *)
Fixpoint warmup_loop {S} (fn : S -> M (call:=call) (outcome S)) (n : nat)
         (s : S) : M (outcome S) :=
  match n with
  | O => ret (Returned s)
  | Datatypes.S n' =>
      r <- invoke fn s ;;
      match r with
      | Returned s' => warmup_loop fn n' s'
      | Thrown err => ret (Thrown err)
      end
  end.

(** [for (let i = 0; i < runs; i++) { start; fn(); end; times.push(end - start) }] *)
Fixpoint timed_loop {S} (fn : S -> M (call:=call) (outcome S)) (n : nat)
         (times : list float) (s : S) : M (outcome (list float * S)) :=
  match n with
  | O => ret (Returned (times, s))
  | Datatypes.S n' =>
      start <- now ;;
      r <- invoke fn s ;;
      match r with
      | Returned s' =>
          end_ <- now ;;
          timed_loop fn n' (times ++ [(end_ - start)%float]) s'
      | Thrown err => ret (Thrown err)
      end
  end.

Definition benchmark {S} (name : string)
           (fn : S -> M (call:=call) (outcome S))
           (warmupRuns runs : nat) (s : S)
  : M (outcome (BenchmarkResult * S)) :=
  console_log (name ++ ": running " ++ Number.to_string warmupRuns
                    ++ " warmup iterations...") ;;;
  warmed <- warmup_loop fn warmupRuns s ;;
  match warmed with
  | Thrown err => ret (Thrown err)
  | Returned s1 =>
      console_log (name ++ ": running " ++ Number.to_string runs
                        ++ " benchmark iterations...") ;;;
      timed <- timed_loop fn runs [] s1 ;;
      match timed with
      | Thrown err => ret (Thrown err)
      | Returned (times, s2) =>
          ret (Returned (calculate_stats name warmupRuns runs times, s2))
      end
  end.

End Loops.

Section Stages.

Context {host : Host} {B : Backends} {X : BuildExceptions}
        {T : THREE.Transform}.
Local Open Scope js_scope.
Local Open Scope string_scope.

Definition call_recast_generate positions indices config
  : JS (outcome (option RecastNavMesh)) :=
  fun w =>
    match recast_generate_throws positions indices config w with
    | Some (err, w') =>
        (Thrown err, w',
         [Call (RecastGenerateThrew positions indices config err)])
    | None =>
        let '(nav, w') := recast_generateSoloNavMesh positions indices config w in
        (Returned nav, w', [Call (RecastGenerate positions indices config nav)])
    end.

Definition call_navcat_generate positions indices options
  : JS (outcome (NavcatNavMesh * NavcatIntermediates)) :=
  fun w =>
    match navcat_generate_throws positions indices options w with
    | Some (err, w') =>
        (Thrown err, w',
         [Call (NavcatGenerateThrew positions indices options err)])
    | None =>
        let '(r, w') := navcat_generateSoloNavMesh positions indices options w in
        (Returned r, w', [Call (NavcatGenerate positions indices options (fst r))])
    end.

(** [() => { const result = generateSoloNavMesh(positions, indices, recastOptions);
             recastNav = result.navMesh ?? undefined; }] *)
Definition recast_generation_fn (positions : list float) (indices : list N)
           (recastOptions : Recast.Config)
  : option RecastNavMesh -> JS (outcome (option RecastNavMesh)) :=
  fun _ =>
    result <- call_recast_generate positions indices recastOptions ;;
    match result with
    | Returned navMesh => ret (Returned navMesh)
    | Thrown err => ret (Thrown err)
    end.

(** [() => { const result = generateSoloNavMesh(navcatInput, navcatOptions);
             navcatNav = result.navMesh;
             navcatIntermediates = result.intermediates; }] *)
Definition navcat_generation_fn (positions : list float) (indices : list N)
           (navcatOptions : Navcat.Options)
  : option NavcatNavMesh * option NavcatIntermediates ->
    JS (outcome (option NavcatNavMesh * option NavcatIntermediates)) :=
  fun _ =>
    result <- call_navcat_generate positions indices navcatOptions ;;
    match result with
    | Returned r => ret (Returned (Some (fst r), Some (snd r)))
    | Thrown err => ret (Thrown err)
    end.

Definition benchmarkGeneration (positions : list float) (indices : list N)
           (options : GenerationOptions) : JS (outcome GenerationResults) :=
  (* Recast generation *)
  set_status "Benchmarking Recast generation..." ;;;
  let recastOptions := recastOptions options in
  recast <-
    benchmark "recast generation"
      (recast_generation_fn positions indices recastOptions)
      default_warmupRuns default_runs None ;;
  match recast with
  | Thrown err => ret (Thrown err)
  | Returned (recastGenTime, recastNav) =>
      console_log_result "Recast generation:" recastGenTime ;;;
      match recastNav with
      | None => ret (Thrown (new_Error "Recast navmesh generation failed"))
      | Some recastNav =>
          (* Navcat generation *)
          set_status "Benchmarking Navcat generation..." ;;;
          let navcatOptions := navcatOptions options in
          navcat <-
            benchmark "navcat generation"
              (navcat_generation_fn positions indices navcatOptions)
              default_warmupRuns default_runs (None, None) ;;
          match navcat with
          | Thrown err => ret (Thrown err)
          | Returned (navcatGenTime, (navcatNav, navcatIntermediates)) =>
              console_log_result "Navcat generation:" navcatGenTime ;;;
              ret (Returned {| navcatNav := navcatNav;
                               navcatIntermediates := navcatIntermediates;
                               navcatGenTime := navcatGenTime;
                               recastNav := recastNav;
                               recastGenTime := recastGenTime |})
          end
      end
  end.

(** [run] on a loaded model, together with the handler of
    [run().catch(...)]; the calls made after the generation return. *)
Definition run (glbScene : THREE.Object3D) : JS unit :=
  set_status "Initializing..." ;;;
  (* Setup scene and load model *)
  sceneSetup <- setupScene glbScene ;;
  (* Initialize Recast *)
  set_status "Initializing Recast..." ;;;
  recastInitTime <- initializeRecast ;;
  (* Create generation options *)
  let options := createGenerationOptions in
  (* Run generation benchmarks *)
  generated <-
    benchmarkGeneration (positions sceneSetup) (indices sceneSetup) options ;;
  match generated with
  | Thrown err =>
      console_error err ;;;
      emit (ErrorOverlay (overlay_text err))
  | Returned genResults =>
      (* Visualize navmeshes *)
      visualizeNavMeshes genResults ;;;
      (* Verify paths *)
      pathVisuals <- verifyPaths genResults ;;
      (* Run query benchmarks *)
      queryResults <- benchmarkQueries genResults ;;
      (* Display summary *)
      displaySummary recastInitTime genResults queryResults
  end.

End Stages.

End Throwing.

Section BuildOutcomes.

Context {host : Host} {B : Backends}.

(** How the Recast build calls of a trace ended, in order. *)
Definition recast_build_outcomes (t : list (event backend_call))
  : list (outcome (option RecastNavMesh)) :=
  flat_map (fun c => match c with
                     | RecastGenerate _ _ _ nav => [Returned nav]
                     | RecastGenerateThrew _ _ _ err => [Thrown err]
                     | _ => []
                     end) (calls_of t).

(** How the navcat build calls of a trace ended, in order. *)
Definition navcat_build_outcomes (t : list (event backend_call))
  : list (outcome NavcatNavMesh) :=
  flat_map (fun c => match c with
                     | NavcatGenerate _ _ _ nav => [Returned nav]
                     | NavcatGenerateThrew _ _ _ err => [Thrown err]
                     | _ => []
                     end) (calls_of t).

(** The last element of a list, if any. *)
Definition final_of {A} (l : list A) : option A := last (map Some l) None.

(** No build call ever throws. *)
Definition never_throws {X : BuildExceptions} : Prop :=
  (forall positions indices config w,
      recast_generate_throws positions indices config w = None) /\
  (forall positions indices options w,
      navcat_generate_throws positions indices options w = None).

(** How a run of the generation benchmark ends, and the calls it made. *)
Inductive generation_run (positions : list float) (indices : list N)
          (options : GenerationOptions)
  : outcome GenerationResults -> list backend_call -> Prop :=
| recast_threw navs err :
    List.length navs < 13 ->
    generation_run positions indices options (Thrown err)
      (map (RecastGenerate positions indices (recastOptions options)) navs
         ++ [RecastGenerateThrew positions indices (recastOptions options) err])
| recast_failed navs :
    List.length navs = 13 -> last navs None = None ->
    generation_run positions indices options
      (Thrown (new_Error "Recast navmesh generation failed"%string))
      (map (RecastGenerate positions indices (recastOptions options)) navs)
| navcat_threw navs nav (xs : list (NavcatNavMesh * NavcatIntermediates)) err :
    List.length navs = 13 -> last navs None = Some nav ->
    List.length xs < 13 ->
    generation_run positions indices options (Thrown err)
      (map (RecastGenerate positions indices (recastOptions options)) navs
         ++ map (fun x => NavcatGenerate positions indices
                            (navcatOptions options) (fst x)) xs
         ++ [NavcatGenerateThrew positions indices (navcatOptions options) err])
| both_built navs nav (xs : list (NavcatNavMesh * NavcatIntermediates)) g :
    List.length navs = 13 -> last navs None = Some nav ->
    List.length xs = 13 ->
    recastNav g = nav -> navcatNav g = final_of (map fst xs) ->
    generation_run positions indices options (Returned g)
      (map (RecastGenerate positions indices (recastOptions options)) navs
         ++ map (fun x => NavcatGenerate positions indices
                            (navcatOptions options) (fst x)) xs).

End BuildOutcomes.


Module MoreExamples.

(** The two triangles of [Examples.two_triangles], grouped differently:
    the first is the root itself, the second sits below an empty node. *)
Definition nested_triangles : THREE.Object3D (T := Examples.translations) :=
  THREE.Node (Some (Examples.triangle Examples.origin))
    [THREE.Node None
       [THREE.Node (Some (Examples.triangle (Examples.vertex 10 0 0))) []]].

(** What [benchmarkGeneration] returns over the stub backends when both
    engines hand back a navmesh and the clock stands still. *)
Definition generated
  : GenerationResults (B := Examples.stub_backends true true) :=
  @Build_GenerationResults Examples.scripted_host
    (Examples.stub_backends true true)
    (Some 2) (Some 3)
    (calculate_stats (host := Examples.scripted_host) "navcat generation" 3 10
       (repeat 0%float 10))
    1
    (calculate_stats (host := Examples.scripted_host) "recast generation" 3 10
       (repeat 0%float 10)).

(** Build calls over the stub backends: the Recast build throws iff
    [recast_throws], the navcat build iff [navcat_throws]. *)
Definition out_of_memory : js_error :=
  {| error_string := "RangeError: out of memory"%string;
     error_stack := Some "RangeError: out of memory at build"%string |}.

Definition stub_exceptions (recast_ok recast_throws navcat_throws : bool)
  : BuildExceptions (B := Examples.stub_backends recast_ok true) :=
  {| recast_generate_throws :=
       fun _ _ _ w => if recast_throws then Some (out_of_memory, w) else None;
     navcat_generate_throws :=
       fun _ _ _ w => if navcat_throws then Some (out_of_memory, w) else None |}.

End MoreExamples.

(* ====================================================================== *)
(** * Part II: properties                                                  *)
(* ====================================================================== *)

(* ---------------------------------------------------------------------- *)
(** ** Order and subtraction on binary64                                   *)
(* ---------------------------------------------------------------------- *)

Module NumberFacts.

Import Number.
Local Open Scope Z_scope.

Lemma digits2_pos_size m : digits2_pos m = Pos.size m.
Proof. induction m; simpl; congruence. Qed.

Lemma pos_size_bounds m :
  2 ^ (Z.pos (Pos.size m) - 1) <= Z.pos m < 2 ^ Z.pos (Pos.size m).
Proof.
  pose proof (Pos.size_gt m) as Hgt. pose proof (Pos.size_le m) as Hle.
  apply Pos2Z.pos_lt_pos in Hgt. apply Pos2Z.pos_le_pos in Hle.
  rewrite Pos2Z.inj_pow in Hgt, Hle.
  replace (Z.pos (Pos.size m)) with (Z.succ (Z.pos (Pos.size m) - 1)) in Hle at 1 by lia.
  rewrite Z.pow_succ_r in Hle by lia.
  change (Z.pos m~0) with (2 * Z.pos m) in Hle. lia.
Qed.

(** What [valid_binary] says of a finite binary64 value. *)
Lemma bounded_inv m e :
  bounded prec emax m e = true ->
  emin64 <= e <= emax - prec /\
  Z.pos (Pos.size m) <= prec /\
  (Z.pos (Pos.size m) = prec \/ e = emin64).
Proof.
  unfold bounded, canonical_mantissa, fexp.
  rewrite andb_true_iff, digits2_pos_size.
  fold emin64. intros [Hc He]. apply Z.eqb_eq in Hc. apply Z.leb_le in He. lia.
Qed.

Lemma finite_rank_lt m e :
  bounded prec emax m e = true -> 0 < Z.pos m * 2 ^ (e - emin64) < inf_rank.
Proof.
  intros Hb. destruct (bounded_inv _ _ Hb) as (He & Hd & _).
  pose proof (pos_size_bounds m) as [_ Hm].
  assert (Hp : 0 < 2 ^ (e - emin64)) by (apply Z.pow_pos_nonneg; lia).
  split; [lia|].
  assert (H1 : 2 ^ Z.pos (Pos.size m) <= 2 ^ prec) by (apply Z.pow_le_mono_r; lia).
  assert (H2 : 2 ^ (e - emin64) <= 2 ^ (emax - prec - emin64))
    by (apply Z.pow_le_mono_r; lia).
  unfold inf_rank. change 2098 with (prec + (emax - prec - emin64)).
  rewrite Z.pow_add_r by (unfold emin64, SpecFloat.emin, emax, prec; lia).
  assert (0 < 2 ^ prec) by (apply Z.pow_pos_nonneg; unfold prec; lia).
  nia.
Qed.

(** Among canonical representations the exponent decides first. *)
Lemma canonical_lt m1 e1 m2 e2 :
  bounded prec emax m1 e1 = true -> bounded prec emax m2 e2 = true ->
  e1 < e2 -> Z.pos m1 * 2 ^ (e1 - emin64) < Z.pos m2 * 2 ^ (e2 - emin64).
Proof.
  intros H1 H2 Hlt.
  destruct (bounded_inv _ _ H1) as (He1 & Hd1 & _).
  destruct (bounded_inv _ _ H2) as (He2 & Hd2 & Hc2).
  assert (Hfull : Z.pos (Pos.size m2) = prec) by lia.
  pose proof (pos_size_bounds m1) as [_ Hm1].
  pose proof (pos_size_bounds m2) as [Hm2 _].
  rewrite Hfull in Hm2.
  assert (Hm1' : Z.pos m1 < 2 ^ prec).
  { eapply Z.lt_le_trans; [exact Hm1|]. apply Z.pow_le_mono_r; lia. }
  replace (2 ^ prec) with (2 * 2 ^ (prec - 1)) in Hm1'
    by (rewrite <- Z.pow_succ_r by (unfold prec; lia); f_equal; lia).
  replace (e2 - emin64) with ((e2 - e1 - 1) + 1 + (e1 - emin64)) by lia.
  rewrite !Z.pow_add_r by lia. change (2 ^ 1) with 2.
  assert (0 < 2 ^ (e1 - emin64)) by (apply Z.pow_pos_nonneg; lia).
  assert (0 < 2 ^ (e2 - e1 - 1)) by (apply Z.pow_pos_nonneg; lia).
  set (P := 2 ^ (e1 - emin64)) in *. set (Q := 2 ^ (e2 - e1 - 1)) in *.
  set (A := 2 ^ (prec - 1)) in *.
  apply Z.lt_le_trans with (2 * A * P); [nia|].
  replace (Z.pos m2 * (Q * 2 * P)) with (2 * P * (Z.pos m2 * Q)) by ring.
  replace (2 * A * P) with (2 * P * A) by ring.
  apply Z.mul_le_mono_nonneg_l; [lia|]. nia.
Qed.

Lemma inf_rank_pos : 0 < inf_rank.
Proof. unfold inf_rank. apply Z.pow_pos_nonneg; lia. Qed.

Ltac solve_cmp :=
  unfold SFcompare, SFsgn, SFrank, cond_Zopp, negb; try f_equal; symmetry;
  first [ apply Z.compare_eq_iff; lia
        | apply Z.compare_lt_iff; lia
        | apply Z.compare_gt_iff; lia ].

(** [SFcompare] is the comparison of ranks. *)
Lemma SFcompare_rank x y :
  valid_binary x = true -> valid_binary y = true ->
  SFis_nan x = false -> SFis_nan y = false ->
  SFcompare x y = Some (SFrank x ?= SFrank y).
Proof.
  intros Hx Hy Nx Ny. pose proof inf_rank_pos as Hinf.
  destruct x as [sx|sx| |sx mx ex], y as [sy|sy| |sy my ey];
    try discriminate; cbn [valid_binary] in Hx, Hy;
    try (pose proof (finite_rank_lt _ _ Hx) as [Hpx Hqx]);
    try (pose proof (finite_rank_lt _ _ Hy) as [Hpy Hqy]);
    try (destruct sx); try (destruct sy); try solve_cmp.
  - unfold SFcompare, SFrank, cond_Zopp. f_equal.
    rewrite Z.compare_opp, (Z.compare_antisym (Z.pos mx * _)).
    destruct (Z.compare_spec ex ey) as [E|L|G].
    + subst ey. rewrite <- Zmult_compare_compat_r by lia. reflexivity.
    + pose proof (canonical_lt _ _ _ _ Hx Hy L) as Hl.
      apply Z.compare_lt_iff in Hl. rewrite Hl. reflexivity.
    + pose proof (canonical_lt _ _ _ _ Hy Hx G) as Hl.
      apply Z.compare_gt_iff in Hl. rewrite Hl. reflexivity.
  - unfold SFcompare, SFrank, cond_Zopp. f_equal.
    destruct (Z.compare_spec ex ey) as [E|L|G].
    + subst ey. rewrite <- Zmult_compare_compat_r by lia. reflexivity.
    + symmetry. apply Z.compare_lt_iff. now apply canonical_lt.
    + symmetry. apply Z.compare_gt_iff. now apply canonical_lt.
Qed.

Lemma iter_pos_nat {A} (f : A -> A) p x :
  iter_pos f p x = Nat.iter (Pos.to_nat p) f x.
Proof.
  revert x. induction p as [p IH|p IH|]; intros x; cbn [iter_pos].
  - rewrite !IH, Pos2Nat.inj_xI. cbn [Nat.mul].
    rewrite Nat.add_0_r, <- Nat.iter_add, <- Nat.iter_succ_r. reflexivity.
  - rewrite !IH, Pos2Nat.inj_xO. cbn [Nat.mul].
    rewrite Nat.add_0_r, <- Nat.iter_add. reflexivity.
  - reflexivity.
Qed.

(** Shifting right by fewer places than there are digits leaves a
    positive mantissa. *)
Lemma shr_1_iter_pos k : forall m r s,
  Z.of_nat k < Z.pos (Pos.size m) ->
  shr_pos (Nat.iter k shr_1 (Build_shr_record (Z.pos m) r s)).
Proof.
  induction k as [|k IH]; intros m r s Hk.
  - exists m. reflexivity.
  - rewrite Nat.iter_succ_r.
    destruct m as [p|p|]; cbn [shr_1]; cbn [Pos.size] in Hk;
      try (apply IH; lia).
    lia.
Qed.

Lemma shr_fexp_pos m e l :
  emin64 <= e ->
  let '(mrs, e') := shr_fexp prec emax (Z.pos m) e l in
  shr_pos mrs /\ emin64 <= e'.
Proof.
  intros He. unfold shr_fexp, shr, fexp. fold emin64.
  cbn [Zdigits2]. rewrite digits2_pos_size.
  assert (Hrec : shr_m (shr_record_of_loc (Z.pos m) l) = Z.pos m)
    by (destruct l as [|[]]; reflexivity).
  destruct (Z.max (Z.pos (Pos.size m) + e - prec) emin64 - e) as [|n|n] eqn:Hn.
  - split; [exists m; exact Hrec | exact He].
  - split; [|lia].
    rewrite iter_pos_nat.
    destruct (shr_record_of_loc (Z.pos m) l) as [m0 r0 s0] eqn:Hr.
    cbn [shr_m] in Hrec. subst m0.
    apply shr_1_iter_pos. rewrite positive_nat_Z. unfold prec in *. lia.
  - split; [exists m; exact Hrec | exact He].
Qed.

Lemma round_nearest_even_pos q l :
  exists q', round_nearest_even (Z.pos q) l = Z.pos q'.
Proof.
  destruct l as [|[]]; cbn [round_nearest_even];
    try destruct (Z.even (Z.pos q)); eexists; reflexivity.
Qed.

(** Rounding a non-zero value whose exponent is representable never
    yields zero or NaN, and keeps the sign. *)
Lemma binary_round_aux_signed s m e l :
  emin64 <= e -> SFsigned s (binary_round_aux prec emax s (Z.pos m) e l).
Proof.
  intros He. unfold binary_round_aux.
  pose proof (shr_fexp_pos m e l He) as H1.
  destruct (shr_fexp prec emax (Z.pos m) e l) as [mrs' e'].
  destruct H1 as [[q Hq] He'].
  rewrite Hq.
  destruct (round_nearest_even_pos q (loc_of_shr_record mrs')) as [q' Hq'].
  rewrite Hq'.
  pose proof (shr_fexp_pos q' e' loc_Exact He') as H2.
  destruct (shr_fexp prec emax (Z.pos q') e' loc_Exact) as [mrs'' e''].
  destruct H2 as [[q2 Hq2] _]. rewrite Hq2.
  destruct (e'' <=? emax - prec); [left; eauto | right; reflexivity].
Qed.

Lemma shl_align_spec m e e' :
  let '(m', e'') := shl_align m e e' in
  Z.pos m' = Z.pos m * 2 ^ (e - e'') /\ e'' = Z.min e e'.
Proof.
  unfold shl_align. destruct (e' - e) as [|d|d] eqn:Hd.
  - rewrite Z.sub_diag. split; lia.
  - rewrite Z.sub_diag. split; lia.
  - fold (shift_pos d m). rewrite shift_pos_correct, Zpower_pos_nat.
    rewrite Zpower_nat_Z, positive_nat_Z.
    replace (e - e') with (Z.pos d) by lia. split; lia.
Qed.

Lemma binary_round_signed s m e :
  emin64 <= e -> SFsigned s (binary_round prec emax s m e).
Proof.
  intros He. unfold binary_round.
  pose proof (shl_align_spec m e (fexp prec emax (Z.pos (digits2_pos m) + e))) as Ha.
  destruct (shl_align m e _) as [mz ez]. destruct Ha as [_ Hez].
  apply binary_round_aux_signed.
  unfold fexp in Hez. fold emin64 in Hez. lia.
Qed.

Lemma binary_normalize_sgn z e :
  emin64 <= e -> SFsgn (binary_normalize prec emax z e false) = (z ?= 0).
Proof.
  intros He. destruct z as [|p|p]; cbn [binary_normalize].
  - reflexivity.
  - destruct (binary_round_signed false p e He) as [(m' & e' & ->)| ->]; reflexivity.
  - destruct (binary_round_signed true p e He) as [(m' & e' & ->)| ->]; reflexivity.
Qed.

Lemma binary_normalize_not_nan z e :
  emin64 <= e -> SFis_nan (binary_normalize prec emax z e false) = false.
Proof.
  intros He. destruct z as [|p|p]; cbn [binary_normalize].
  - reflexivity.
  - destruct (binary_round_signed false p e He) as [(m' & e' & ->)| ->]; reflexivity.
  - destruct (binary_round_signed true p e He) as [(m' & e' & ->)| ->]; reflexivity.
Qed.

Lemma aligned_rank s m e ez :
  emin64 <= ez -> ez <= e ->
  cond_Zopp s (Z.pos (fst (shl_align m e ez))) * 2 ^ (ez - emin64)
  = cond_Zopp s (Z.pos m * 2 ^ (e - emin64)).
Proof.
  intros H1 H2. pose proof (shl_align_spec m e ez) as Ha.
  destruct (shl_align m e ez) as [m' e'']. destruct Ha as [Hm He]. cbn [fst].
  rewrite Hm. replace e'' with ez by lia.
  replace (e - emin64) with ((e - ez) + (ez - emin64)) by lia.
  rewrite Z.pow_add_r by lia. destruct s; cbn [cond_Zopp]; ring.
Qed.

(** The sign of a difference is the comparison of its operands: the
    subtraction of two doubles never rounds a non-zero result to zero. *)
Lemma SFsub_sgn x y :
  valid_binary x = true -> valid_binary y = true ->
  SFis_nan x = false -> SFis_nan y = false ->
  SFsgn (SF64sub x y) = (SFrank x ?= SFrank y).
Proof.
  intros Hx Hy Nx Ny. pose proof inf_rank_pos as Hinf.
  destruct x as [sx|sx| |sx mx ex], y as [sy|sy| |sy my ey];
    try discriminate; cbn [valid_binary] in Hx, Hy;
    try (pose proof (finite_rank_lt _ _ Hx) as [Hpx Hqx]);
    try (pose proof (finite_rank_lt _ _ Hy) as [Hpy Hqy]);
    unfold SF64sub; cbn [SFsub].
  9: { destruct (bounded_inv _ _ Hx) as (Hex & _).
       destruct (bounded_inv _ _ Hy) as (Hey & _).
       rewrite binary_normalize_sgn by lia.
       rewrite <- Z.compare_sub.
       assert (Hp : 0 < 2 ^ (Z.min ex ey - emin64)) by (apply Z.pow_pos_nonneg; lia).
       rewrite (Zmult_compare_compat_r _ _ _ (Z.lt_gt _ _ Hp)).
       rewrite !aligned_rank by lia. reflexivity. }
  all: try (destruct sx); try (destruct sy); solve_cmp.
Qed.

Lemma SFsub_finite_not_nan x y :
  valid_binary x = true -> valid_binary y = true ->
  SFis_finite x = true -> SFis_finite y = true ->
  SFis_nan (SF64sub x y) = false.
Proof.
  intros Hx Hy Fx Fy.
  destruct x as [sx|sx| |sx mx ex], y as [sy|sy| |sy my ey];
    try discriminate; unfold SF64sub; cbn [SFsub].
  - destruct sx, sy; reflexivity.
  - reflexivity.
  - reflexivity.
  - cbn [valid_binary] in Hx, Hy.
    destruct (bounded_inv _ _ Hx) as (Hex & _).
    destruct (bounded_inv _ _ Hy) as (Hey & _).
    apply binary_normalize_not_nan. lia.
Qed.

End NumberFacts.

(* ---------------------------------------------------------------------- *)
(** ** Comparisons of JavaScript numbers                                   *)
(* ---------------------------------------------------------------------- *)

Module FloatOrder.

Import Number NumberFacts.
Local Open Scope Z_scope.

Lemma is_nan_spec x : is_nan x = SFis_nan (Prim2SF x).
Proof.
  unfold is_nan. rewrite FloatAxioms.eqb_spec. unfold SFeqb.
  pose proof (Prim2SF_valid x) as Hv.
  destruct (SFis_nan (Prim2SF x)) eqn:Hn.
  - destruct (Prim2SF x); try discriminate. reflexivity.
  - rewrite (SFcompare_rank _ _ Hv Hv Hn Hn), Z.compare_refl. reflexivity.
Qed.

Lemma is_finite_spec x : is_finite x = SFis_finite (Prim2SF x).
Proof.
  unfold is_finite, is_infinity.
  rewrite is_nan_spec, FloatAxioms.eqb_spec, abs_spec.
  change (Prim2SF infinity) with (S754_infinity false).
  destruct (Prim2SF x) as [s|s| |s m e]; try reflexivity.
Qed.

Lemma leb_rank x y :
  not_nan x -> not_nan y -> (x <=? y)%float = (rank x <=? rank y).
Proof.
  unfold not_nan. rewrite !is_nan_spec. intros Hx Hy.
  rewrite FloatAxioms.leb_spec. unfold SFleb, rank.
  rewrite (SFcompare_rank _ _ (Prim2SF_valid x) (Prim2SF_valid y) Hx Hy).
  unfold Z.leb. destruct (_ ?= _); reflexivity.
Qed.

(** A true comparison has no NaN operand. *)
Lemma le_not_nan a b : le a b -> not_nan a /\ not_nan b.
Proof.
  unfold le, not_nan. rewrite FloatAxioms.leb_spec, !is_nan_spec. unfold SFleb.
  destruct (Prim2SF a), (Prim2SF b); cbn; intros H; try discriminate; auto.
Qed.

(** The comparator [(a, b) => a - b] is positive exactly when [b < a]. *)
Lemma sub_positive a b :
  not_nan a -> not_nan b -> (0 <? a - b)%float = (rank b <? rank a).
Proof.
  unfold not_nan. rewrite !is_nan_spec. intros Ha Hb.
  rewrite FloatAxioms.ltb_spec, FloatAxioms.sub_spec.
  change (Prim2SF 0) with (S754_zero false).
  pose proof (SFsub_sgn _ _ (Prim2SF_valid a) (Prim2SF_valid b) Ha Hb) as Hs.
  fold (rank a) (rank b) in Hs.
  rewrite Z.ltb_antisym, Z.leb_compare, <- Hs.
  destruct (SF64sub (Prim2SF a) (Prim2SF b)) as [s|[]| |[] m e]; reflexivity.
Qed.

Lemma sub_finite a b : finite a -> finite b -> not_nan (a - b).
Proof.
  unfold finite, not_nan. rewrite !is_finite_spec, is_nan_spec, FloatAxioms.sub_spec.
  intros Ha Hb.
  apply SFsub_finite_not_nan; auto using Prim2SF_valid.
Qed.

Lemma le_refl a : not_nan a -> le a a.
Proof. intros H. unfold le. rewrite leb_rank by assumption. apply Z.leb_refl. Qed.

Lemma le_trans a b c : le a b -> le b c -> le a c.
Proof.
  intros Hab Hbc.
  destruct (le_not_nan _ _ Hab) as [Na Nb], (le_not_nan _ _ Hbc) as [_ Nc].
  unfold le in *. rewrite leb_rank in * by assumption.
  apply Z.leb_le in Hab, Hbc. apply Z.leb_le. lia.
Qed.

End FloatOrder.

(* ---------------------------------------------------------------------- *)
(** ** Sorting an array of numbers with [(a, b) => a - b]                  *)
(* ---------------------------------------------------------------------- *)

Section Sorting.

Import Number FloatOrder.

Lemma sort_insert_perm cmp x l : Permutation (sort_insert cmp x l) (x :: l).
Proof.
  induction l as [|y l IH]; cbn [sort_insert]; [reflexivity|].
  destruct (0 <? cmp x y)%float; [|reflexivity].
  rewrite IH. apply perm_swap.
Qed.

Lemma array_sort_perm cmp l : Permutation (array_sort cmp l) l.
Proof.
  induction l as [|x l IH]; cbn [array_sort]; [reflexivity|].
  rewrite sort_insert_perm. now constructor.
Qed.

Lemma array_sort_length cmp l : List.length (array_sort cmp l) = List.length l.
Proof. apply Permutation_length, array_sort_perm. Qed.

Lemma sort_insert_sorted x l :
  not_nan x -> Forall not_nan l ->
  StronglySorted le l ->
  StronglySorted le (sort_insert (fun a b => a - b)%float x l).
Proof.
  intros Nx Nl Hs. induction Hs as [|y l Hs IH Hy]; cbn [sort_insert].
  - repeat constructor.
  - inversion Nl as [|? ? Ny Nl']; subst.
    rewrite sub_positive by assumption.
    destruct (rank y <? rank x)%Z eqn:Hlt.
    + apply Z.ltb_lt in Hlt. constructor; [auto|].
      eapply Permutation_Forall; [symmetry; apply sort_insert_perm|].
      constructor; [|exact Hy].
      unfold le. rewrite leb_rank by assumption. apply Z.leb_le. lia.
    + apply Z.ltb_ge in Hlt.
      assert (Hxy : le x y)
        by (unfold le; rewrite leb_rank by assumption; now apply Z.leb_le).
      constructor; [now constructor|].
      constructor; [exact Hxy|].
      eapply Forall_impl; [|exact Hy]. intros z Hz. eapply le_trans; eassumption.
Qed.

Lemma array_sort_sorted l :
  Forall not_nan l -> StronglySorted le (array_sort (fun a b => a - b)%float l).
Proof.
  induction 1 as [|x l Nx Nl IH]; cbn [array_sort]; [constructor|].
  apply sort_insert_sorted; auto.
  eapply Permutation_Forall; [symmetry; apply array_sort_perm|]. exact Nl.
Qed.

Lemma array_get_nth a i x :
  nth_error a i = Some x -> array_get a (Z.of_nat i) = Number x.
Proof.
  intros H. unfold array_get.
  destruct (Z.ltb_spec (Z.of_nat i) 0); [lia|].
  rewrite Nat2Z.id, H. reflexivity.
Qed.

Lemma array_get_in_range a i :
  (0 <= i < array_length a)%Z -> exists x, array_get a i = Number x /\ nth_error a (Z.to_nat i) = Some x.
Proof.
  unfold array_length. intros H. unfold array_get.
  destruct (Z.ltb_spec i 0); [lia|].
  destruct (nth_error a (Z.to_nat i)) as [x|] eqn:E; [eauto|].
  apply nth_error_None in E. lia.
Qed.

Lemma strongly_sorted_nth l : StronglySorted le l ->
  forall i j x y, (i < j)%nat -> nth_error l i = Some x -> nth_error l j = Some y -> le x y.
Proof.
  induction 1 as [|a l Hs IH Ha]; intros i j x y Hij Hi Hj.
  - destruct i; discriminate.
  - destruct j as [|j]; [lia|]. cbn in Hj.
    destruct i as [|i]; cbn in Hi.
    + injection Hi as <-. rewrite Forall_forall in Ha. apply Ha.
      eapply nth_error_In; eassumption.
    + eapply IH; [|eassumption|eassumption]. lia.
Qed.

Lemma sorted_nth_le l i j x y :
  Forall not_nan l -> StronglySorted le l -> (i <= j)%nat ->
  nth_error l i = Some x -> nth_error l j = Some y -> le x y.
Proof.
  intros Nl Hs Hij Hi Hj.
  destruct (Nat.eq_dec i j) as [->|Hne].
  - rewrite Hi in Hj. injection Hj as <-. apply le_refl.
    rewrite Forall_forall in Nl. apply Nl. eapply nth_error_In; eassumption.
  - eapply strongly_sorted_nth; [eassumption| |eassumption|eassumption]. lia.
Qed.

End Sorting.

(* ---------------------------------------------------------------------- *)
(** ** Runs of [benchmark]                                                 *)
(* ---------------------------------------------------------------------- *)

Section BenchmarkFacts.

Context {host : Host} {call : Type}.
Import Number FloatOrder.

Lemma trace_bind {A B} (m : M (call:=call) A) (f : A -> M B) w :
  trace_of (bind m f w) = trace_of (m w) ++ trace_of (f (result_of (m w)) (world_of (m w))).
Proof.
  unfold bind, trace_of, result_of, world_of.
  destruct (m w) as [[a w1] t1]. cbn. destruct (f a w1) as [[b w2] t2]. reflexivity.
Qed.

Lemma result_bind {A B} (m : M (call:=call) A) (f : A -> M B) w :
  result_of (bind m f w) = result_of (f (result_of (m w)) (world_of (m w))).
Proof.
  unfold bind, trace_of, result_of, world_of.
  destruct (m w) as [[a w1] t1]. cbn. destruct (f a w1) as [[b w2] t2]. reflexivity.
Qed.

Lemma world_bind {A B} (m : M (call:=call) A) (f : A -> M B) w :
  world_of (bind m f w) = world_of (f (result_of (m w)) (world_of (m w))).
Proof.
  unfold bind, trace_of, result_of, world_of.
  destruct (m w) as [[a w1] t1]. cbn. destruct (f a w1) as [[b w2] t2]. reflexivity.
Qed.

Lemma trace_invoke {S} (fn : S -> M (call:=call) S) s w :
  trace_of (invoke fn s w) = [Invoke (trace_of (fn s w))].
Proof. unfold invoke, trace_of. destruct (fn s w) as [[s' w'] t]. reflexivity. Qed.

Lemma result_invoke {S} (fn : S -> M (call:=call) S) s w :
  result_of (invoke fn s w) = result_of (fn s w).
Proof. unfold invoke, result_of. destruct (fn s w) as [[s' w'] t]. reflexivity. Qed.

Lemma trace_now w :
  trace_of (now (call:=call) w) = [PerformanceNow (result_of (now (call:=call) w))].
Proof. unfold now, trace_of, result_of. destruct (performance_now w). reflexivity. Qed.

Lemma warmup_loop_trace {S} (fn : S -> M (call:=call) S) n : forall s w,
  exists warm,
    trace_of (warmup_loop fn n s w) = map Invoke warm /\ List.length warm = n.
Proof.
  induction n as [|n IH]; intros s w; cbn [warmup_loop].
  - exists []. split; reflexivity.
  - rewrite trace_bind, trace_invoke.
    destruct (IH (result_of (invoke fn s w)) (world_of (invoke fn s w)))
      as (warm & Ht & Hl).
    exists (trace_of (fn s w) :: warm). rewrite Ht. cbn. auto.
Qed.

Lemma timed_loop_trace {S} (fn : S -> M (call:=call) S) n : forall acc s w,
  exists ms : list (measurement (call:=call)),
    trace_of (timed_loop fn n acc s w) = flat_map measurement_events ms /\
    List.length ms = n /\
    fst (result_of (timed_loop fn n acc s w)) = acc ++ map measurement_time ms.
Proof.
  induction n as [|n IH]; intros acc s w; cbn [timed_loop].
  - exists []. cbn. rewrite app_nil_r. auto.
  - rewrite !trace_bind, !result_bind, trace_now, trace_invoke.
    set (start := result_of (now w)).
    set (w1 := world_of (now w)).
    set (s' := result_of (invoke fn s w1)).
    set (w2 := world_of (invoke fn s w1)).
    rewrite trace_now.
    set (end_ := result_of (now w2)).
    set (w3 := world_of (now w2)).
    destruct (IH (acc ++ [(end_ - start)%float]) s' w3) as (ms & Ht & Hl & Hr).
    exists ((start, trace_of (fn s w1), end_) :: ms).
    rewrite Ht, Hr. cbn. rewrite <- app_assoc. cbn. auto.
Qed.

Lemma invocations_app (t1 t2 : list (event call)) :
  invocations (t1 ++ t2) = invocations t1 + invocations t2.
Proof.
  induction t1 as [|e t1 IH]; [reflexivity|].
  destruct e; cbn; rewrite IH; reflexivity.
Qed.

Lemma invocations_warm (warm : list (list (event call))) :
  invocations (map Invoke warm) = List.length warm.
Proof. induction warm; cbn; congruence. Qed.

Lemma invocations_measured (ms : list (measurement (call:=call))) :
  invocations (flat_map measurement_events ms) = List.length ms.
Proof. induction ms as [|[[a b] c] ms IH]; cbn; congruence. Qed.

Lemma clock_readings_app (t1 t2 : list (event call)) :
  clock_readings (t1 ++ t2) = clock_readings t1 ++ clock_readings t2.
Proof.
  induction t1 as [|e t1 IH]; [reflexivity|].
  destruct e; cbn; rewrite IH; reflexivity.
Qed.

Lemma clock_readings_warm (warm : list (list (event call))) :
  clock_readings (map Invoke warm) = [].
Proof. induction warm; cbn; congruence. Qed.

Lemma durations_measured (ms : list (measurement (call:=call))) :
  durations (clock_readings (flat_map measurement_events ms))
  = map measurement_time ms.
Proof. induction ms as [|[[a b] c] ms IH]; cbn; congruence. Qed.

Lemma finite_readings_times (ms : list (measurement (call:=call))) :
  Forall finite (clock_readings (flat_map measurement_events ms)) ->
  Forall not_nan (map measurement_time ms).
Proof.
  induction ms as [|[[a b] c] ms IH]; cbn; intros H; [constructor|].
  inversion H as [|? ? Ha H']; subst. inversion H' as [|? ? Hc H'']; subst.
  constructor; [now apply sub_finite | auto].
Qed.

(** The shape of every run of [benchmark]. *)
Lemma benchmark_run {S} (label : string) (fn : S -> M (call:=call) S)
      (warmup n : nat) (s : S) (w : World) :
  exists (warm : list (list (event call))) (ms : list (measurement (call:=call)))
         (l1 l2 : string),
    let r := benchmark label fn warmup n s w in
    trace_of r
    = ConsoleLog l1 :: map Invoke warm
        ++ ConsoleLog l2 :: flat_map measurement_events ms /\
    List.length warm = warmup /\
    List.length ms = n /\
    fst (result_of r) = calculate_stats label warmup n (map measurement_time ms).
Proof.
  unfold benchmark.
  set (l1 := (label ++ _)%string). set (l2 := (label ++ _)%string).
  cbv zeta.
  rewrite !trace_bind, !result_bind.
  change (trace_of (console_log l1 w)) with [ConsoleLog (call:=call) l1].
  change (world_of (console_log l1 w)) with w.
  destruct (warmup_loop_trace fn warmup s w) as (warm & Hw & Hlw).
  set (s1 := result_of (warmup_loop fn warmup s w)).
  set (w1 := world_of (warmup_loop fn warmup s w)).
  change (world_of (console_log l2 w1)) with w1.
  change (trace_of (console_log l2 w1)) with [ConsoleLog (call:=call) l2].
  destruct (timed_loop_trace fn n [] s1 w1) as (ms & Ht & Hlm & Hr).
  exists warm, ms, l1, l2.
  rewrite Hw, Ht.
  destruct (result_of (timed_loop fn n [] s1 w1)) as [ts s2] eqn:E.
  cbn [fst] in Hr. subst ts.
  cbn. rewrite app_nil_r. auto.
Qed.

End BenchmarkFacts.

Section BenchmarkClaims.

Context {host : Host} {call : Type}.

Lemma fold_left_map_r {A B C} (f : C -> B -> C) (g : A -> B) l : forall init,
  fold_left (fun acc a => f acc (g a)) l init = fold_left f (map g l) init.
Proof. induction l as [|a l IH]; intros init; cbn; auto. Qed.

(** The record [benchmark] returns is [calculate_stats] of the elapsed
    times of its own clock readings, in execution order. *)
Lemma benchmark_result {S} (label : string) (fn : S -> M (call:=call) S)
      (warmup n : nat) (s : S) (w : World) :
  let r := benchmark label fn warmup n s w in
  let series := durations (clock_readings (trace_of r)) in
  fst (result_of r) = calculate_stats label warmup n series /\
  List.length series = n /\
  (Forall Number.finite (clock_readings (trace_of r)) ->
   Forall Number.not_nan series).
Proof.
  destruct (benchmark_run label fn warmup n s w)
    as (warm & ms & l1 & l2 & Ht & Hlw & Hlm & Hr).
  cbv zeta in *. rewrite Ht, Hr.
  change (ConsoleLog l1 :: map Invoke warm ++ ConsoleLog l2 :: flat_map measurement_events ms)
    with ([ConsoleLog l1] ++ map Invoke warm ++ [ConsoleLog l2] ++ flat_map measurement_events ms).
  rewrite !clock_readings_app, clock_readings_warm. cbn [clock_readings app].
  rewrite durations_measured.
  repeat split.
  - rewrite length_map. exact Hlm.
  - apply finite_readings_times.
Qed.

Lemma calculate_stats_median label warmup n ts :
  median (calculate_stats label warmup n ts)
  = array_get (array_sort (fun a b => a - b)%float ts)
              (Z.of_nat (List.length ts / 2)).
Proof.
  cbn [calculate_stats median]. unfold array_length.
  rewrite array_sort_length, Nat2Z.inj_div. reflexivity.
Qed.

Lemma calculate_stats_max label warmup n ts :
  max (calculate_stats label warmup n ts)
  = array_get (array_sort (fun a b => a - b)%float ts)
              (Z.of_nat (List.length ts) - 1).
Proof.
  cbn [calculate_stats max]. unfold array_length.
  rewrite array_sort_length. reflexivity.
Qed.

(** C1.  For [runs >= 1] the [median] field is the element at index
    [floor(runs / 2)] of the ascending-sorted copy of [times] (so the
    upper-middle element when [runs] is even).  The sorted copy is a
    permutation of [times] in ascending order whenever the clock
    returned finite values. *)
Theorem benchmark_median {S} (label : string) (fn : S -> M (call:=call) S)
        (warmup n : nat) (s : S) (w : World) :
  let r := benchmark label fn warmup n s w in
  let res := fst (result_of r) in
  let sorted := array_sort (fun a b => a - b)%float (times res) in
  Forall Number.finite (clock_readings (trace_of r)) ->
  1 <= n ->
  Permutation sorted (times res) /\
  StronglySorted Number.le sorted /\
  median res = array_get sorted (Z.of_nat (n / 2)) /\
  exists x, nth_error sorted (n / 2) = Some x /\ median res = Number x.
Proof.
  cbv zeta. intros Hfin Hn.
  destruct (benchmark_result label fn warmup n s w) as (Hres & Hlen & Hnan).
  cbv zeta in *. specialize (Hnan Hfin). rewrite Hres.
  set (series := durations (clock_readings (trace_of (benchmark label fn warmup n s w)))) in *.
  change (times (calculate_stats label warmup n series)) with series.
  rewrite calculate_stats_median, Hlen.
  split; [apply array_sort_perm|].
  split; [now apply array_sort_sorted|].
  split; [reflexivity|].
  destruct (nth_error (array_sort (fun a b => a - b)%float series) (n / 2)) as [x|] eqn:E.
  - exists x. split; [reflexivity|]. now apply array_get_nth.
  - apply nth_error_None in E. rewrite array_sort_length, Hlen in E.
    pose proof (Nat.div_lt n 2). lia.
Qed.

(** C2.  [mean] is the sum of the execution-order series divided by
    [runs]; [stdDev] is the square root of the sum of the squared
    deviations from [mean] divided by [runs] (population variance).
    For the series [2,4,4,4,5,5,7,9] this gives [mean = 5] and
    [stdDev = 2] exactly, provided [**] squares the five deviations
    exactly. *)
Theorem benchmark_mean_stdDev {S} (label : string) (fn : S -> M (call:=call) S)
        (warmup n : nat) (s : S) (w : World) :
  let r := benchmark label fn warmup n s w in
  let res := fst (result_of r) in
  times res = durations (clock_readings (trace_of r)) /\
  mean res = (sum_numbers (times res) / Number.of_nat n)%float /\
  stdDev res
  = PrimFloat.sqrt
      (sum_numbers (map (fun t => exponentiate (t - mean res) 2)%float (times res))
       / Number.of_nat n)%float /\
  (times res = [2; 4; 4; 4; 5; 5; 7; 9]%float ->
   Forall (fun d => exponentiate d 2 = d * d)%float [-3; -1; 0; 2; 4]%float ->
   mean res = 5%float /\ stdDev res = 2%float).
Proof.
  cbv zeta.
  destruct (benchmark_result label fn warmup n s w) as (Hres & Hlen & _).
  cbv zeta in *. rewrite Hres.
  set (series := durations (clock_readings (trace_of (benchmark label fn warmup n s w)))) in *.
  change (times (calculate_stats label warmup n series)) with series.
  assert (Hmean : mean (calculate_stats label warmup n series)
                  = (sum_numbers series / Number.of_nat n)%float).
  { cbn [calculate_stats mean]. rewrite Hlen. reflexivity. }
  assert (Hsd : stdDev (calculate_stats label warmup n series)
                = PrimFloat.sqrt
                    (sum_numbers
                       (map (fun t => exponentiate
                                        (t - mean (calculate_stats label warmup n series)) 2)%float
                            series)
                     / Number.of_nat n)%float).
  { cbn [calculate_stats stdDev mean]. rewrite Hlen. unfold array_reduce at 1.
    rewrite (fold_left_map_r PrimFloat.add). reflexivity. }
  split; [reflexivity|]. split; [exact Hmean|]. split; [exact Hsd|].
  intros Hts Hsq.
  rewrite Hsd, Hmean. rewrite <- Hlen, Hts.
  assert (Hm : (sum_numbers [2; 4; 4; 4; 5; 5; 7; 9]
                / Number.of_nat (List.length [2; 4; 4; 4; 5; 5; 7; 9]%float))%float
               = 5%float) by (vm_compute; reflexivity).
  rewrite Hm. split; [reflexivity|].
  rewrite !Forall_cons_iff in Hsq.
  destruct Hsq as (E1 & E2 & E3 & E4 & E5 & _).
  cbn [map].
  change (2 - 5)%float with (-3)%float.
  change (4 - 5)%float with (-1)%float.
  change (5 - 5)%float with 0%float.
  change (7 - 5)%float with 2%float.
  change (9 - 5)%float with 4%float.
  rewrite E1, E2, E3, E4, E5.
  vm_compute. reflexivity.
Qed.

Lemma chained_app {S} (fn : S -> M (call:=call) S) runs1 : forall s mid runs2 final,
  chained fn s runs1 mid -> chained fn mid runs2 final ->
  chained fn s (runs1 ++ runs2) final.
Proof.
  induction runs1 as [|[s0 w0] runs1 IH]; intros s mid runs2 final H1 H2.
  - cbn in H1. subst mid. exact H2.
  - destruct H1 as [-> H1]. cbn [app chained]. split; [reflexivity|].
    eapply IH; eassumption.
Qed.

(** The warmup invocations start one from the variables the other left. *)
Lemma warmup_loop_chain {S} (fn : S -> M (call:=call) S) n : forall s w,
  exists runs : list (S * World),
    List.length runs = n /\
    trace_of (warmup_loop fn n s w)
    = map Invoke (map (invocation_events fn) runs) /\
    chained fn s runs (result_of (warmup_loop fn n s w)).
Proof.
  induction n as [|n IH]; intros s w; cbn [warmup_loop].
  - exists []. repeat split.
  - rewrite trace_bind, result_bind, trace_invoke, result_invoke.
    destruct (IH (result_of (fn s w)) (world_of (invoke fn s w)))
      as (runs & Hl & Ht & Hc).
    exists ((s, w) :: runs). rewrite Ht. cbn [List.length map chained].
    repeat split; [congruence|exact Hc].
Qed.

(** So do the timed invocations; each is the body of one measurement. *)
Lemma timed_loop_chain {S} (fn : S -> M (call:=call) S) n : forall acc s w,
  exists (runs : list (S * World)) (ms : list (measurement (call:=call))),
    List.length runs = n /\
    trace_of (timed_loop fn n acc s w) = flat_map measurement_events ms /\
    map (fun m => snd (fst m)) ms = map (invocation_events fn) runs /\
    fst (result_of (timed_loop fn n acc s w)) = acc ++ map measurement_time ms /\
    chained fn s runs (snd (result_of (timed_loop fn n acc s w))).
Proof.
  induction n as [|n IH]; intros acc s w; cbn [timed_loop].
  - exists [], []. cbn. rewrite app_nil_r. auto.
  - rewrite !trace_bind, !result_bind, trace_now, trace_invoke, result_invoke.
    set (start := result_of (now w)).
    set (w1 := world_of (now w)).
    set (w2 := world_of (invoke fn s w1)).
    rewrite trace_now.
    set (end_ := result_of (now w2)).
    set (w3 := world_of (now w2)).
    destruct (IH (acc ++ [(end_ - start)%float]) (result_of (fn s w1)) w3)
      as (runs & ms & Hl & Ht & Hb & Hr & Hc).
    exists ((s, w1) :: runs), ((start, trace_of (fn s w1), end_) :: ms).
    rewrite Ht, Hr. cbn [List.length map chained flat_map measurement_events
                         measurement_time fst snd app].
    rewrite Hb, <- app_assoc.
    repeat split; [congruence|exact Hc].
Qed.

(** Every invocation made by [benchmark] is a run of [fn], and the runs
    are chained from the initial to the final captured variables. *)
Lemma benchmark_chain {S} (label : string) (fn : S -> M (call:=call) S)
      (warmup n : nat) (s : S) (w : World) :
  exists (warm_runs timed_runs : list (S * World))
         (ms : list (measurement (call:=call))) (l1 l2 : string),
    let r := benchmark label fn warmup n s w in
    trace_of r
    = ConsoleLog l1 :: map Invoke (map (invocation_events fn) warm_runs)
        ++ ConsoleLog l2 :: flat_map measurement_events ms /\
    List.length warm_runs = warmup /\
    List.length timed_runs = n /\
    map (fun m => snd (fst m)) ms = map (invocation_events fn) timed_runs /\
    fst (result_of r) = calculate_stats label warmup n (map measurement_time ms) /\
    chained fn s (warm_runs ++ timed_runs) (snd (result_of r)).
Proof.
  unfold benchmark.
  set (l1 := (label ++ _)%string). set (l2 := (label ++ _)%string).
  cbv zeta.
  rewrite !trace_bind, !result_bind.
  change (trace_of (console_log l1 w)) with [ConsoleLog (call:=call) l1].
  change (world_of (console_log l1 w)) with w.
  destruct (warmup_loop_chain fn warmup s w) as (warm_runs & Hlw & Hw & Hcw).
  set (s1 := result_of (warmup_loop fn warmup s w)) in *.
  set (w1 := world_of (warmup_loop fn warmup s w)).
  change (world_of (console_log l2 w1)) with w1.
  change (trace_of (console_log l2 w1)) with [ConsoleLog (call:=call) l2].
  destruct (timed_loop_chain fn n [] s1 w1)
    as (timed_runs & ms & Hlt & Ht & Hb & Hr & Hct).
  exists warm_runs, timed_runs, ms, l1, l2.
  rewrite Hw, Ht.
  destruct (result_of (timed_loop fn n [] s1 w1)) as [ts s2] eqn:E.
  cbn [fst snd] in Hr, Hct. subst ts.
  cbn [ret result_of trace_of fst snd app]. rewrite app_nil_r.
  repeat split; auto.
  eapply chained_app; eassumption.
Qed.

(** A counter incremented by the callback counts the invocations. *)
Lemma chained_counted {S} (fn : S -> M (call:=call) S) runs : forall cs final,
  chained (counted fn) cs runs final ->
  fst final = fst cs + List.length runs.
Proof.
  induction runs as [|[cs0 w0] runs IH]; intros cs final H.
  - cbn in H. subst final. cbn. lia.
  - destruct H as [-> H]. apply IH in H. rewrite H.
    unfold counted, bind, ret, result_of.
    destruct (fn (snd cs) w0) as [[s' w'] t]. cbn. lia.
Qed.

(** C3.  A run of [benchmark] invokes [fn] exactly [warmupRuns + runs]
    times: first [warmupRuns] invocations with no clock reading around
    them, then [runs] invocations each between two clock readings; the
    returned record is computed from the timed invocations only and its
    [times] has length [runs].  The invocations are runs of [fn] itself:
    the events under each [Invoke] are those of [fn] started from the
    captured variables its predecessor left, the first from the initial
    ones, and the variables left by the last are those [benchmark]
    leaves.  In particular a callback that increments a counter leaves
    it at [warmupRuns + runs]. *)
Theorem benchmark_invocations {S} (label : string) (fn : S -> M (call:=call) S)
        (warmup n : nat) (s : S) (w : World) :
  exists (warm : list (list (event call))) (ms : list (measurement (call:=call)))
         (l1 l2 : string),
    let r := benchmark label fn warmup n s w in
    let res := fst (result_of r) in
    trace_of r
    = ConsoleLog l1 :: map Invoke warm
        ++ ConsoleLog l2 :: flat_map measurement_events ms /\
    List.length warm = warmup /\
    List.length ms = n /\
    invocations (trace_of r) = warmup + n /\
    res = calculate_stats label warmup n (map measurement_time ms) /\
    times res = map measurement_time ms /\
    List.length (times res) = n /\
    (exists runs : list (S * World),
        List.length runs = warmup + n /\
        warm ++ map (fun m => snd (fst m)) ms
        = map (invocation_events fn) runs /\
        chained fn s runs (snd (result_of r))) /\
    fst (snd (result_of (benchmark label (counted fn) warmup n (0, s) w)))
    = warmup + n.
Proof.
  destruct (benchmark_chain label fn warmup n s w)
    as (warm_runs & timed_runs & ms & l1 & l2 & Ht & Hlw & Hlt & Hb & Hr & Hc).
  exists (map (invocation_events fn) warm_runs), ms, l1, l2. cbv zeta in *.
  assert (Hlm : List.length ms = n).
  { rewrite <- Hlt, <- (length_map (invocation_events fn) timed_runs), <- Hb.
    symmetry. apply length_map. }
  rewrite Hr, Ht. repeat split; auto.
  - rewrite length_map. exact Hlw.
  - change (ConsoleLog l1 :: map Invoke (map (invocation_events fn) warm_runs)
              ++ ConsoleLog l2 :: flat_map measurement_events ms)
      with ([ConsoleLog l1] ++ map Invoke (map (invocation_events fn) warm_runs)
              ++ [ConsoleLog l2] ++ flat_map measurement_events ms).
    rewrite !invocations_app, invocations_warm, invocations_measured, length_map.
    cbn. lia.
  - cbn [calculate_stats times]. rewrite length_map. exact Hlm.
  - exists (warm_runs ++ timed_runs). rewrite length_app, map_app, Hb.
    repeat split; [lia|exact Hc].
  - destruct (benchmark_chain label (counted fn) warmup n (0, s) w)
      as (wr & tr & _ & _ & _ & _ & Hlw' & Hlt' & _ & _ & Hc').
    cbv zeta in Hc'. apply chained_counted in Hc'.
    rewrite Hc', length_app. cbn. lia.
Qed.

(** C4.  For [runs >= 1], [min] is the first and [max] the last element
    of the ascending-sorted copy of [times], and
    [min <= median <= max]. *)
Theorem benchmark_min_median_max {S} (label : string)
        (fn : S -> M (call:=call) S) (warmup n : nat) (s : S) (w : World) :
  let r := benchmark label fn warmup n s w in
  let res := fst (result_of r) in
  let sorted := array_sort (fun a b => a - b)%float (times res) in
  Forall Number.finite (clock_readings (trace_of r)) ->
  1 <= n ->
  Permutation sorted (times res) /\
  StronglySorted Number.le sorted /\
  min res = array_get sorted 0 /\
  max res = array_get sorted (Z.of_nat n - 1) /\
  exists lo mid hi,
    min res = Number lo /\ median res = Number mid /\ max res = Number hi /\
    Number.le lo mid /\ Number.le mid hi.
Proof.
  cbv zeta. intros Hfin Hn.
  destruct (benchmark_result label fn warmup n s w) as (Hres & Hlen & Hnan).
  cbv zeta in *. specialize (Hnan Hfin). rewrite Hres.
  set (series := durations (clock_readings (trace_of (benchmark label fn warmup n s w)))) in *.
  change (times (calculate_stats label warmup n series)) with series.
  rewrite calculate_stats_median, calculate_stats_max, Hlen.
  change (min (calculate_stats label warmup n series))
    with (array_get (array_sort (fun a b => a - b)%float series) 0).
  set (sorted := array_sort (fun a b => a - b)%float series).
  assert (Hsl : List.length sorted = n)
    by (unfold sorted; rewrite array_sort_length; exact Hlen).
  assert (Hperm : Permutation sorted series) by apply array_sort_perm.
  assert (Hsorted : StronglySorted Number.le sorted) by now apply array_sort_sorted.
  assert (Hnn : Forall Number.not_nan sorted)
    by (eapply Permutation_Forall; [symmetry; exact Hperm | exact Hnan]).
  assert (Hdiv : n / 2 < n) by (apply Nat.div_lt; lia).
  repeat (split; [solve [auto]|]).
  destruct (array_get_in_range sorted 0) as (lo & Glo & Nlo);
    [unfold array_length; lia|].
  destruct (array_get_in_range sorted (Z.of_nat (n / 2))) as (mid & Gmid & Nmid);
    [unfold array_length; lia|].
  destruct (array_get_in_range sorted (Z.of_nat n - 1)) as (hi & Ghi & Nhi);
    [unfold array_length; lia|].
  exists lo, mid, hi. repeat (split; [assumption|]).
  rewrite Nat2Z.id in Nmid. change (Z.to_nat 0) with 0 in Nlo.
  split.
  - eapply sorted_nth_le; [exact Hnn|exact Hsorted| |exact Nlo|exact Nmid]. lia.
  - eapply sorted_nth_le; [exact Hnn|exact Hsorted| |exact Nmid|exact Nhi]. lia.
Qed.

(** C10.  With [runs = 0] the function still returns: [times] is empty,
    [mean] and [stdDev] are [NaN], and [median], [min] and [max] are
    [undefined]. *)
Theorem benchmark_zero_runs {S} (label : string) (fn : S -> M (call:=call) S)
        (warmup : nat) (s : S) (w : World) :
  let res := fst (result_of (benchmark label fn warmup 0 s w)) in
  res = calculate_stats label warmup 0 [] /\
  times res = [] /\
  mean res = nan /\ stdDev res = nan /\
  median res = Undefined /\ min res = Undefined /\ max res = Undefined.
Proof.
  cbv zeta.
  destruct (benchmark_run label fn warmup 0 s w)
    as (warm & ms & l1 & l2 & _ & _ & Hlm & Hr).
  cbv zeta in *. destruct ms; [|discriminate].
  rewrite Hr. cbn [map]. repeat split; vm_compute; reflexivity.
Qed.

End BenchmarkClaims.

(** Four timed runs taking 3, 1, 4 and 2 ms after two warmup runs: the
    sorted copy is [1,2,3,4] and the median is 3, not 2.5. *)
Lemma benchmark_median_witness :
  let r := benchmark (host := Examples.scripted_host) "sample" Examples.noop 2 4 tt
             [10; 13; 20; 21; 30; 34; 40; 42]%float in
  let res := fst (result_of r) in
  Forall Number.finite (clock_readings (trace_of r)) /\
  1 <= 4 /\
  times res = [3; 1; 4; 2]%float /\
  array_sort (fun a b => a - b)%float (times res) = [1; 2; 3; 4]%float /\
  median res = Number 3.
Proof.
  cbv zeta.
  assert (Hfin : Forall Number.finite
                   (clock_readings
                      (trace_of (benchmark (host := Examples.scripted_host) "sample"
                                   Examples.noop 2 4 tt
                                   [10; 13; 20; 21; 30; 34; 40; 42]%float))))
    by (vm_compute; repeat constructor).
  assert (Hn : 1 <= 4) by lia.
  split; [exact Hfin|]. split; [exact Hn|].
  destruct (benchmark_median (host := Examples.scripted_host) "sample"
              Examples.noop 2 4 tt [10; 13; 20; 21; 30; 34; 40; 42]%float Hfin Hn)
    as (_ & _ & Hm & _).
  split; [reflexivity|]. split; [reflexivity|].
  rewrite Hm. reflexivity.
Defined.

(** The worked example: eight runs taking 2,4,4,4,5,5,7,9 ms. *)
Lemma benchmark_mean_stdDev_witness :
  let r := benchmark (host := Examples.scripted_host) "sample" Examples.noop 3 8 tt
             [0; 2; 0; 4; 0; 4; 0; 4; 0; 5; 0; 5; 0; 7; 0; 9]%float in
  let res := fst (result_of r) in
  times res = [2; 4; 4; 4; 5; 5; 7; 9]%float /\
  mean res = 5%float /\ stdDev res = 2%float.
Proof.
  cbv zeta.
  destruct (benchmark_mean_stdDev (host := Examples.scripted_host) "sample"
              Examples.noop 3 8 tt
              [0; 2; 0; 4; 0; 4; 0; 4; 0; 5; 0; 5; 0; 7; 0; 9]%float)
    as (_ & _ & _ & Hex).
  split; [reflexivity|].
  apply Hex; [reflexivity | repeat constructor].
Defined.

Lemma benchmark_min_median_max_witness :
  let r := benchmark (host := Examples.scripted_host) "sample" Examples.noop 2 4 tt
             [10; 13; 20; 21; 30; 34; 40; 42]%float in
  let res := fst (result_of r) in
  Forall Number.finite (clock_readings (trace_of r)) /\
  1 <= 4 /\
  min res = Number 1 /\ median res = Number 3 /\ max res = Number 4 /\
  Number.le 1 3 /\ Number.le 3 4.
Proof.
  cbv zeta.
  assert (Hfin : Forall Number.finite
                   (clock_readings
                      (trace_of (benchmark (host := Examples.scripted_host) "sample"
                                   Examples.noop 2 4 tt
                                   [10; 13; 20; 21; 30; 34; 40; 42]%float))))
    by (vm_compute; repeat constructor).
  assert (Hn : 1 <= 4) by lia.
  split; [exact Hfin|]. split; [exact Hn|].
  destruct (benchmark_min_median_max (host := Examples.scripted_host) "sample"
              Examples.noop 2 4 tt [10; 13; 20; 21; 30; 34; 40; 42]%float Hfin Hn)
    as (_ & _ & Hmin & Hmax & lo & mid & hi & Elo & Emid & Ehi & Hlm & Hmh).
  rewrite Hmin, Hmax.
  repeat split; reflexivity.
Defined.

(* ---------------------------------------------------------------------- *)
(** ** The geometry extractor                                              *)
(* ---------------------------------------------------------------------- *)

Section GatherFacts.

Context {T : THREE.Transform}.

(** Induction on scene graphs: the children of a node satisfy the
    property. *)
Lemma Object3D_tree_ind (P : THREE.Object3D -> Prop) :
  (forall mesh children, Forall P children -> P (THREE.Node mesh children)) ->
  forall o, P o.
Proof.
  intros step.
  fix IH 1. intros [mesh children]. apply step.
  induction children as [|c cs IHcs]; constructor; [apply IH | exact IHcs].
Qed.

(** The traversal visits the mesh nodes in the order of [meshes_of]. *)
Lemma traverse_meshes (o : THREE.Object3D) : forall st,
  THREE.traverse gather_child o st
  = fold_left (fun acc m => gather_mesh m acc) (meshes_of o) st.
Proof.
  induction o as [mesh children IH] using Object3D_tree_ind. intros st.
  cbn [THREE.traverse meshes_of]. rewrite fold_left_app.
  assert (Hhead : gather_child (THREE.Node mesh children) st
                  = fold_left (fun acc m => gather_mesh m acc)
                              match mesh with Some m => [m] | None => [] end st)
    by (destruct mesh; reflexivity).
  rewrite Hhead. clear Hhead.
  generalize (fold_left (fun acc m => gather_mesh m acc)
                        match mesh with Some m => [m] | None => [] end st).
  induction IH as [|c cs Hc _ IHcs]; intros st'; cbn [fold_left flat_map].
  - reflexivity.
  - rewrite fold_left_app, Hc. apply IHcs.
Qed.

Lemma length_pushed (f : THREE.Vector3 -> THREE.Vector3) l :
  List.length (flat_map (fun p => let vec := f p in
                                  [THREE.x vec; THREE.y vec; THREE.z vec]) l)
  = 3 * List.length l.
Proof. induction l as [|p l IH]; cbn in *; lia. Qed.

Lemma gather_mesh_positions m st :
  N.of_nat (List.length (g_positions st)) = (3 * vertexOffset st)%N ->
  N.of_nat (List.length (g_positions (gather_mesh m st)))
  = (3 * vertexOffset (gather_mesh m st))%N.
Proof.
  intros H. cbn [gather_mesh g_positions vertexOffset].
  rewrite length_app, length_pushed. lia.
Qed.

Lemma gather_mesh_indices m st :
  g_indices (gather_mesh m st)
  = g_indices st ++ map (fun i => (i + vertexOffset st)%N) (local_indices m).
Proof.
  cbn [gather_mesh g_indices]. unfold local_indices.
  destruct (THREE.index (THREE.geometry m)); [reflexivity|].
  rewrite map_map. reflexivity.
Qed.

Lemma gather_mesh_inv m st :
  well_formed_mesh m -> gather_inv st -> gather_inv (gather_mesh m st).
Proof.
  intros [Hlen Hidx] (Hp & Hi & Hl). unfold gather_inv.
  split; [now apply gather_mesh_positions|].
  rewrite gather_mesh_indices. cbn [gather_mesh vertexOffset].
  split.
  - apply Forall_app. split.
    + eapply Forall_impl; [|exact Hi]. cbn. intros; lia.
    + apply Forall_map. eapply Forall_impl; [|exact Hidx]. cbn. intros; lia.
  - rewrite length_app, length_map.
    rewrite Nat.Div0.add_mod, Hl, Hlen. reflexivity.
Qed.

Lemma gather_meshes_inv ms : forall st,
  Forall well_formed_mesh ms -> gather_inv st ->
  gather_inv (fold_left (fun acc m => gather_mesh m acc) ms st).
Proof.
  induction ms as [|m ms IH]; intros st Hwf Hinv; [exact Hinv|].
  inversion Hwf; subst. cbn [fold_left]. apply IH; [assumption|].
  now apply gather_mesh_inv.
Qed.

Lemma to_uint32_le n : (to_uint32 n <= n)%N.
Proof. unfold to_uint32. apply N.Div0.mod_le. Qed.

(** C9, amended.  When every mesh of the scene is a well-formed triangle
    list, every index of the returned buffer is below the number of
    positions and the number of indices is a multiple of 3. *)
Theorem gather_indices_valid (scene : THREE.Object3D) :
  Forall well_formed_mesh (meshes_of scene) ->
  let buffer := gatherTrianglesFromScene scene in
  Forall (fun i => (i < vertex_count buffer)%N) (indices buffer) /\
  List.length (indices buffer) mod 3 = 0.
Proof.
  intros Hwf. cbv zeta. unfold gatherTrianglesFromScene, vertex_count.
  cbn [positions indices]. rewrite traverse_meshes.
  set (st0 := {| g_positions := []; g_indices := []; vertexOffset := 0%N |}).
  assert (H0 : gather_inv st0) by (repeat split; constructor).
  destruct (gather_meshes_inv _ st0 Hwf H0) as (Hp & Hi & Hl).
  set (st := fold_left _ _ st0) in *.
  rewrite !length_map, Hp.
  replace (3 * vertexOffset st / 3)%N with (vertexOffset st)
    by (rewrite N.mul_comm, N.div_mul; lia).
  split; [|exact Hl].
  apply Forall_map. eapply Forall_impl; [|exact Hi].
  cbn. intros i Hlt. pose proof (to_uint32_le i). lia.
Qed.

Lemma gather_meshes_indices ms : forall st,
  g_indices (fold_left (fun acc m => gather_mesh m acc) ms st)
  = g_indices st ++ offset_indices (vertexOffset st) ms.
Proof.
  induction ms as [|m ms IH]; intros st; cbn [fold_left offset_indices].
  - symmetry. apply app_nil_r.
  - rewrite IH, gather_mesh_indices, <- app_assoc. reflexivity.
Qed.

(** C8.  A scene whose only mesh nodes are two meshes of three vertices
    each, without index list, yields six positions and the indices
    [0,1,2,3,4,5]: the indices of the buffer are those of the meshes in
    traversal order ([0..count-1] for a mesh without index list), each
    offset by the number of vertices of the meshes before it. *)
Theorem gather_two_triangles (scene : THREE.Object3D) (m1 m2 : THREE.Mesh) :
  meshes_of scene = [m1; m2] ->
  List.length (THREE.position (THREE.geometry m1)) = 3 ->
  List.length (THREE.position (THREE.geometry m2)) = 3 ->
  THREE.index (THREE.geometry m1) = None ->
  THREE.index (THREE.geometry m2) = None ->
  let buffer := gatherTrianglesFromScene scene in
  List.length (positions buffer) = 18 /\
  vertex_count buffer = 6%N /\
  indices buffer = map to_uint32 (offset_indices 0 (meshes_of scene)) /\
  indices buffer = [0; 1; 2; 3; 4; 5]%N.
Proof.
  intros Hms H1 H2 I1 I2. cbv zeta.
  assert (Hidx : indices (gatherTrianglesFromScene scene)
                 = map to_uint32 (offset_indices 0 (meshes_of scene))).
  { unfold gatherTrianglesFromScene. cbn [indices].
    rewrite traverse_meshes, gather_meshes_indices. reflexivity. }
  split; [|split; [|split; [exact Hidx|]]].
  - unfold gatherTrianglesFromScene. cbn [positions].
    rewrite traverse_meshes, Hms. cbn [fold_left].
    unfold gather_mesh. cbn [g_positions].
    rewrite !length_map, !length_app, !length_pushed, H1, H2. reflexivity.
  - unfold gatherTrianglesFromScene, vertex_count. cbn [positions].
    rewrite traverse_meshes, Hms. cbn [fold_left].
    unfold gather_mesh. cbn [g_positions].
    rewrite !length_map, !length_app, !length_pushed, H1, H2. reflexivity.
  - rewrite Hidx, Hms. cbn [offset_indices]. unfold local_indices.
    rewrite I1, I2, H1, H2. reflexivity.
Qed.

End GatherFacts.

Lemma gather_indices_valid_witness :
  Forall well_formed_mesh (meshes_of Examples.two_triangles) /\
  let buffer := gatherTrianglesFromScene Examples.two_triangles in
  Forall (fun i => (i < vertex_count buffer)%N) (indices buffer) /\
  List.length (indices buffer) mod 3 = 0.
Proof.
  assert (Hwf : Forall well_formed_mesh (meshes_of Examples.two_triangles)).
  { repeat constructor. }
  split; [exact Hwf|].
  exact (gather_indices_valid Examples.two_triangles Hwf).
Defined.

(** C9 as stated fails.  A mesh whose index buffer is [0, 7] over three
    vertices yields an index that names no position (and two indices);
    a mesh of four vertices without index list yields four indices. *)
Lemma gather_indices_invalid :
  (let buffer := gatherTrianglesFromScene Examples.corrupt_scene in
   indices buffer = [0; 7]%N /\ vertex_count buffer = 3%N /\
   ~ Forall (fun i => (i < vertex_count buffer)%N) (indices buffer) /\
   ~ (Forall (fun i => (i < vertex_count buffer)%N) (indices buffer) /\
      List.length (indices buffer) mod 3 = 0)) /\
  (let buffer := gatherTrianglesFromScene Examples.quad_scene in
   indices buffer = [0; 1; 2; 3]%N /\ vertex_count buffer = 4%N /\
   List.length (indices buffer) mod 3 <> 0 /\
   ~ (Forall (fun i => (i < vertex_count buffer)%N) (indices buffer) /\
      List.length (indices buffer) mod 3 = 0)).
Proof.
  cbv zeta. split.
  - split; [reflexivity|]. split; [reflexivity|].
    assert (H : ~ Forall (fun i => (i < vertex_count
                                      (gatherTrianglesFromScene Examples.corrupt_scene))%N)
                         (indices (gatherTrianglesFromScene Examples.corrupt_scene))).
    { intros H. vm_compute in H.
      inversion H as [|? ? _ H']; subst. inversion H' as [|? ? H7 _]; subst.
      discriminate H7. }
    split; [exact H|]. intros [H' _]. exact (H H').
  - split; [reflexivity|]. split; [reflexivity|].
    assert (H : List.length (indices (gatherTrianglesFromScene Examples.quad_scene))
                mod 3 <> 0) by (vm_compute; discriminate).
    split; [exact H|]. intros [_ H']. exact (H H').
Qed.

Lemma gather_two_triangles_witness :
  meshes_of Examples.two_triangles
  = [Examples.triangle Examples.origin;
     Examples.triangle (Examples.vertex 10 0 0)] /\
  let buffer := gatherTrianglesFromScene Examples.two_triangles in
  List.length (positions buffer) = 18 /\
  vertex_count buffer = 6%N /\
  indices buffer = [0; 1; 2; 3; 4; 5]%N.
Proof.
  split; [reflexivity|]. cbv zeta.
  destruct (gather_two_triangles Examples.two_triangles
              (Examples.triangle Examples.origin)
              (Examples.triangle (Examples.vertex 10 0 0))
              eq_refl eq_refl eq_refl eq_refl eq_refl)
    as (Hp & Hv & _ & Hi).
  repeat split; assumption.
Defined.

(* ---------------------------------------------------------------------- *)
(** ** Calls made through [benchmark]                                      *)
(* ---------------------------------------------------------------------- *)

Section CallFacts.

Context {host : Host} {call : Type}.

Lemma calls_of_app (t1 t2 : list (event call)) :
  calls_of (t1 ++ t2) = calls_of t1 ++ calls_of t2.
Proof. apply flat_map_app. Qed.

Lemma calls_of_invoke (body : list (event call)) :
  calls_of [Invoke body] = calls_of body.
Proof. cbn. apply app_nil_r. Qed.

Lemma last_cons_default {A} (a : A) l : forall d, last (a :: l) d = last l a.
Proof.
  revert a. induction l as [|b l IH]; intros a d; [reflexivity|].
  change (last (a :: b :: l) d) with (last (b :: l) d).
  rewrite (IH b d), (IH b a). reflexivity.
Qed.

Lemma last_app_default {A} (l1 l2 : list A) : forall d,
  last (l1 ++ l2) d = last l2 (last l1 d).
Proof.
  induction l1 as [|a l1 IH]; intros d; [reflexivity|].
  cbn [app]. rewrite !last_cons_default. apply IH.
Qed.

(** Callbacks that make exactly one call [mk x] to a service and leave
    [out x] in the captured variables. *)
Section SingleCall.

Context {S X : Type} (mk : X -> call) (out : X -> S).
Variable fn : S -> M (call:=call) S.
Hypothesis fn_single :
  forall s w, exists x,
    trace_of (fn s w) = [Call (mk x)] /\ result_of (fn s w) = out x.

Lemma invoke_single s w :
  exists x, calls_of (trace_of (invoke fn s w)) = [mk x] /\
            result_of (invoke fn s w) = out x.
Proof.
  destruct (fn_single s w) as (x & Ht & Hr). exists x.
  rewrite trace_invoke, calls_of_invoke, Ht, result_invoke, Hr. auto.
Qed.

Lemma warmup_loop_calls n : forall s w,
  exists xs,
    List.length xs = n /\
    calls_of (trace_of (warmup_loop fn n s w)) = map mk xs /\
    result_of (warmup_loop fn n s w) = last (map out xs) s.
Proof.
  induction n as [|n IH]; intros s w; cbn [warmup_loop].
  - exists []. auto.
  - rewrite trace_bind, result_bind, calls_of_app.
    destruct (invoke_single s w) as (x & Hc & Hr). rewrite Hc, Hr.
    destruct (IH (out x) (world_of (invoke fn s w))) as (xs & Hl & Hcs & Hrs).
    exists (x :: xs). rewrite Hcs, Hrs. cbn [map List.length].
    rewrite last_cons_default. auto.
Qed.

Lemma timed_loop_calls n : forall acc s w,
  exists xs,
    List.length xs = n /\
    calls_of (trace_of (timed_loop fn n acc s w)) = map mk xs /\
    snd (result_of (timed_loop fn n acc s w)) = last (map out xs) s.
Proof.
  induction n as [|n IH]; intros acc s w; cbn [timed_loop].
  - exists []. auto.
  - rewrite !trace_bind, !result_bind, ?world_bind, !calls_of_app, !trace_now.
    set (w1 := world_of (now w)).
    destruct (invoke_single s w1) as (x & Hc & Hr). rewrite Hc, Hr.
    match goal with
    | |- context [timed_loop fn n ?a (out x) ?w'] =>
        destruct (IH a (out x) w') as (xs & Hl & Hcs & Hrs)
    end.
    exists (x :: xs). rewrite Hcs, Hrs. cbn [map List.length].
    rewrite last_cons_default. cbn. auto.
Qed.

Lemma benchmark_calls label warmup n s w :
  exists xs,
    List.length xs = warmup + n /\
    calls_of (trace_of (benchmark label fn warmup n s w)) = map mk xs /\
    snd (result_of (benchmark label fn warmup n s w)) = last (map out xs) s.
Proof.
  unfold benchmark.
  rewrite !trace_bind, !result_bind, ?world_bind, !calls_of_app.
  cbn [console_log emit trace_of world_of result_of fst snd calls_of flat_map
       calls_of_event app].
  destruct (warmup_loop_calls warmup s w) as (xs1 & Hl1 & Hc1 & Hr1).
  unfold result_of, world_of, trace_of in *.
  rewrite Hc1, Hr1.
  match goal with
  | |- context [timed_loop fn n [] ?s' ?w'] =>
      destruct (timed_loop_calls n [] s' w') as (xs2 & Hl2 & Hc2 & Hr2)
  end.
  unfold result_of, world_of, trace_of in *.
  rewrite Hc2.
  match goal with
  | |- context [timed_loop fn n [] ?s' ?w'] =>
      destruct (timed_loop fn n [] s' w') as [[[ts s2] w2] tr2] eqn:E
  end.
  cbn [fst snd] in *. subst s2.
  exists (xs1 ++ xs2). rewrite length_app, !map_app, app_nil_r.
  split; [lia|]. split; [reflexivity|].
  cbn [ret snd fst]. rewrite last_app_default. reflexivity.
Qed.

End SingleCall.

End CallFacts.

(* ---------------------------------------------------------------------- *)
(** ** The generation and path harnesses                                   *)
(* ---------------------------------------------------------------------- *)

Section HarnessFacts.

Context {host : Host} {B : Backends}.

Lemma recast_generation_fn_single positions indices cfg :
  forall s w, exists x,
    trace_of (recast_generation_fn positions indices cfg s w)
    = [Call (RecastGenerate positions indices cfg x)] /\
    result_of (recast_generation_fn positions indices cfg s w) = x.
Proof.
  intros s w. unfold recast_generation_fn, bind, call_recast_generate, ret.
  destruct (recast_generateSoloNavMesh positions indices cfg w) as [nav w'].
  exists nav. split; reflexivity.
Qed.

Lemma navcat_generation_fn_single positions indices opts :
  forall s w, exists x : NavcatNavMesh * NavcatIntermediates,
    trace_of (navcat_generation_fn positions indices opts s w)
    = [Call (NavcatGenerate positions indices opts (fst x))] /\
    result_of (navcat_generation_fn positions indices opts s w)
    = (Some (fst x), Some (snd x)).
Proof.
  intros s w. unfold navcat_generation_fn, bind, call_navcat_generate, ret.
  destruct (navcat_generateSoloNavMesh positions indices opts w) as [[nav im] w'].
  exists (nav, im). split; reflexivity.
Qed.

Lemma recast_query_fn_single nav :
  forall s w, exists x : unit,
    trace_of (recast_query_fn nav s w)
    = [Call (RecastComputePath nav startPos endPos None)] /\
    result_of (recast_query_fn nav s w) = tt.
Proof.
  intros s w. unfold recast_query_fn, bind, call_recast_computePath, ret.
  destruct (recast_computePath nav startPos endPos None w) as [p w'].
  exists tt. split; reflexivity.
Qed.

Lemma navcat_query_fn_single nav a b c f :
  forall s w, exists x : unit,
    trace_of (navcat_query_fn nav a b c f s w)
    = [Call (NavcatFindPath nav a b c f)] /\
    result_of (navcat_query_fn nav a b c f s w) = tt.
Proof.
  intros s w. unfold navcat_query_fn, bind, call_navcat_findPath, ret.
  destruct (navcat_findPath nav a b c f w) as [p w'].
  exists tt. split; reflexivity.
Qed.

Lemma final_of_vars {A C} (xs : list (A * C)) :
  last (map (fun x => (Some (fst x), Some (snd x))) xs) (None, None)
  = (final_of (map fst xs), final_of (map snd xs)).
Proof.
  unfold final_of. rewrite !map_map.
  change (@None A, @None C)
    with ((fun o : option (A * C) => (option_map fst o, option_map snd o)) None).
  induction xs as [|x xs IH] using rev_ind; [reflexivity|].
  rewrite !map_app, !last_app_default. reflexivity.
Qed.

Lemma benchmarkGeneration_unfold positions indices options w :
  benchmarkGeneration positions indices options w
  = let '(recastGenTime, recastNav, w1, tr1) :=
      benchmark "recast generation"%string
        (recast_generation_fn positions indices (recastOptions options))
        default_warmupRuns default_runs None w in
    match recastNav with
    | None =>
        (Thrown (new_Error "Recast navmesh generation failed"%string), w1,
         Status "Benchmarking Recast generation..."%string
           :: tr1 ++ [ConsoleLogResult "Recast generation:"%string recastGenTime])
    | Some nav =>
        let '(navcatGenTime, (navcatNav, navcatIntermediates), w2, tr2) :=
          benchmark "navcat generation"%string
            (navcat_generation_fn positions indices (navcatOptions options))
            default_warmupRuns default_runs (None, None) w1 in
        (Returned {| navcatNav := navcatNav;
                     navcatIntermediates := navcatIntermediates;
                     navcatGenTime := navcatGenTime;
                     recastNav := nav;
                     recastGenTime := recastGenTime |}, w2,
         Status "Benchmarking Recast generation..."%string
           :: tr1 ++ ConsoleLogResult "Recast generation:"%string recastGenTime
           :: Status "Benchmarking Navcat generation..."%string
           :: tr2 ++ [ConsoleLogResult "Navcat generation:"%string navcatGenTime])
    end.
Proof.
  unfold benchmarkGeneration, bind. cbn [set_status console_log_result emit].
  destruct (benchmark "recast generation"%string _ _ _ None w)
    as [[[t2 [nav|]] w1] tr1]; cbn [ret app].
  - destruct (benchmark "navcat generation"%string _ _ _ (None, None) w1)
      as [[[t1 [nn ni]] w2] tr2]; cbn [app].
    rewrite ?app_nil_r. reflexivity.
  - rewrite ?app_nil_r. reflexivity.
Qed.

(** Every run of [benchmarkGeneration] in which the builds return:
    thirteen Recast builds; it throws exactly when the last of them
    handed back no navmesh, and otherwise goes on with thirteen navcat
    builds and returns the handle of the last of those. *)
Lemma benchmarkGeneration_run positions indices options w :
  let r := benchmarkGeneration positions indices options w in
  exists navs : list (option RecastNavMesh),
    List.length navs = 13 /\
    match last navs None with
    | None =>
        result_of r
        = Thrown (new_Error "Recast navmesh generation failed"%string) /\
        calls_of (trace_of r)
        = map (RecastGenerate positions indices (recastOptions options)) navs
    | Some nav =>
        exists (xs : list (NavcatNavMesh * NavcatIntermediates))
               (t1 t2 : BenchmarkResult),
          List.length xs = 13 /\
          calls_of (trace_of r)
          = map (RecastGenerate positions indices (recastOptions options)) navs
              ++ map (fun x => NavcatGenerate positions indices
                                 (navcatOptions options) (fst x)) xs /\
          result_of r
          = Returned {| navcatNav := final_of (map fst xs);
                        navcatIntermediates := final_of (map snd xs);
                        navcatGenTime := t1;
                        recastNav := nav;
                        recastGenTime := t2 |}
    end.
Proof.
  cbv zeta. rewrite benchmarkGeneration_unfold.
  destruct (benchmark_calls
              (RecastGenerate positions indices (recastOptions options))
              (fun x => x) _
              (recast_generation_fn_single positions indices (recastOptions options))
              "recast generation"%string default_warmupRuns default_runs None w)
    as (navs & Hl & Hc & Hr).
  exists navs. split; [exact Hl|].
  rewrite map_id in Hr.
  destruct (benchmark "recast generation"%string _ _ _ None w) as [[[t2 nav] w1] tr1].
  cbn [trace_of result_of snd fst] in Hc, Hr. subst nav.
  destruct (last navs None) as [nav|].
  - destruct (benchmark_calls
                (fun x => NavcatGenerate positions indices (navcatOptions options) (fst x))
                (fun x : NavcatNavMesh * NavcatIntermediates =>
                   (Some (fst x), Some (snd x))) _
                (navcat_generation_fn_single positions indices (navcatOptions options))
                "navcat generation"%string default_warmupRuns default_runs (None, None) w1)
      as (xs & Hlx & Hcx & Hrx).
    destruct (benchmark "navcat generation"%string _ _ _ (None, None) w1)
      as [[[t1 [nn ni]] w2] tr2].
    cbn [trace_of result_of snd fst] in Hcx, Hrx.
    exists xs, t1, t2. split; [exact Hlx|].
    cbn [trace_of result_of fst snd].
    rewrite (final_of_vars xs) in Hrx. injection Hrx as -> ->.
    split; [|reflexivity].
    change (calls_of ([Status "Benchmarking Recast generation..."%string]
                        ++ tr1 ++ [ConsoleLogResult "Recast generation:"%string t2;
                                   Status "Benchmarking Navcat generation..."%string]
                        ++ tr2 ++ [ConsoleLogResult "Navcat generation:"%string t1])
            = map (RecastGenerate positions indices (recastOptions options)) navs
                ++ map (fun x => NavcatGenerate positions indices
                                   (navcatOptions options) (fst x)) xs).
    rewrite !calls_of_app, Hc, Hcx. cbn. rewrite app_nil_r. reflexivity.
  - cbn [trace_of result_of fst snd]. split; [reflexivity|].
    change (calls_of ([Status "Benchmarking Recast generation..."%string]
                        ++ tr1 ++ [ConsoleLogResult "Recast generation:"%string t2])
            = map (RecastGenerate positions indices (recastOptions options)) navs).
    rewrite !calls_of_app, Hc. cbn. rewrite app_nil_r. reflexivity.
Qed.

End HarnessFacts.

Section QueryFacts.

Context {host : Host} {B : Backends}.

Lemma verifyPaths_calls g w :
  calls_of (trace_of (verifyPaths g w))
  = [NavcatFindPath (navcatNav g) (to_array startPos) (to_array endPos)
                    (to_array halfExtents) DEFAULT_QUERY_FILTER;
     NewNavMeshQuery (recastNav g);
     RecastComputePath (recastNav g) startPos endPos None].
Proof.
  unfold verifyPaths, bind, call_navcat_findPath, call_recast_computePath.
  cbn [set_status console_log emit].
  destruct (navcat_findPath _ _ _ _ _ w) as [p1 w1].
  destruct (recast_computePath _ _ _ _ w1) as [p2 w2].
  reflexivity.
Qed.

Lemma benchmarkQueries_unfold g w :
  benchmarkQueries g w
  = let '(recastQueryTime, _, w1, tr1) :=
      benchmark "recast query"%string
        (recast_query_fn (recastNav g)) 100 10000 tt w in
    let '(navcatQueryTime, _, w2, tr2) :=
      benchmark "navcat query"%string
        (navcat_query_fn (navcatNav g) (to_array startPos) (to_array endPos)
           (to_array halfExtents) DEFAULT_QUERY_FILTER) 100 10000 tt w1 in
    ({| navcatQueryTime := navcatQueryTime;
        recastQueryTime := recastQueryTime |}, w2,
     Status "Benchmarking queries..."%string
       :: Call (NewNavMeshQuery (recastNav g))
       :: tr1
       ++ ConsoleLogResult
            ("Recast query (" ++ Number.to_string (runs recastQueryTime)
                              ++ " iterations):")%string recastQueryTime
       :: tr2
       ++ [ConsoleLogResult
             ("Navcat query (" ++ Number.to_string (runs navcatQueryTime)
                               ++ " iterations):")%string navcatQueryTime]).
Proof.
  unfold benchmarkQueries, bind. cbn [set_status console_log_result emit].
  destruct (benchmark "recast query"%string _ 100 10000 tt w)
    as [[[t1 u1] w1] tr1].
  destruct (benchmark "navcat query"%string _ 100 10000 tt w1)
    as [[[t2 u2] w2] tr2].
  cbn [ret app]. rewrite ?app_nil_r. reflexivity.
Qed.

Lemma benchmarkQueries_calls g w :
  exists n1 n2,
    calls_of (trace_of (benchmarkQueries g w))
    = NewNavMeshQuery (recastNav g)
        :: repeat (RecastComputePath (recastNav g) startPos endPos None) n1
        ++ repeat (NavcatFindPath (navcatNav g) (to_array startPos)
                     (to_array endPos) (to_array halfExtents)
                     DEFAULT_QUERY_FILTER) n2 /\
    n1 = 100 + 10000 /\ n2 = 100 + 10000.
Proof.
  rewrite benchmarkQueries_unfold.
  destruct (benchmark_calls
              (fun _ : unit => RecastComputePath (recastNav g) startPos endPos None)
              (fun _ => tt) _ (recast_query_fn_single (recastNav g))
              "recast query"%string 100 10000 tt w) as (xs1 & Hl1 & Hc1 & _).
  destruct (benchmark "recast query"%string _ 100 10000 tt w)
    as [[[t1 u1] w1] tr1].
  destruct (benchmark_calls
              (fun _ : unit => NavcatFindPath (navcatNav g) (to_array startPos)
                                 (to_array endPos) (to_array halfExtents)
                                 DEFAULT_QUERY_FILTER)
              (fun _ => tt) _
              (navcat_query_fn_single (navcatNav g) (to_array startPos)
                 (to_array endPos) (to_array halfExtents) DEFAULT_QUERY_FILTER)
              "navcat query"%string 100 10000 tt w1)
    as (xs2 & Hl2 & Hc2 & _).
  destruct (benchmark "navcat query"%string _ 100 10000 tt w1)
    as [[[t2 u2] w2] tr2].
  cbn [trace_of snd] in *.
  exists (List.length xs1), (List.length xs2).
  split; [|split; assumption].
  match goal with
  | |- calls_of (?a :: ?b :: tr1 ++ ?c :: tr2 ++ ?d) = _ =>
      change (calls_of ([a; b] ++ tr1 ++ [c] ++ tr2 ++ d)
              = [NewNavMeshQuery (recastNav g)]
                  ++ repeat (RecastComputePath (recastNav g) startPos endPos None)
                       (List.length xs1)
                  ++ repeat (NavcatFindPath (navcatNav g) (to_array startPos)
                               (to_array endPos) (to_array halfExtents)
                               DEFAULT_QUERY_FILTER) (List.length xs2))
  end.
  rewrite !calls_of_app, Hc1, Hc2. cbn [calls_of flat_map calls_of_event app].
  rewrite app_nil_r.
  do 2 f_equal; [clear; induction xs1 | clear; induction xs2]; cbn; congruence.
Qed.

End QueryFacts.

(** Side condition when selecting from a list of calls of one kind: none
    of them is selected. *)
Ltac none_selected := apply Forall_map, Forall_forall; reflexivity.

Section RunFacts.

Context {host : Host} {B : Backends}.

Lemma recast_builds_app (t1 t2 : list (event backend_call)) :
  recast_builds (t1 ++ t2) = recast_builds t1 ++ recast_builds t2.
Proof. unfold recast_builds. rewrite calls_of_app. apply flat_map_app. Qed.

Lemma navcat_builds_app (t1 t2 : list (event backend_call)) :
  navcat_builds (t1 ++ t2) = navcat_builds t1 ++ navcat_builds t2.
Proof. unfold navcat_builds. rewrite calls_of_app. apply flat_map_app. Qed.

Lemma path_queries_app (t1 t2 : list (event backend_call)) :
  path_queries (t1 ++ t2) = path_queries t1 ++ path_queries t2.
Proof. unfold path_queries. rewrite calls_of_app. apply filter_app. Qed.

Lemma no_builds (t : list (event backend_call)) :
  Forall (fun c => is_build c = false) (calls_of t) ->
  recast_builds t = [] /\ navcat_builds t = [].
Proof.
  unfold recast_builds, navcat_builds.
  induction 1 as [|c cs Hc _ [IH1 IH2]]; [split; reflexivity|].
  cbn [flat_map]. rewrite IH1, IH2. destruct c; try discriminate; split; reflexivity.
Qed.

Lemma recast_calls_builds positions indices cfg navs :
  flat_map (fun c => match c with
                     | RecastGenerate _ _ _ nav => [nav]
                     | _ => []
                     end)
           (map (RecastGenerate positions indices cfg) navs) = navs.
Proof. induction navs; cbn; congruence. Qed.

Lemma recast_calls_configs positions indices cfg navs :
  flat_map (fun c => match c with
                     | RecastGenerate _ _ c' _ => [c']
                     | RecastGenerateThrew _ _ c' _ => [c']
                     | _ => []
                     end)
           (map (RecastGenerate positions indices cfg) navs)
  = repeat cfg (List.length navs).
Proof. induction navs; cbn; congruence. Qed.

Lemma navcat_calls_options positions indices opts
      (xs : list (NavcatNavMesh * NavcatIntermediates)) :
  flat_map (fun c => match c with
                     | NavcatGenerate _ _ o _ => [o]
                     | NavcatGenerateThrew _ _ o _ => [o]
                     | _ => []
                     end)
           (map (fun x => NavcatGenerate positions indices opts (fst x)) xs)
  = repeat opts (List.length xs).
Proof. induction xs; cbn; congruence. Qed.

Lemma navcat_calls_builds positions indices opts
      (xs : list (NavcatNavMesh * NavcatIntermediates)) :
  flat_map (fun c => match c with
                     | NavcatGenerate _ _ _ nav => [nav]
                     | _ => []
                     end)
           (map (fun x => NavcatGenerate positions indices opts (fst x)) xs)
  = map fst xs.
Proof. induction xs; cbn; congruence. Qed.

Lemma flat_map_nil {A C} (f : A -> list C) l :
  Forall (fun a => f a = []) l -> flat_map f l = [].
Proof. induction 1 as [|a l Ha _ IH]; cbn; [reflexivity|]. now rewrite Ha, IH. Qed.

Lemma filter_nil {A} (f : A -> bool) l :
  Forall (fun a => f a = false) l -> filter f l = [].
Proof. induction 1 as [|a l Ha _ IH]; cbn; [reflexivity|]. now rewrite Ha. Qed.

Lemma initializeRecast_calls w :
  calls_of (trace_of (initializeRecast w)) = [RecastInit].
Proof.
  unfold initializeRecast, bind, now, call_recast_init.
  destruct (performance_now w) as [a w1].
  destruct (performance_now (recast_init w1)) as [b w2].
  reflexivity.
Qed.

Lemma after_generation_calls t0 g w :
  Forall (fun c => is_build c = false)
         (calls_of (trace_of (after_generation t0 g w))).
Proof.
  unfold after_generation.
  rewrite trace_bind, calls_of_app. apply Forall_app. split.
  { unfold visualizeNavMeshes, bind, emit. cbn [trace_of snd app].
    repeat constructor. }
  rewrite trace_bind, calls_of_app. apply Forall_app. split.
  { rewrite verifyPaths_calls. repeat constructor. }
  rewrite trace_bind, calls_of_app. apply Forall_app. split.
  { match goal with
    | |- context [benchmarkQueries g ?w'] =>
        destruct (benchmarkQueries_calls g w') as (n1 & n2 & Hq & _ & _)
    end.
    rewrite Hq. constructor; [reflexivity|].
    apply Forall_app; split; apply Forall_forall;
      intros c Hin; apply repeat_spec in Hin; subst c; reflexivity. }
  unfold displaySummary, bind, console_log, set_status, emit.
  cbn [trace_of snd app calls_of flat_map calls_of_event]. constructor.
Qed.

Lemma last_map {A C} (f : A -> C) l : forall d, last (map f l) (f d) = f (last l d).
Proof.
  induction l as [|a l IH]; intros d; [reflexivity|].
  cbn [map]. rewrite !last_cons_default. apply IH.
Qed.

(** The calls of the stages after a successful generation: the display
    helper and the debug drawer, the two queries of [verifyPaths] with
    the construction of the Recast query object between them, then the
    second query object and the queries of the two query benchmarks. *)
Lemma after_generation_calls_exact t0 g w :
  exists n1 n2,
    calls_of (trace_of (after_generation t0 g w))
    = [CreateNavMeshHelper (navcatNav g); NewDebugDrawer;
       DrawNavMesh (recastNav g);
       NavcatFindPath (navcatNav g) (to_array startPos) (to_array endPos)
                      (to_array halfExtents) DEFAULT_QUERY_FILTER;
       NewNavMeshQuery (recastNav g);
       RecastComputePath (recastNav g) startPos endPos None;
       NewNavMeshQuery (recastNav g)]
        ++ repeat (RecastComputePath (recastNav g) startPos endPos None) n1
        ++ repeat (NavcatFindPath (navcatNav g) (to_array startPos)
                     (to_array endPos) (to_array halfExtents)
                     DEFAULT_QUERY_FILTER) n2 /\
    n1 = 100 + 10000 /\ n2 = 100 + 10000.
Proof.
  unfold after_generation.
  rewrite trace_bind, calls_of_app.
  assert (Hv : forall w', calls_of (trace_of (visualizeNavMeshes g w'))
                          = [CreateNavMeshHelper (navcatNav g); NewDebugDrawer;
                             DrawNavMesh (recastNav g)])
    by reflexivity.
  rewrite Hv. rewrite trace_bind, calls_of_app, verifyPaths_calls.
  rewrite trace_bind, calls_of_app.
  match goal with
  | |- context [benchmarkQueries g ?w'] =>
      destruct (benchmarkQueries_calls g w') as (n1 & n2 & Hq & Hn1 & Hn2)
  end.
  exists n1, n2. rewrite Hq. split; [|split; assumption].
  assert (Hd : forall q w', calls_of (trace_of (displaySummary t0 g q w')) = [])
    by reflexivity.
  rewrite Hd, app_nil_r. reflexivity.
Qed.

Lemma setupScene_run {T : THREE.Transform} (glbScene : THREE.Object3D) w :
  result_of (setupScene glbScene w) = gatherTrianglesFromScene glbScene /\
  world_of (setupScene glbScene w) = w /\
  calls_of (trace_of (setupScene glbScene w)) = [].
Proof. repeat split. Qed.

(** [run] is: the set-up, the generation benchmark on the extracted
    buffer, and then either the error report or the remaining stages. *)
Lemma run_trace {T : THREE.Transform} (glbScene : THREE.Object3D) w :
  exists (t_init : list (event backend_call)) (w1 : World) (t0 : float),
    calls_of t_init = [RecastInit] /\
    let buffer := gatherTrianglesFromScene glbScene in
    let gen := benchmarkGeneration (positions buffer) (indices buffer)
                 createGenerationOptions w1 in
    trace_of (run glbScene w)
    = t_init ++ trace_of gen
        ++ match result_of gen with
           | Thrown err => [ConsoleError err; ErrorOverlay (overlay_text err)]
           | Returned g => trace_of (after_generation t0 g (world_of gen))
           end.
Proof.
  unfold run. cbv zeta.
  rewrite trace_bind. cbn [set_status emit trace_of result_of world_of fst snd].
  rewrite trace_bind.
  destruct (setupScene_run glbScene w) as (Hb & Hw & Hc).
  rewrite Hb, Hw.
  rewrite trace_bind. cbn [set_status emit trace_of result_of world_of fst snd].
  rewrite trace_bind.
  set (i := initializeRecast w).
  exists (Status "Initializing..."%string
            :: trace_of (setupScene glbScene w)
            ++ Status "Initializing Recast..."%string :: trace_of i),
    (world_of i), (result_of i).
  split.
  - change (calls_of ([Status "Initializing..."%string]
                        ++ trace_of (setupScene glbScene w)
                        ++ [Status "Initializing Recast..."%string] ++ trace_of i)
            = [RecastInit]).
    rewrite !calls_of_app, Hc. unfold i. rewrite initializeRecast_calls. reflexivity.
  - cbv zeta. rewrite trace_bind.
    set (gen := benchmarkGeneration _ _ _ (world_of i)).
    cbn [app]. rewrite <- !app_assoc. cbn [app]. do 4 f_equal.
    destruct (result_of gen) as [g|err]; [reflexivity|].
    unfold bind, console_error, emit. reflexivity.
Qed.

End RunFacts.

(* ---------------------------------------------------------------------- *)
(** ** Build calls that throw                                              *)
(* ---------------------------------------------------------------------- *)

Section ThrowingBenchmarkFacts.

Context {host : Host} {call : Type}.

Lemma trace_invoke_throwing {S A} (fn : S -> M (call:=call) A) s w :
  trace_of (Throwing.invoke fn s w) = [Invoke (trace_of (fn s w))].
Proof.
  unfold Throwing.invoke, trace_of. destruct (fn s w) as [[a w'] t]. reflexivity.
Qed.

Lemma result_invoke_throwing {S A} (fn : S -> M (call:=call) A) s w :
  result_of (Throwing.invoke fn s w) = result_of (fn s w).
Proof.
  unfold Throwing.invoke, result_of. destruct (fn s w) as [[a w'] t]. reflexivity.
Qed.

Lemma returning_bind {A C} (m : M (call:=call) A) (f : A -> M C)
      (f' : outcome A -> M (outcome C)) :
  (forall a w, f' (Returned a) w = returning (f a) w) ->
  forall w, bind (returning m) f' w = returning (bind m f) w.
Proof.
  intros Hf w. unfold bind, returning.
  destruct (m w) as [[a w1] t1]. rewrite Hf. unfold returning.
  destruct (f a w1) as [[c w2] t2]. reflexivity.
Qed.

(** A step that cannot throw, followed by steps that agree. *)
Lemma bind_returning {A C} (m : M (call:=call) A) (f : A -> M C)
      (f' : A -> M (outcome C)) w :
  (forall a w1, f' a w1 = returning (f a) w1) ->
  bind m f' w = returning (bind m f) w.
Proof.
  intros Hf. unfold bind, returning.
  destruct (m w) as [[a w1] t1]. rewrite Hf. unfold returning.
  destruct (f a w1) as [[c w2] t2]. reflexivity.
Qed.

Lemma bind_ext {A C} (m m' : M (call:=call) A) (f f' : A -> M C) w :
  m w = m' w -> (forall a w1, f a w1 = f' a w1) ->
  bind m f w = bind m' f' w.
Proof.
  intros Hm Hf. unfold bind. rewrite Hm.
  destruct (m' w) as [[a w1] t1]. rewrite Hf. reflexivity.
Qed.

Section Agreement.

Context {S : Type} (fn : S -> M (call:=call) S)
        (fn' : S -> M (call:=call) (outcome S)).
Hypothesis fn_returns : forall s w, fn' s w = returning (fn s) w.

Lemma invoke_agrees s w :
  Throwing.invoke fn' s w = returning (invoke fn s) w.
Proof.
  unfold Throwing.invoke, invoke, returning. rewrite fn_returns.
  unfold returning. destruct (fn s w) as [[s' w'] t]. reflexivity.
Qed.

Lemma warmup_loop_agrees n : forall s w,
  Throwing.warmup_loop fn' n s w = returning (warmup_loop fn n s) w.
Proof.
  induction n as [|n IH]; intros s w; [reflexivity|].
  cbn [Throwing.warmup_loop warmup_loop].
  etransitivity; [apply bind_ext; [apply invoke_agrees|reflexivity]|].
  apply returning_bind. intros a w0. apply IH.
Qed.

Lemma timed_loop_agrees n : forall acc s w,
  Throwing.timed_loop fn' n acc s w = returning (timed_loop fn n acc s) w.
Proof.
  induction n as [|n IH]; intros acc s w; [reflexivity|].
  cbn [Throwing.timed_loop timed_loop].
  apply bind_returning. intros start w1.
  etransitivity; [apply bind_ext; [apply invoke_agrees|reflexivity]|].
  apply returning_bind. intros s' w2.
  apply bind_returning. intros end_ w3. apply IH.
Qed.

Lemma benchmark_agrees label warmup n s w :
  Throwing.benchmark label fn' warmup n s w
  = returning (benchmark label fn warmup n s) w.
Proof.
  unfold Throwing.benchmark, benchmark.
  apply bind_returning. intros u w0.
  etransitivity; [apply bind_ext; [apply warmup_loop_agrees|reflexivity]|].
  apply returning_bind. intros s1 w1.
  apply bind_returning. intros u2 w2.
  etransitivity; [apply bind_ext; [apply timed_loop_agrees|reflexivity]|].
  apply returning_bind. intros [ts s2] w3. reflexivity.
Qed.

End Agreement.

End ThrowingBenchmarkFacts.

Section ThrowingCallFacts.

Context {host : Host} {call : Type}.

(** Callbacks that make exactly one call to a service and either return,
    leaving [out x] in the captured variables after the call [mk x], or
    throw what the call [mk_threw err] threw. *)
Section SingleThrowingCall.

Context {S X : Type} (mk : X -> call) (out : X -> S)
        (mk_threw : js_error -> call).
Variable fn : S -> M (call:=call) (outcome S).
Hypothesis fn_single :
  forall s w,
    (exists x, trace_of (fn s w) = [Call (mk x)] /\
               result_of (fn s w) = Returned (out x)) \/
    (exists err, trace_of (fn s w) = [Call (mk_threw err)] /\
                 result_of (fn s w) = Thrown err).

Lemma warmup_loop_throwing_calls n : forall s w,
  let r := Throwing.warmup_loop fn n s w in
  exists xs,
    calls_of (trace_of r) = calls_until mk mk_threw xs (result_of r) /\
    match result_of r with
    | Returned s' => List.length xs = n /\ s' = last (map out xs) s
    | Thrown _ => List.length xs < n
    end.
Proof.
  induction n as [|n IH]; intros s w; cbv zeta; cbn [Throwing.warmup_loop].
  - exists []. split; [reflexivity|]. split; reflexivity.
  - rewrite trace_bind, result_bind, trace_invoke_throwing,
      result_invoke_throwing, calls_of_app, calls_of_invoke.
    destruct (fn_single s w) as [(x & Ht & Hr)|(err & Ht & Hr)];
      rewrite Ht, Hr.
    + specialize (IH (out x) (world_of (Throwing.invoke fn s w))).
      cbv zeta in IH. destruct IH as (xs & Hc & Hres).
      exists (x :: xs). rewrite Hc. split; [reflexivity|].
      destruct (result_of (Throwing.warmup_loop fn n (out x) _)) as [s'|e].
      * destruct Hres as [Hl ->]. cbn [List.length map].
        rewrite last_cons_default. auto.
      * cbn [List.length]. lia.
    + exists []. split; [reflexivity|]. cbn. lia.
Qed.

Lemma timed_loop_throwing_calls n : forall acc s w,
  let r := Throwing.timed_loop fn n acc s w in
  exists xs,
    calls_of (trace_of r) = calls_until mk mk_threw xs (result_of r) /\
    match result_of r with
    | Returned ts_s' => List.length xs = n /\ snd ts_s' = last (map out xs) s
    | Thrown _ => List.length xs < n
    end.
Proof.
  induction n as [|n IH]; intros acc s w; cbv zeta; cbn [Throwing.timed_loop].
  - exists []. split; [reflexivity|]. split; reflexivity.
  - rewrite !trace_bind, !result_bind, ?world_bind, !calls_of_app, trace_now.
    set (w1 := world_of (now w)).
    rewrite trace_invoke_throwing, result_invoke_throwing, calls_of_invoke.
    destruct (fn_single s w1) as [(x & Ht & Hr)|(err & Ht & Hr)];
      rewrite Ht, Hr.
    + rewrite !trace_bind, !result_bind, ?world_bind, !calls_of_app, trace_now.
      match goal with
      | |- context [Throwing.timed_loop fn n ?a (out x) ?w'] =>
          specialize (IH a (out x) w')
      end.
      cbv zeta in IH. destruct IH as (xs & Hc & Hres).
      exists (x :: xs). rewrite Hc. split; [reflexivity|].
      match goal with
      | |- context [result_of (Throwing.timed_loop fn n ?a (out x) ?w')] =>
          destruct (result_of (Throwing.timed_loop fn n a (out x) w')) as [p|e]
      end.
      * destruct Hres as [Hl ->]. cbn [List.length map].
        rewrite last_cons_default. auto.
      * cbn [List.length]. lia.
    + exists []. split; [reflexivity|]. cbn. lia.
Qed.

(** [benchmark] with a callback that may throw: the calls are those of
    the invocations that returned, followed by the one that threw, if
    any; the loop stops there. *)
Lemma benchmark_throwing_calls label warmup n s w :
  let r := Throwing.benchmark label fn warmup n s w in
  exists xs,
    calls_of (trace_of r) = calls_until mk mk_threw xs (result_of r) /\
    match result_of r with
    | Returned res_s' =>
        List.length xs = warmup + n /\ snd res_s' = last (map out xs) s
    | Thrown _ => List.length xs < warmup + n
    end.
Proof.
  cbv zeta. unfold Throwing.benchmark.
  rewrite trace_bind, result_bind, calls_of_app.
  change (calls_of (trace_of (console_log _ w))) with (@nil call).
  change (world_of (console_log _ w)) with w.
  rewrite trace_bind, result_bind, calls_of_app.
  pose proof (warmup_loop_throwing_calls warmup s w) as Hw. cbv zeta in Hw.
  destruct Hw as (xs1 & Hc1 & Hr1). rewrite Hc1.
  set (w1 := world_of (Throwing.warmup_loop fn warmup s w)).
  destruct (result_of (Throwing.warmup_loop fn warmup s w)) as [s1|err].
  - destruct Hr1 as [Hl1 ->].
    rewrite trace_bind, result_bind, calls_of_app.
    change (calls_of (trace_of (console_log _ w1))) with (@nil call).
    change (world_of (console_log _ w1)) with w1.
    rewrite trace_bind, result_bind, calls_of_app.
    pose proof (timed_loop_throwing_calls n [] (last (map out xs1) s) w1) as Ht.
    cbv zeta in Ht. destruct Ht as (xs2 & Hc2 & Hr2). rewrite Hc2.
    destruct (result_of (Throwing.timed_loop fn n [] _ w1)) as [[ts s2]|err].
    + destruct Hr2 as [Hl2 Hs2]. cbn [snd] in Hs2. subst s2.
      exists (xs1 ++ xs2). unfold calls_until.
      cbn [ret trace_of result_of fst snd calls_of flat_map app].
      rewrite !map_app, !app_nil_r, length_app, last_app_default.
      repeat split; lia.
    + exists (xs1 ++ xs2). unfold calls_until.
      cbn [ret trace_of result_of fst snd calls_of flat_map app].
      rewrite !map_app, !app_nil_r, length_app, <- app_assoc.
      split; [reflexivity|lia].
  - exists xs1. unfold calls_until.
    cbn [ret trace_of result_of fst snd calls_of flat_map app].
    rewrite ?app_nil_r. split; [reflexivity|lia].
Qed.

End SingleThrowingCall.

End ThrowingCallFacts.

Section ThrowingHarnessFacts.

Context {host : Host} {B : Backends} {X : BuildExceptions}.

Lemma recast_generation_fn_throwing_single positions indices cfg :
  forall s w,
    (exists x,
        trace_of (Throwing.recast_generation_fn positions indices cfg s w)
        = [Call (RecastGenerate positions indices cfg x)] /\
        result_of (Throwing.recast_generation_fn positions indices cfg s w)
        = Returned x) \/
    (exists err,
        trace_of (Throwing.recast_generation_fn positions indices cfg s w)
        = [Call (RecastGenerateThrew positions indices cfg err)] /\
        result_of (Throwing.recast_generation_fn positions indices cfg s w)
        = Thrown err).
Proof.
  intros s w.
  unfold Throwing.recast_generation_fn, bind, Throwing.call_recast_generate, ret.
  destruct (recast_generate_throws positions indices cfg w) as [[err w']|].
  - right. exists err. split; reflexivity.
  - destruct (recast_generateSoloNavMesh positions indices cfg w) as [nav w'].
    left. exists nav. split; reflexivity.
Qed.

Lemma navcat_generation_fn_throwing_single positions indices opts :
  forall s w,
    (exists x : NavcatNavMesh * NavcatIntermediates,
        trace_of (Throwing.navcat_generation_fn positions indices opts s w)
        = [Call (NavcatGenerate positions indices opts (fst x))] /\
        result_of (Throwing.navcat_generation_fn positions indices opts s w)
        = Returned (Some (fst x), Some (snd x))) \/
    (exists err,
        trace_of (Throwing.navcat_generation_fn positions indices opts s w)
        = [Call (NavcatGenerateThrew positions indices opts err)] /\
        result_of (Throwing.navcat_generation_fn positions indices opts s w)
        = Thrown err).
Proof.
  intros s w.
  unfold Throwing.navcat_generation_fn, bind, Throwing.call_navcat_generate, ret.
  destruct (navcat_generate_throws positions indices opts w) as [[err w']|].
  - right. exists err. split; reflexivity.
  - destruct (navcat_generateSoloNavMesh positions indices opts w) as [[nav im] w'].
    left. exists (nav, im). split; reflexivity.
Qed.

Lemma benchmarkGeneration_throwing_unfold positions indices options w :
  Throwing.benchmarkGeneration positions indices options w
  = let '(recast, w1, tr1) :=
      Throwing.benchmark "recast generation"%string
        (Throwing.recast_generation_fn positions indices (recastOptions options))
        default_warmupRuns default_runs None w in
    match recast with
    | Thrown err =>
        (Thrown err, w1,
         Status "Benchmarking Recast generation..."%string :: tr1)
    | Returned (recastGenTime, None) =>
        (Thrown (new_Error "Recast navmesh generation failed"%string), w1,
         Status "Benchmarking Recast generation..."%string
           :: tr1 ++ [ConsoleLogResult "Recast generation:"%string recastGenTime])
    | Returned (recastGenTime, Some nav) =>
        let '(navcat, w2, tr2) :=
          Throwing.benchmark "navcat generation"%string
            (Throwing.navcat_generation_fn positions indices (navcatOptions options))
            default_warmupRuns default_runs (None, None) w1 in
        let before :=
          Status "Benchmarking Recast generation..."%string
            :: tr1 ++ ConsoleLogResult "Recast generation:"%string recastGenTime
            :: Status "Benchmarking Navcat generation..."%string
            :: tr2 in
        match navcat with
        | Thrown err => (Thrown err, w2, before)
        | Returned (navcatGenTime, (navcatNav, navcatIntermediates)) =>
            (Returned {| navcatNav := navcatNav;
                         navcatIntermediates := navcatIntermediates;
                         navcatGenTime := navcatGenTime;
                         recastNav := nav;
                         recastGenTime := recastGenTime |}, w2,
             before ++ [ConsoleLogResult "Navcat generation:"%string navcatGenTime])
        end
    end.
Proof.
  unfold Throwing.benchmarkGeneration, bind.
  cbn [set_status console_log_result emit].
  destruct (Throwing.benchmark "recast generation"%string _ _ _ None w)
    as [[[[t2 [nav|]]|err] w1] tr1]; cbn [ret app].
  - destruct (Throwing.benchmark "navcat generation"%string _ _ _ (None, None) w1)
      as [[[[t1 [nn ni]]|err] w2] tr2]; cbn [app ret];
      rewrite ?app_nil_r, <- ?app_assoc; reflexivity.
  - rewrite ?app_nil_r. reflexivity.
  - rewrite ?app_nil_r. reflexivity.
Qed.

Lemma calls_of_cons (e : event backend_call) t :
  calls_of (e :: t) = calls_of_event e ++ calls_of t.
Proof. reflexivity. Qed.

Lemma benchmarkGeneration_throwing_run positions indices options w :
  let r := Throwing.benchmarkGeneration positions indices options w in
  generation_run positions indices options (result_of r) (calls_of (trace_of r)).
Proof.
  cbv zeta. rewrite benchmarkGeneration_throwing_unfold.
  pose proof (benchmark_throwing_calls
                (RecastGenerate positions indices (recastOptions options))
                (fun x => x)
                (RecastGenerateThrew positions indices (recastOptions options)) _
                (recast_generation_fn_throwing_single positions indices
                   (recastOptions options))
                "recast generation"%string default_warmupRuns default_runs None w)
    as H1.
  cbv zeta in H1. destruct H1 as (navs & Hc1 & Hr1).
  destruct (Throwing.benchmark "recast generation"%string _ _ _ None w)
    as [[[[t2 nav]|err] w1] tr1];
    cbn [trace_of result_of fst snd] in Hc1, Hr1; unfold calls_until in Hc1.
  - destruct Hr1 as [Hl1 Hn]. rewrite map_id in Hn. rewrite app_nil_r in Hc1.
    subst nav. destruct (last navs None) as [nav|] eqn:Hlast.
    + pose proof (benchmark_throwing_calls
                    (fun x => NavcatGenerate positions indices
                                (navcatOptions options) (fst x))
                    (fun x : NavcatNavMesh * NavcatIntermediates =>
                       (Some (fst x), Some (snd x)))
                    (NavcatGenerateThrew positions indices (navcatOptions options)) _
                    (navcat_generation_fn_throwing_single positions indices
                       (navcatOptions options))
                    "navcat generation"%string default_warmupRuns default_runs
                    (None, None) w1) as H2.
      cbv zeta in H2. destruct H2 as (xs & Hc2 & Hr2).
      destruct (Throwing.benchmark "navcat generation"%string _ _ _ (None, None) w1)
        as [[[[t1 [nn ni]]|err] w2] tr2];
        cbn [trace_of result_of fst snd] in Hc2, Hr2 |- *; unfold calls_until in Hc2.
      * destruct Hr2 as [Hl2 Hv]. rewrite final_of_vars in Hv.
        injection Hv as -> ->. rewrite app_nil_r in Hc2.
        cbv zeta. repeat (rewrite calls_of_cons || rewrite calls_of_app).
        rewrite Hc1, Hc2. cbn [calls_of flat_map calls_of_event app].
        rewrite app_nil_r.
        eapply both_built; eauto.
      * cbv zeta. repeat (rewrite calls_of_cons || rewrite calls_of_app).
        rewrite Hc1, Hc2. cbn [calls_of flat_map calls_of_event app].
        eapply navcat_threw; eauto.
    + cbn [trace_of result_of fst snd].
      repeat (rewrite calls_of_cons || rewrite calls_of_app).
      rewrite Hc1. cbn [calls_of flat_map calls_of_event app].
      rewrite app_nil_r. apply recast_failed; assumption.
  - cbn [trace_of result_of fst snd].
    repeat (rewrite calls_of_cons || rewrite calls_of_app).
    rewrite Hc1. cbn [calls_of flat_map calls_of_event app].
    apply recast_threw. exact Hr1.
Qed.

End ThrowingHarnessFacts.

Section FinalFacts.

Lemma final_of_snoc {A} (l : list A) x : final_of (l ++ [x]) = Some x.
Proof. unfold final_of. rewrite map_app, last_app_default. reflexivity. Qed.

Lemma final_of_last {A} (l : list A) d : l <> [] -> final_of l = Some (last l d).
Proof.
  destruct l as [|x l] using rev_ind; [congruence|]. intros _.
  rewrite final_of_snoc, last_app_default. reflexivity.
Qed.

Lemma final_of_map {A C} (f : A -> C) l :
  final_of (map f l) = option_map f (final_of l).
Proof.
  destruct l as [|x l] using rev_ind; [reflexivity|].
  rewrite map_app. cbn [map]. rewrite !final_of_snoc. reflexivity.
Qed.

Lemma length_13_nonempty {A} (l : list A) : List.length l = 13 -> l <> [].
Proof. destruct l; [discriminate|congruence]. Qed.

End FinalFacts.

Section ThrowingRunFacts.

Context {host : Host} {B : Backends} {X : BuildExceptions}.

Lemma recast_outcomes_returned positions indices cfg navs :
  flat_map (fun c => match c with
                     | RecastGenerate _ _ _ nav => [Returned nav]
                     | RecastGenerateThrew _ _ _ err => [Thrown err]
                     | _ => []
                     end)
           (map (RecastGenerate positions indices cfg) navs)
  = map Returned navs.
Proof. induction navs; cbn; congruence. Qed.

Lemma navcat_outcomes_returned positions indices opts
      (xs : list (NavcatNavMesh * NavcatIntermediates)) :
  flat_map (fun c => match c with
                     | NavcatGenerate _ _ _ nav => [Returned nav]
                     | NavcatGenerateThrew _ _ _ err => [Thrown err]
                     | _ => []
                     end)
           (map (fun x => NavcatGenerate positions indices opts (fst x)) xs)
  = map (fun x => Returned (fst x)) xs.
Proof. induction xs; cbn; congruence. Qed.

Lemma init_or_build_builds (l : list backend_call) :
  Forall (fun c => is_build c = true) l ->
  Forall (fun c => c = RecastInit \/ is_build c = true) l.
Proof. apply Forall_impl. auto. Qed.

(** [Throwing.run] is: the set-up, the generation benchmark on the
    extracted buffer, and then either the report of what was thrown or
    the remaining stages. *)
Lemma run_throwing_trace {T : THREE.Transform} (glbScene : THREE.Object3D) w :
  exists (t_init : list (event backend_call)) (w1 : World) (t0 : float),
    calls_of t_init = [RecastInit] /\
    let buffer := gatherTrianglesFromScene glbScene in
    let gen := Throwing.benchmarkGeneration (positions buffer) (indices buffer)
                 createGenerationOptions w1 in
    trace_of (Throwing.run glbScene w)
    = t_init ++ trace_of gen
        ++ match result_of gen with
           | Thrown err => [ConsoleError err; ErrorOverlay (overlay_text err)]
           | Returned g => trace_of (after_generation t0 g (world_of gen))
           end.
Proof.
  unfold Throwing.run. cbv zeta.
  rewrite trace_bind. cbn [set_status emit trace_of result_of world_of fst snd].
  rewrite trace_bind.
  destruct (setupScene_run glbScene w) as (Hb & Hw & Hc).
  rewrite Hb, Hw.
  rewrite trace_bind. cbn [set_status emit trace_of result_of world_of fst snd].
  rewrite trace_bind.
  set (i := initializeRecast w).
  exists (Status "Initializing..."%string
            :: trace_of (setupScene glbScene w)
            ++ Status "Initializing Recast..."%string :: trace_of i),
    (world_of i), (result_of i).
  split.
  - change (calls_of ([Status "Initializing..."%string]
                        ++ trace_of (setupScene glbScene w)
                        ++ [Status "Initializing Recast..."%string] ++ trace_of i)
            = [RecastInit]).
    rewrite !calls_of_app, Hc. unfold i. rewrite initializeRecast_calls. reflexivity.
  - cbv zeta. rewrite trace_bind.
    set (gen := Throwing.benchmarkGeneration _ _ _ (world_of i)).
    cbn [app]. rewrite <- !app_assoc. cbn [app]. do 4 f_equal.
    destruct (result_of gen) as [g|err]; [reflexivity|].
    unfold bind, console_error, emit. reflexivity.
Qed.

End ThrowingRunFacts.


Section AgreementFacts.

Context {host : Host} {B : Backends} {X : BuildExceptions}.
Hypothesis no_exception : never_throws.

Lemma recast_generation_fn_agrees positions indices cfg s w :
  Throwing.recast_generation_fn positions indices cfg s w
  = returning (recast_generation_fn positions indices cfg s) w.
Proof.
  unfold Throwing.recast_generation_fn, recast_generation_fn, returning, bind,
    Throwing.call_recast_generate, call_recast_generate, ret.
  rewrite (proj1 no_exception).
  destruct (recast_generateSoloNavMesh positions indices cfg w) as [nav w'].
  reflexivity.
Qed.

Lemma navcat_generation_fn_agrees positions indices opts s w :
  Throwing.navcat_generation_fn positions indices opts s w
  = returning (navcat_generation_fn positions indices opts s) w.
Proof.
  unfold Throwing.navcat_generation_fn, navcat_generation_fn, returning, bind,
    Throwing.call_navcat_generate, call_navcat_generate, ret.
  rewrite (proj2 no_exception).
  destruct (navcat_generateSoloNavMesh positions indices opts w) as [[nav im] w'].
  reflexivity.
Qed.

(** When no build call throws, the harness with exceptions does what the
    harness without them does. *)
Lemma benchmarkGeneration_agrees positions indices options w :
  Throwing.benchmarkGeneration positions indices options w
  = benchmarkGeneration positions indices options w.
Proof.
  rewrite benchmarkGeneration_throwing_unfold, benchmarkGeneration_unfold.
  rewrite (benchmark_agrees _ _ (recast_generation_fn_agrees positions indices
                                   (recastOptions options))).
  unfold returning at 1.
  destruct (benchmark "recast generation"%string _ _ _ None w)
    as [[[t2 [nav|]] w1] tr1]; [|reflexivity].
  rewrite (benchmark_agrees _ _ (navcat_generation_fn_agrees positions indices
                                   (navcatOptions options))).
  unfold returning at 1.
  destruct (benchmark "navcat generation"%string _ _ _ (None, None) w1)
    as [[[t1 [nn ni]] w2] tr2].
  cbv zeta. cbn [app]. rewrite <- ?app_assoc. reflexivity.
Qed.

Lemma run_agrees {T : THREE.Transform} (glbScene : THREE.Object3D) w :
  Throwing.run glbScene w = run glbScene w.
Proof.
  unfold Throwing.run, run.
  apply bind_ext; [reflexivity|]. intros _ w0.
  apply bind_ext; [reflexivity|]. intros sceneSetup w1.
  apply bind_ext; [reflexivity|]. intros _ w2.
  apply bind_ext; [reflexivity|]. intros recastInitTime w3.
  cbv zeta.
  apply bind_ext; [apply benchmarkGeneration_agrees|reflexivity].
Qed.

End AgreementFacts.

(** Selecting the build outcomes and the path queries from the calls of
    a generation: builds select no query, and each kind of build selects
    its own outcomes only. *)
Ltac select_builds Hcalls RG NG navs xs :=
  rewrite <- ?Hcalls; rewrite ?flat_map_app, ?filter_app;
  cbn [flat_map filter is_path_query app];
  rewrite ?recast_outcomes_returned, ?navcat_outcomes_returned;
  rewrite ?(flat_map_nil _ (map NG xs)) by none_selected;
  rewrite ?(flat_map_nil _ (map RG navs)) by none_selected;
  rewrite ?(filter_nil _ (map RG navs)) by none_selected;
  rewrite ?(filter_nil _ (map NG xs)) by none_selected;
  cbn [flat_map filter is_path_query app].

Section HarnessClaims.

Context {host : Host} {B : Backends}.

(** C5, amended.  [verifyPaths] queries each backend exactly once, with
    the same start and end points; the search half-extents are passed
    to navcat only, the Recast query is called without them. *)
Theorem verifyPaths_queries (g : GenerationResults) (w : World) :
  let queries := path_queries (trace_of (verifyPaths g w)) in
  queries
  = [NavcatFindPath (navcatNav g) (to_array startPos) (to_array endPos)
                    (to_array halfExtents) DEFAULT_QUERY_FILTER;
     RecastComputePath (recastNav g) startPos endPos None] /\
  map query_start queries = [Some startPos; Some startPos] /\
  map query_end queries = [Some endPos; Some endPos] /\
  map query_halfExtents queries = [Some halfExtents; None].
Proof.
  cbv zeta. unfold path_queries. rewrite verifyPaths_calls.
  repeat split; reflexivity.
Qed.



(** C6.  For each of the two backends: when its build yields no usable
    navmesh handle, the run is aborted and the failure reported.  A
    Recast build yields none by throwing or, after its final iteration,
    by handing back [undefined], for which [benchmarkGeneration] throws
    [new Error("Recast navmesh generation failed")]; a navcat build,
    whose result is typed as always holding a handle, yields none by
    throwing.  In each case no build is made again (at most thirteen
    per backend, the failing one being the last), no other call into
    the backends follows (no navcat build after a Recast failure, no
    display helper, no path query), and the run ends with the handler
    of [run().catch] logging the thrown value and putting
    [String(err.stack || err)] on the page.  When neither fails,
    thirteen builds of each are made and the run goes on to the path
    comparison with the handles of the last builds. *)
Theorem generation_failure_handling {X : BuildExceptions} {T : THREE.Transform}
        (glbScene : THREE.Object3D) (w : World) :
  let t := trace_of (Throwing.run glbScene w) in
  let failed :=
    {| error_string := "Error: Recast navmesh generation failed";
       error_stack := Error_stack "Recast navmesh generation failed" |} in
  let reported err :=
    exists before,
      t = before
            ++ [ConsoleError err;
                ErrorOverlay match error_stack err with
                             | Some (String c stack) => String c stack
                             | _ => error_string err
                             end] in
  let aborted :=
    path_queries t = [] /\
    Forall (fun c => c = RecastInit \/ is_build c = true) (calls_of t) in
  List.length (recast_build_outcomes t) <= 13 /\
  List.length (navcat_build_outcomes t) <= 13 /\
  match final_of (recast_build_outcomes t) with
  | None => False
  | Some (Thrown err) =>
      navcat_build_outcomes t = [] /\ aborted /\ reported err
  | Some (Returned None) =>
      List.length (recast_build_outcomes t) = 13 /\
      navcat_build_outcomes t = [] /\ aborted /\ reported failed
  | Some (Returned (Some recastNav)) =>
      List.length (recast_build_outcomes t) = 13 /\
      match final_of (navcat_build_outcomes t) with
      | None => False
      | Some (Thrown err) => aborted /\ reported err
      | Some (Returned navcatNav) =>
          List.length (navcat_build_outcomes t) = 13 /\
          firstn 2 (path_queries t)
          = [NavcatFindPath (Some navcatNav) (to_array startPos)
                            (to_array endPos) (to_array halfExtents)
                            DEFAULT_QUERY_FILTER;
             RecastComputePath recastNav startPos endPos None]
      end
  end.
Proof.
  cbv zeta.
  destruct (run_throwing_trace glbScene w) as (t_init & w1 & t0 & Hinit & Ht).
  cbv zeta in Ht. rewrite Ht. clear Ht.
  set (buffer := gatherTrianglesFromScene glbScene).
  pose proof (benchmarkGeneration_throwing_run (positions buffer) (indices buffer)
                createGenerationOptions w1) as Hrun.
  cbv zeta in Hrun.
  clearbody buffer.
  set (gen := Throwing.benchmarkGeneration _ _ _ w1) in *.
  set (RG := RecastGenerate (positions buffer) (indices buffer)
               (recastOptions createGenerationOptions)) in *.
  set (NG := fun x : NavcatNavMesh * NavcatIntermediates =>
               NavcatGenerate (positions buffer) (indices buffer)
                 (navcatOptions createGenerationOptions) (fst x)) in *.
  unfold recast_build_outcomes, navcat_build_outcomes, path_queries.
  rewrite !calls_of_app, Hinit.
  set (tail := match result_of gen with
               | Returned g => trace_of (after_generation t0 g (world_of gen))
               | Thrown err => [ConsoleError err; ErrorOverlay (overlay_text err)]
               end).
  assert (Htail : forall err, result_of gen = Thrown err ->
            tail = [ConsoleError err; ErrorOverlay (overlay_text err)])
    by (intros err E; unfold tail; rewrite E; reflexivity).
  assert (Hrep : forall err, result_of gen = Thrown err ->
            exists before,
              t_init ++ trace_of gen ++ tail
              = before ++ [ConsoleError err; ErrorOverlay (overlay_text err)]).
  { intros err E. exists (t_init ++ trace_of gen).
    rewrite (Htail err E), <- app_assoc. reflexivity. }
  assert (Hno : forall err, result_of gen = Thrown err -> calls_of tail = [])
    by (intros err E; rewrite (Htail err E); reflexivity).
  inversion Hrun as [navs err Hl Hres Hcalls
                    |navs Hl Hlast Hres Hcalls
                    |navs nav xs err Hl Hlast Hlx Hres Hcalls
                    |navs nav xs g Hl Hlast Hlx Hrn Hnn Hres Hcalls];
    symmetry in Hres.
  - (* a Recast build threw *)
    rewrite (Hno _ Hres), app_nil_r. select_builds Hcalls RG NG navs (@nil (NavcatNavMesh * NavcatIntermediates)).
    rewrite length_app, length_map, final_of_snoc. cbn [List.length].
    split; [lia|]. split; [lia|]. split; [reflexivity|].
    split; [|exact (Hrep _ Hres)].
    split; [reflexivity|]. constructor; [now left|].
    apply init_or_build_builds, Forall_app. split.
    + apply Forall_map, Forall_forall. reflexivity.
    + repeat constructor.
  - (* the last Recast build handed back no navmesh *)
    rewrite (Hno _ Hres), app_nil_r. select_builds Hcalls RG NG navs (@nil (NavcatNavMesh * NavcatIntermediates)).
    rewrite ?app_nil_r, length_map, final_of_map,
      (final_of_last navs None (length_13_nonempty _ Hl)), Hlast.
    cbn [option_map List.length].
    split; [lia|]. split; [lia|]. split; [exact Hl|]. split; [reflexivity|].
    split; [|exact (Hrep _ Hres)].
    split; [reflexivity|]. constructor; [now left|].
    apply init_or_build_builds, Forall_map, Forall_forall. reflexivity.
  - (* a navcat build threw *)
    rewrite (Hno _ Hres), app_nil_r. select_builds Hcalls RG NG navs xs.
    rewrite ?app_nil_r, length_map, final_of_map,
      (final_of_last navs None (length_13_nonempty _ Hl)), Hlast.
    cbn [option_map]. rewrite length_app, length_map, final_of_snoc.
    cbn [List.length].
    split; [lia|]. split; [lia|]. split; [exact Hl|].
    split; [|exact (Hrep _ Hres)].
    split; [reflexivity|]. constructor; [now left|].
    apply init_or_build_builds, Forall_app. split.
    + apply Forall_map, Forall_forall. reflexivity.
    + apply Forall_app. split; [|repeat constructor].
      apply Forall_map, Forall_forall. reflexivity.
  - (* both backends built *)
    unfold tail. rewrite Hres.
    destruct (after_generation_calls_exact t0 g (world_of gen))
      as (n1 & n2 & Hafter & _ & _).
    rewrite Hafter. clear Hafter.
    select_builds Hcalls RG NG navs xs.
    rewrite !(flat_map_nil _ (repeat _ n1))
      by (apply Forall_forall; intros c Hc; apply repeat_spec in Hc;
          subst c; reflexivity).
    rewrite !(flat_map_nil _ (repeat _ n2))
      by (apply Forall_forall; intros c Hc; apply repeat_spec in Hc;
          subst c; reflexivity).
    cbn [flat_map filter is_path_query app firstn].
    rewrite ?app_nil_r, !length_map, final_of_map,
      (final_of_last navs None (length_13_nonempty _ Hl)), Hlast.
    cbn [option_map].
    rewrite <- (map_map fst (fun n => Returned n)), final_of_map.
    rewrite Hrn, Hnn.
    destruct (final_of (map fst xs)) as [nn|] eqn:Hfin.
    + cbn [option_map].
      split; [lia|]. split; [lia|]. split; [exact Hl|]. split; [exact Hlx|].
      reflexivity.
    + exfalso. destruct xs as [|x xs]; [discriminate Hlx|].
      rewrite (final_of_last (map fst (x :: xs)) (fst x)) in Hfin
        by discriminate.
      discriminate.
Qed.

(** C7.  With [minRegionArea = 8] in the canonical options, every
    Recast build receives [8] unchanged and every navcat build receives
    [64 = 8 * 8]: the squaring is applied to navcat only. *)
Theorem adapter_minRegionArea (positions : list float) (indices : list N)
        (options : GenerationOptions) (w : World) :
  minRegionArea options = 8%float ->
  let r := benchmarkGeneration positions indices options w in
  Recast.minRegionArea (recastOptions options) = 8%float /\
  Navcat.minRegionArea (navcatOptions options) = 64%float /\
  recast_configs (trace_of r) = repeat (recastOptions options) 13 /\
  navcat_options (trace_of r)
  = match result_of r with
    | Returned _ => repeat (navcatOptions options) 13
    | Thrown _ => []
    end /\
  Forall (fun c => Recast.minRegionArea c = 8%float) (recast_configs (trace_of r)) /\
  Forall (fun o => Navcat.minRegionArea o = 64%float) (navcat_options (trace_of r)).
Proof.
  intros H8. cbv zeta.
  assert (Hr : Recast.minRegionArea (recastOptions options) = 8%float) by exact H8.
  assert (Hn : Navcat.minRegionArea (navcatOptions options) = 64%float)
    by (cbn [navcatOptions Navcat.minRegionArea]; rewrite H8; reflexivity).
  destruct (benchmarkGeneration_run positions indices options w)
    as (navs & Hlen & Hrun).
  cbv zeta in Hrun. unfold recast_configs, navcat_options.
  destruct (last navs None) as [nav|].
  - destruct Hrun as (xs & t1 & t2 & Hlx & Hcalls & Hres).
    rewrite Hres, Hcalls, !flat_map_app.
    rewrite recast_calls_configs, navcat_calls_options, Hlen, Hlx.
    rewrite (flat_map_nil _ (map _ xs)), app_nil_r
      by none_selected.
    rewrite (flat_map_nil _ (map _ navs))
      by none_selected.
    cbn [app]. repeat split; auto.
    + apply Forall_forall. intros c Hc. apply repeat_spec in Hc. now subst c.
    + apply Forall_forall. intros c Hc. apply repeat_spec in Hc. now subst c.
  - destruct Hrun as [Hres Hcalls].
    rewrite Hres, Hcalls, recast_calls_configs, Hlen.
    rewrite (flat_map_nil _ (map _ navs))
      by none_selected.
    repeat split; auto.
    apply Forall_forall. intros c Hc. apply repeat_spec in Hc. now subst c.
Qed.

End HarnessClaims.

(** C5 as stated fails: of the two query invocations only navcat's
    receives search half-extents. *)
Lemma verifyPaths_halfExtents_not_shared :
  let queries :=
    path_queries (trace_of (verifyPaths (Examples.sample_generation true true)
                                        ([] : World (Host := Examples.scripted_host)))) in
  ~ (exists q1 q2 h,
        queries = [q1; q2] /\
        query_halfExtents q1 = Some h /\ query_halfExtents q2 = Some h).
Proof.
  cbv zeta. intros (q1 & q2 & h & Hq & H1 & H2).
  vm_compute in Hq. injection Hq as <- <-. discriminate H2.
Qed.



(** A run whose Recast builds hand back no navmesh, and a run whose
    first navcat build throws. *)
Lemma generation_failure_handling_witness :
  let t1 := trace_of (Throwing.run (X := MoreExamples.stub_exceptions false false false)
                        Examples.two_triangles
                        ([] : World (Host := Examples.scripted_host))) in
  let t2 := trace_of (Throwing.run (X := MoreExamples.stub_exceptions true false true)
                        Examples.two_triangles
                        ([] : World (Host := Examples.scripted_host))) in
  (final_of (recast_build_outcomes t1) = Some (Returned None) /\
   List.length (recast_build_outcomes t1) = 13 /\
   navcat_build_outcomes t1 = [] /\
   path_queries t1 = []) /\
  (final_of (navcat_build_outcomes t2) = Some (Thrown MoreExamples.out_of_memory) /\
   List.length (navcat_build_outcomes t2) = 1 /\
   path_queries t2 = []).
Proof.
  cbv zeta. split.
  - pose proof (generation_failure_handling
                  (X := MoreExamples.stub_exceptions false false false)
                  Examples.two_triangles
                  ([] : World (Host := Examples.scripted_host))) as H.
    cbv zeta in H.
    assert (Hlast : final_of (recast_build_outcomes
                      (trace_of (Throwing.run
                                   (X := MoreExamples.stub_exceptions false false false)
                                   Examples.two_triangles
                                   ([] : World (Host := Examples.scripted_host)))))
                    = Some (Returned None)) by (vm_compute; reflexivity).
    rewrite Hlast in H. destruct H as (_ & _ & H13 & Hn & (Hq & _) & _).
    repeat split; assumption.
  - pose proof (generation_failure_handling
                  (X := MoreExamples.stub_exceptions true false true)
                  Examples.two_triangles
                  ([] : World (Host := Examples.scripted_host))) as H.
    cbv zeta in H.
    assert (Hr : final_of (recast_build_outcomes
                   (trace_of (Throwing.run
                                (X := MoreExamples.stub_exceptions true false true)
                                Examples.two_triangles
                                ([] : World (Host := Examples.scripted_host)))))
                 = Some (Returned (Some 1))) by (vm_compute; reflexivity).
    assert (Hn : final_of (navcat_build_outcomes
                   (trace_of (Throwing.run
                                (X := MoreExamples.stub_exceptions true false true)
                                Examples.two_triangles
                                ([] : World (Host := Examples.scripted_host)))))
                 = Some (Thrown MoreExamples.out_of_memory))
      by (vm_compute; reflexivity).
    rewrite Hr, Hn in H. destruct H as (_ & _ & _ & (Hq & _) & _).
    split; [reflexivity|]. split; [vm_compute; reflexivity|exact Hq].
Defined.

Lemma adapter_minRegionArea_witness :
  minRegionArea createGenerationOptions = 8%float /\
  let r := benchmarkGeneration (B := Examples.stub_backends true true)
             [] [] createGenerationOptions
             ([] : World (Host := Examples.scripted_host)) in
  Forall (fun c => Recast.minRegionArea c = 8%float) (recast_configs (trace_of r)) /\
  Forall (fun o => Navcat.minRegionArea o = 64%float) (navcat_options (trace_of r)) /\
  List.length (recast_configs (trace_of r)) = 13 /\
  List.length (navcat_options (trace_of r)) = 13.
Proof.
  split; [reflexivity|]. cbv zeta.
  destruct (adapter_minRegionArea (B := Examples.stub_backends true true)
              [] [] createGenerationOptions
              ([] : World (Host := Examples.scripted_host)) eq_refl)
    as (_ & _ & Hc & Ho & Hfr & Hfn).
  split; [exact Hfr|]. split; [exact Hfn|].
  rewrite Hc, Ho. split; reflexivity.
Defined.

(* ---------------------------------------------------------------------- *)
(** ** Measured times                                                      *)
(* ---------------------------------------------------------------------- *)

Module FloatDifference.

Import Number NumberFacts FloatOrder.
Local Open Scope Z_scope.

Lemma finite_not_nan a : finite a -> not_nan a.
Proof.
  unfold finite, not_nan. rewrite is_finite_spec, is_nan_spec.
  destruct (Prim2SF a); cbn; congruence.
Qed.

(** A difference [b - a] with [a <= b] is not negative. *)
Lemma sub_nonneg a b : finite a -> finite b -> le a b -> le 0 (b - a).
Proof.
  intros Fa Fb Hab.
  pose proof (finite_not_nan _ Fa) as Na. pose proof (finite_not_nan _ Fb) as Nb.
  pose proof (sub_finite b a Fb Fa) as Nd.
  unfold le in *. rewrite leb_rank in Hab by assumption.
  rewrite leb_rank by (assumption || reflexivity).
  change (rank 0) with 0.
  unfold not_nan in Na, Nb. rewrite is_nan_spec in Na, Nb.
  pose proof (SFsub_sgn _ _ (Prim2SF_valid b) (Prim2SF_valid a) Nb Na) as Hs.
  fold (rank a) (rank b) in Hs.
  apply Z.leb_le in Hab. apply Z.leb_le.
  unfold rank at 1. rewrite FloatAxioms.sub_spec. revert Hs.
  destruct (SF64sub (Prim2SF b) (Prim2SF a)) as [s|[]| |[] m e];
    cbn [SFsgn SFrank cond_Zopp]; intros Hs; try lia.
  - symmetry in Hs. change (rank b < rank a) in Hs. lia.
  - pose proof inf_rank_pos. lia.
  - symmetry in Hs. change (rank b < rank a) in Hs. lia.
Qed.

End FloatDifference.

Section BenchmarkExtras.

Context {host : Host} {call : Type}.
Import Number FloatOrder FloatDifference.

(** Each of [min], [median] and [max] of a non-empty series is one of
    its elements. *)
Lemma calculate_stats_measured label warmup n ts :
  ts <> [] ->
  exists lo mid hi,
    min (calculate_stats (host:=host) label warmup n ts) = Number lo /\
    median (calculate_stats (host:=host) label warmup n ts) = Number mid /\
    max (calculate_stats (host:=host) label warmup n ts) = Number hi /\
    In lo ts /\ In mid ts /\ In hi ts.
Proof.
  intros Hne.
  assert (Hlen : 1 <= List.length ts) by (destruct ts; [congruence|cbn; lia]).
  rewrite calculate_stats_median, calculate_stats_max.
  change (min (calculate_stats label warmup n ts))
    with (array_get (array_sort (fun a b => a - b)%float ts) 0).
  set (sorted := array_sort (fun a b => a - b)%float ts).
  assert (Hsl : List.length sorted = List.length ts) by apply array_sort_length.
  assert (Hperm : Permutation sorted ts) by apply array_sort_perm.
  assert (Hdiv : List.length ts / 2 < List.length ts) by (apply Nat.div_lt; lia).
  destruct (array_get_in_range sorted 0) as (lo & Glo & Nlo);
    [unfold array_length; lia|].
  destruct (array_get_in_range sorted (Z.of_nat (List.length ts / 2)))
    as (mid & Gmid & Nmid); [unfold array_length; lia|].
  destruct (array_get_in_range sorted (Z.of_nat (List.length ts) - 1))
    as (hi & Ghi & Nhi); [unfold array_length; lia|].
  exists lo, mid, hi. repeat (split; [assumption|]).
  repeat split; eapply Permutation_in; try exact Hperm;
    eapply nth_error_In; eassumption.
Qed.

Lemma durations_nonneg (readings : list float) :
  Forall finite readings -> Sorted le readings ->
  Forall (fun t => le 0 t) (durations readings).
Proof.
  revert readings. fix IH 1. intros [|a [|b rest]] Hf Hs; cbn [durations];
    try constructor.
  - inversion Hf as [|? ? Fa Hf']; subst. inversion Hf' as [|? ? Fb Hf'']; subst.
    inversion Hs as [|? ? Hs' Hhd]; subst. inversion Hhd as [|? ? Hab]; subst.
    now apply sub_nonneg.
  - apply IH.
    + inversion Hf as [|? ? _ Hf']; subst. now inversion Hf'.
    + inversion Hs as [|? ? Hs' _]; subst. now inversion Hs'.
Qed.

(** X4.  When the clock returns finite values that never decrease (as
    [performance.now()] is specified to), no measured time is negative:
    every element of [times] is [>= 0], and so are [min], [median] and
    [max] whenever they are numbers. *)
Theorem benchmark_times_nonnegative {S} (label : string)
        (fn : S -> M (call:=call) S) (warmup n : nat) (s : S) (w : World) :
  let r := benchmark label fn warmup n s w in
  let res := fst (result_of r) in
  Forall Number.finite (clock_readings (trace_of r)) ->
  Sorted Number.le (clock_readings (trace_of r)) ->
  Forall (fun t => Number.le 0 t) (times res) /\
  forall x,
    min res = Number x \/ median res = Number x \/ max res = Number x ->
    Number.le 0 x.
Proof.
  cbv zeta. intros Hfin Hmono.
  destruct (benchmark_result label fn warmup n s w) as (Hres & Hlen & _).
  cbv zeta in *. rewrite Hres.
  set (series := durations (clock_readings (trace_of (benchmark label fn warmup n s w)))) in *.
  change (times (calculate_stats label warmup n series)) with series.
  assert (Hpos : Forall (fun t => le 0 t) series)
    by (apply durations_nonneg; assumption).
  split; [exact Hpos|].
  intros x Hx.
  destruct series as [|t0 series'] eqn:Es.
  - destruct Hx as [Hx|[Hx|Hx]]; discriminate Hx.
  - destruct (calculate_stats_measured label warmup n (t0 :: series'))
      as (lo & mid & hi & Elo & Emid & Ehi & Ilo & Imid & Ihi); [discriminate|].
    rewrite Forall_forall in Hpos.
    destruct Hx as [Hx|[Hx|Hx]];
      [rewrite Elo in Hx|rewrite Emid in Hx|rewrite Ehi in Hx];
      injection Hx as <-; auto.
Qed.

(** X5.  With at least one timed run, [min], [median] and [max] are
    numbers, each of them one of the measured [times]; no assumption on
    the clock is needed (the values may be [NaN] or infinite). *)
Theorem benchmark_statistics_measured {S} (label : string)
        (fn : S -> M (call:=call) S) (warmup n : nat) (s : S) (w : World) :
  let res := fst (result_of (benchmark label fn warmup n s w)) in
  1 <= n ->
  exists lo mid hi,
    min res = Number lo /\ median res = Number mid /\ max res = Number hi /\
    In lo (times res) /\ In mid (times res) /\ In hi (times res).
Proof.
  cbv zeta. intros Hn.
  destruct (benchmark_result label fn warmup n s w) as (Hres & Hlen & _).
  cbv zeta in *. rewrite Hres.
  set (series := durations (clock_readings (trace_of (benchmark label fn warmup n s w)))) in *.
  change (times (calculate_stats label warmup n series)) with series.
  apply calculate_stats_measured.
  intros E. rewrite E in Hlen. cbn in Hlen. lia.
Qed.

End BenchmarkExtras.

(** Three timed runs on a monotone clock. *)
Lemma benchmark_times_nonnegative_witness :
  let r := benchmark (host := Examples.scripted_host) "sample" Examples.noop 1 3 tt
             [10; 13; 13; 13; 20; 24.5]%float in
  let res := fst (result_of r) in
  Forall Number.finite (clock_readings (trace_of r)) /\
  Sorted Number.le (clock_readings (trace_of r)) /\
  times res = [3; 0; 4.5]%float /\
  Forall (fun t => Number.le 0 t) (times res).
Proof.
  cbv zeta.
  assert (Hfin : Forall Number.finite
                   (clock_readings
                      (trace_of (benchmark (host := Examples.scripted_host) "sample"
                                   Examples.noop 1 3 tt
                                   [10; 13; 13; 13; 20; 24.5]%float))))
    by (vm_compute; repeat constructor).
  assert (Hmono : Sorted Number.le
                   (clock_readings
                      (trace_of (benchmark (host := Examples.scripted_host) "sample"
                                   Examples.noop 1 3 tt
                                   [10; 13; 13; 13; 20; 24.5]%float))))
    by (vm_compute; repeat constructor).
  split; [exact Hfin|]. split; [exact Hmono|]. split; [reflexivity|].
  exact (proj1 (benchmark_times_nonnegative (host := Examples.scripted_host) "sample"
                  Examples.noop 1 3 tt [10; 13; 13; 13; 20; 24.5]%float Hfin Hmono)).
Defined.

(** A clock that returns [NaN]: the statistics are still measured values. *)
Lemma benchmark_statistics_measured_witness :
  let res := fst (result_of
                    (benchmark (host := Examples.scripted_host) "sample"
                       Examples.noop 0 2 tt [1; nan; 5; 7]%float)) in
  1 <= 2 /\
  exists lo mid hi,
    min res = Number lo /\ median res = Number mid /\ max res = Number hi /\
    In lo (times res) /\ In mid (times res) /\ In hi (times res).
Proof.
  cbv zeta.
  assert (Hn : 1 <= 2) by lia.
  split; [exact Hn|].
  exact (benchmark_statistics_measured (host := Examples.scripted_host) "sample"
           Examples.noop 0 2 tt [1; nan; 5; 7]%float Hn).
Defined.

(* ---------------------------------------------------------------------- *)
(** ** The extracted buffers                                               *)
(* ---------------------------------------------------------------------- *)

Section GatherExtras.

Context {T : THREE.Transform}.

Lemma total_vertices_cons m ms :
  total_vertices (m :: ms)
  = List.length (THREE.position (THREE.geometry m)) + total_vertices ms.
Proof. reflexivity. Qed.

Lemma gather_meshes_state ms : forall st,
  let st' := fold_left (fun acc m => gather_mesh m acc) ms st in
  g_positions st' = g_positions st ++ flat_map world_coordinates ms /\
  vertexOffset st' = (vertexOffset st + N.of_nat (total_vertices ms))%N.
Proof.
  induction ms as [|m ms IH]; intros st; cbv zeta; cbn [fold_left flat_map].
  - unfold total_vertices. cbn. rewrite app_nil_r, N.add_0_r. auto.
  - destruct (IH (gather_mesh m st)) as [Hp Hv]. cbv zeta in Hp, Hv.
    rewrite Hp, Hv. cbn [gather_mesh g_positions vertexOffset].
    rewrite total_vertices_cons, <- app_assoc. split; [reflexivity|]. lia.
Qed.

Lemma length_world_coordinates m :
  List.length (world_coordinates m)
  = 3 * List.length (THREE.position (THREE.geometry m)).
Proof. apply length_pushed. Qed.

Lemma length_flat_world_coordinates ms :
  List.length (flat_map world_coordinates ms) = 3 * total_vertices ms.
Proof.
  induction ms as [|m ms IH]; [reflexivity|].
  cbn [flat_map]. rewrite length_app, IH, length_world_coordinates.
  rewrite total_vertices_cons. lia.
Qed.

(** X1.  For every scene, [positions] holds the world-space coordinates
    of the vertices of the mesh nodes in traversal order, each rounded to
    single precision: three numbers per vertex, so its length is three
    times the number of vertices of the scene. *)
Theorem gather_positions (scene : THREE.Object3D) :
  let buffer := gatherTrianglesFromScene scene in
  positions buffer
  = map Number.Math_fround (flat_map world_coordinates (meshes_of scene)) /\
  List.length (positions buffer) = 3 * total_vertices (meshes_of scene) /\
  vertex_count buffer = N.of_nat (total_vertices (meshes_of scene)).
Proof.
  cbv zeta. unfold gatherTrianglesFromScene, vertex_count. cbn [positions].
  rewrite traverse_meshes.
  destruct (gather_meshes_state (meshes_of scene)
              {| g_positions := []; g_indices := []; vertexOffset := 0%N |})
    as [Hp _].
  cbv zeta in Hp. rewrite Hp. cbn [g_positions app].
  rewrite length_map, length_flat_world_coordinates.
  repeat split.
  rewrite Nat2N.inj_mul. change (N.of_nat 3) with 3%N.
  rewrite N.mul_comm, N.div_mul; lia.
Qed.

(** X2.  The extractor sees a scene only through its mesh nodes in
    traversal order: nodes without mesh geometry and the grouping of the
    nodes change nothing.  Two scenes with the same meshes in the same
    order give the same buffer, and a scene without mesh gives two empty
    arrays. *)
Theorem gather_depends_on_meshes (scene1 scene2 : THREE.Object3D) :
  meshes_of scene1 = meshes_of scene2 ->
  gatherTrianglesFromScene scene1 = gatherTrianglesFromScene scene2 /\
  (meshes_of scene1 = [] ->
   gatherTrianglesFromScene scene1 = {| positions := []; indices := [] |}).
Proof.
  intros H. unfold gatherTrianglesFromScene.
  rewrite !traverse_meshes. split.
  - rewrite H. reflexivity.
  - intros H0. rewrite H0. reflexivity.
Qed.

Lemma offset_indices_bound ms : forall off,
  Forall well_formed_mesh ms ->
  Forall (fun i => (i < off + N.of_nat (total_vertices ms))%N)
         (offset_indices off ms).
Proof.
  induction ms as [|m ms IH]; intros off Hwf; [constructor|].
  inversion Hwf as [|? ? [_ Hm] Hms]; subst.
  cbn [offset_indices]. rewrite total_vertices_cons, Nat2N.inj_add.
  apply Forall_app. split.
  - apply Forall_map. eapply Forall_impl; [|exact Hm]. cbn. intros; lia.
  - eapply Forall_impl; [|apply (IH _ Hms)]. cbn. intros; lia.
Qed.

(** X3.  When the meshes are well-formed triangle lists and the scene has
    at most [2^32] vertices, storing the indices into the [Uint32Array]
    changes none of them: [indices] is exactly the sequence of the
    meshes' indices, each offset by the number of vertices before its
    mesh. *)
Theorem gather_indices_exact (scene : THREE.Object3D) :
  Forall well_formed_mesh (meshes_of scene) ->
  (N.of_nat (total_vertices (meshes_of scene)) <= 2 ^ 32)%N ->
  indices (gatherTrianglesFromScene scene)
  = offset_indices 0 (meshes_of scene).
Proof.
  intros Hwf Hsmall. unfold gatherTrianglesFromScene. cbn [indices].
  rewrite traverse_meshes, gather_meshes_indices. cbn [g_indices vertexOffset app].
  pose proof (offset_indices_bound (meshes_of scene) 0%N Hwf) as Hb.
  induction Hb as [|i l Hi _ IH]; [reflexivity|].
  cbn [map]. rewrite IH. f_equal.
  unfold to_uint32. apply N.mod_small. lia.
Qed.

End GatherExtras.

Lemma gather_depends_on_meshes_witness :
  meshes_of Examples.two_triangles = meshes_of MoreExamples.nested_triangles /\
  gatherTrianglesFromScene Examples.two_triangles
  = gatherTrianglesFromScene MoreExamples.nested_triangles.
Proof.
  split; [reflexivity|].
  exact (proj1 (gather_depends_on_meshes Examples.two_triangles
                  MoreExamples.nested_triangles eq_refl)).
Defined.

Lemma gather_indices_exact_witness :
  Forall well_formed_mesh (meshes_of Examples.two_triangles) /\
  (N.of_nat (total_vertices (meshes_of Examples.two_triangles)) <= 2 ^ 32)%N /\
  indices (gatherTrianglesFromScene Examples.two_triangles)
  = offset_indices 0 (meshes_of Examples.two_triangles).
Proof.
  assert (Hwf : Forall well_formed_mesh (meshes_of Examples.two_triangles))
    by (repeat constructor).
  assert (Hs : (N.of_nat (total_vertices (meshes_of Examples.two_triangles)) <= 2 ^ 32)%N)
    by (vm_compute; discriminate).
  split; [exact Hwf|]. split; [exact Hs|].
  exact (gather_indices_exact Examples.two_triangles Hwf Hs).
Defined.

(* ---------------------------------------------------------------------- *)
(** ** What the harness times, calls and shows                             *)
(* ---------------------------------------------------------------------- *)

Section MeasurementFacts.

Context {host : Host} {call : Type}.

Lemma measurements_events (ms : list (measurement (call:=call))) rest :
  measurements (flat_map measurement_events ms ++ rest)
  = ms ++ measurements rest.
Proof.
  induction ms as [|[[a body] b] ms IH]; [reflexivity|].
  cbn [flat_map measurement_events app measurements]. now rewrite IH.
Qed.

Lemma measurements_warm (warm : list (list (event call))) rest :
  measurements (map Invoke warm ++ rest) = measurements rest.
Proof. induction warm as [|b warm IH]; [reflexivity|]. exact IH. Qed.

Lemma status_lines_app (t1 t2 : list (event call)) :
  status_lines (t1 ++ t2) = status_lines t1 ++ status_lines t2.
Proof.
  induction t1 as [|e t1 IH]; [reflexivity|].
  destruct e; cbn; rewrite IH; reflexivity.
Qed.

Lemma status_lines_warm (warm : list (list (event call))) :
  status_lines (map Invoke warm) = [].
Proof. induction warm; cbn; congruence. Qed.

Lemma status_lines_events (ms : list (measurement (call:=call))) :
  status_lines (flat_map measurement_events ms) = [].
Proof. induction ms as [|[[a body] b] ms IH]; cbn; congruence. Qed.

(** The timed iterations of [timed_loop]: every one of them encloses one
    run of the callback. *)
Lemma timed_loop_bodies {S} (fn : S -> M (call:=call) S)
      (P : list (event call) -> Prop) :
  (forall s w, P (trace_of (fn s w))) ->
  forall n acc s w,
  exists ms : list (measurement (call:=call)),
    trace_of (timed_loop fn n acc s w) = flat_map measurement_events ms /\
    List.length ms = n /\
    fst (result_of (timed_loop fn n acc s w)) = acc ++ map measurement_time ms /\
    Forall (fun m => P (snd (fst m))) ms.
Proof.
  intros HP. induction n as [|n IH]; intros acc s w; cbn [timed_loop].
  - exists []. cbn. rewrite app_nil_r. auto.
  - rewrite !trace_bind, !result_bind, trace_now, trace_invoke.
    set (start := result_of (now w)).
    set (w1 := world_of (now w)).
    set (s' := result_of (invoke fn s w1)).
    set (w2 := world_of (invoke fn s w1)).
    rewrite trace_now.
    set (end_ := result_of (now w2)).
    set (w3 := world_of (now w2)).
    destruct (IH (acc ++ [(end_ - start)%float]) s' w3) as (ms & Ht & Hl & Hr & HF).
    exists ((start, trace_of (fn s w1), end_) :: ms).
    rewrite Ht, Hr. cbn. rewrite <- app_assoc. cbn.
    repeat split; auto. constructor; [apply HP|exact HF].
Qed.

(** The timed iterations of a run of [benchmark], as read off its trace:
    there are [n] of them, the record is computed from their elapsed
    times, each encloses one run of the callback, and the status line is
    not written. *)
Lemma benchmark_measurements {S} (label : string) (fn : S -> M (call:=call) S)
      (P : list (event call) -> Prop) (warmup n : nat) (s : S) (w : World) :
  (forall s w, P (trace_of (fn s w))) ->
  exists ms : list (measurement (call:=call)),
    let r := benchmark label fn warmup n s w in
    List.length ms = n /\
    (forall rest, measurements (trace_of r ++ rest) = ms ++ measurements rest) /\
    fst (result_of r) = calculate_stats label warmup n (map measurement_time ms) /\
    Forall (fun m => P (snd (fst m))) ms /\
    status_lines (trace_of r) = [].
Proof.
  intros HP. unfold benchmark.
  set (l1 := (label ++ _)%string). set (l2 := (label ++ _)%string).
  cbv zeta.
  rewrite !trace_bind, !result_bind.
  change (trace_of (console_log l1 w)) with [ConsoleLog (call:=call) l1].
  change (world_of (console_log l1 w)) with w.
  destruct (warmup_loop_trace fn warmup s w) as (warm & Hw & Hlw).
  set (s1 := result_of (warmup_loop fn warmup s w)).
  set (w1 := world_of (warmup_loop fn warmup s w)).
  change (world_of (console_log l2 w1)) with w1.
  change (trace_of (console_log l2 w1)) with [ConsoleLog (call:=call) l2].
  destruct (timed_loop_bodies fn P HP n [] s1 w1) as (ms & Ht & Hlm & Hr & HF).
  exists ms. rewrite Hw, Ht.
  destruct (result_of (timed_loop fn n [] s1 w1)) as [ts s2] eqn:E.
  cbn [fst] in Hr. subst ts.
  split; [exact Hlm|]. split; [|split; [reflexivity|split; [exact HF|]]].
  - intros rest. cbn [app trace_of ret snd].
    rewrite <- !app_assoc. cbn [app measurements].
    rewrite measurements_warm. cbn [app measurements].
    rewrite app_nil_r. apply measurements_events.
  - cbn [app trace_of ret snd].
    cbn [status_lines]. rewrite status_lines_app, status_lines_warm.
    cbn [status_lines app]. rewrite app_nil_r. apply status_lines_events.
Qed.

End MeasurementFacts.

Section GenerationExtras.

Context {host : Host} {B : Backends}.

(** X6.  When [benchmarkGeneration] returns, each of the ten [times] of
    the Recast record is the difference of two clock readings that
    enclose exactly one Recast build call, on the given geometry and
    options, and nothing else; likewise each of the ten [times] of the
    navcat record encloses exactly one navcat build call.  The twenty
    timed iterations are Recast's ten followed by navcat's ten, and both
    records report 3 warmup runs and 10 runs. *)
Theorem benchmarkGeneration_measurements (positions : list float)
        (indices : list N) (options : GenerationOptions) (w : World)
        (g : GenerationResults) :
  let r := benchmarkGeneration positions indices options w in
  result_of r = Returned g ->
  exists ms_recast ms_navcat : list (measurement (call:=backend_call)),
    measurements (trace_of r) = ms_recast ++ ms_navcat /\
    List.length ms_recast = 10 /\ List.length ms_navcat = 10 /\
    times (recastGenTime g) = map measurement_time ms_recast /\
    times (navcatGenTime g) = map measurement_time ms_navcat /\
    Forall (fun m => exists nav,
              measurement_calls m
              = [RecastGenerate positions indices (recastOptions options) nav])
           ms_recast /\
    Forall (fun m => exists nav,
              measurement_calls m
              = [NavcatGenerate positions indices (navcatOptions options) nav])
           ms_navcat /\
    (warmupRuns (recastGenTime g), runs (recastGenTime g)) = (3, 10) /\
    (warmupRuns (navcatGenTime g), runs (navcatGenTime g)) = (3, 10).
Proof.
  cbv zeta. rewrite benchmarkGeneration_unfold.
  destruct (benchmark_measurements "recast generation"%string
              (recast_generation_fn positions indices (recastOptions options))
              (fun t => exists nav,
                   calls_of t
                   = [RecastGenerate positions indices (recastOptions options) nav])
              default_warmupRuns default_runs None w)
    as (ms1 & Hl1 & Hm1 & Hr1 & HF1 & _).
  { intros s0 w0.
    destruct (recast_generation_fn_single positions indices (recastOptions options) s0 w0)
      as (x & Hx & _).
    exists x. rewrite Hx. reflexivity. }
  cbv zeta in Hl1, Hm1, Hr1.
  destruct (benchmark "recast generation"%string _ _ _ None w)
    as [[[t2 [nav|]] w1] tr1]; [|discriminate].
  destruct (benchmark_measurements "navcat generation"%string
              (navcat_generation_fn positions indices (navcatOptions options))
              (fun t => exists nav,
                   calls_of t
                   = [NavcatGenerate positions indices (navcatOptions options) nav])
              default_warmupRuns default_runs (None, None) w1)
    as (ms2 & Hl2 & Hm2 & Hr2 & HF2 & _).
  { intros s0 w0.
    destruct (navcat_generation_fn_single positions indices (navcatOptions options) s0 w0)
      as (x & Hx & _).
    exists (fst x). rewrite Hx. reflexivity. }
  cbv zeta in Hl2, Hm2, Hr2.
  destruct (benchmark "navcat generation"%string _ _ _ (None, None) w1)
    as [[[t1 [nn ni]] w2] tr2].
  cbn [trace_of result_of fst snd] in *.
  intros Hg. injection Hg as <-. cbn [recastGenTime navcatGenTime].
  exists ms1, ms2. subst t1 t2.
  split.
  { cbn [measurements]. rewrite Hm1. cbn [measurements].
    rewrite Hm2. cbn [measurements]. rewrite app_nil_r. reflexivity. }
  repeat split; try assumption.
  - eapply Forall_impl; [|exact HF1]. intros [[a body] b]. exact (fun H => H).
  - eapply Forall_impl; [|exact HF2]. intros [[a body] b]. exact (fun H => H).
Qed.

End GenerationExtras.

Section QueryExtras.

Context {host : Host} {B : Backends}.

(** X7.  [benchmarkQueries] times 10000 Recast queries and then 10000
    navcat queries: each element of [times] is the difference of two
    clock readings that enclose exactly one query call of the backend
    concerned, from the fixed start to the fixed end point, and nothing
    else.  With the 100 warmup calls each backend is queried 10100
    times, all Recast queries before the first navcat query, and the
    records report 100 warmup runs and 10000 runs.  Besides the queries
    the only call into the backends is the construction of the Recast
    query object, made first. *)
Theorem benchmarkQueries_measurements (g : GenerationResults) (w : World) :
  let r := benchmarkQueries g w in
  let recast_query := RecastComputePath (recastNav g) startPos endPos None in
  let navcat_query :=
    NavcatFindPath (navcatNav g) (to_array startPos) (to_array endPos)
                   (to_array halfExtents) DEFAULT_QUERY_FILTER in
  exists ms_recast ms_navcat : list (measurement (call:=backend_call)),
    measurements (trace_of r) = ms_recast ++ ms_navcat /\
    List.length ms_recast = 10000 /\ List.length ms_navcat = 10000 /\
    times (recastQueryTime (result_of r)) = map measurement_time ms_recast /\
    times (navcatQueryTime (result_of r)) = map measurement_time ms_navcat /\
    Forall (fun m => measurement_calls m = [recast_query]) ms_recast /\
    Forall (fun m => measurement_calls m = [navcat_query]) ms_navcat /\
    calls_of (trace_of r)
    = NewNavMeshQuery (recastNav g)
        :: repeat recast_query (100 + 10000)
        ++ repeat navcat_query (100 + 10000) /\
    (warmupRuns (recastQueryTime (result_of r)),
     runs (recastQueryTime (result_of r))) = (100, 10000) /\
    (warmupRuns (navcatQueryTime (result_of r)),
     runs (navcatQueryTime (result_of r))) = (100, 10000).
Proof.
  cbv zeta.
  destruct (benchmarkQueries_calls g w) as (n1 & n2 & Hcalls & -> & ->).
  revert Hcalls. rewrite benchmarkQueries_unfold.
  destruct (benchmark_measurements "recast query"%string
              (recast_query_fn (recastNav g))
              (fun t => calls_of t
                        = [RecastComputePath (recastNav g) startPos endPos None])
              100 10000 tt w)
    as (ms1 & Hl1 & Hm1 & Hr1 & HF1 & _).
  { intros s0 w0.
    destruct (recast_query_fn_single (recastNav g) s0 w0) as (x & Hx & _).
    rewrite Hx. reflexivity. }
  cbv zeta in Hl1, Hm1, Hr1.
  destruct (benchmark "recast query"%string _ 100 10000 tt w)
    as [[[t1 u1] w1] tr1].
  destruct (benchmark_measurements "navcat query"%string
              (navcat_query_fn (navcatNav g) (to_array startPos) (to_array endPos)
                 (to_array halfExtents) DEFAULT_QUERY_FILTER)
              (fun t => calls_of t
                        = [NavcatFindPath (navcatNav g) (to_array startPos)
                             (to_array endPos) (to_array halfExtents)
                             DEFAULT_QUERY_FILTER])
              100 10000 tt w1)
    as (ms2 & Hl2 & Hm2 & Hr2 & HF2 & _).
  { intros s0 w0.
    destruct (navcat_query_fn_single (navcatNav g) (to_array startPos)
                (to_array endPos) (to_array halfExtents) DEFAULT_QUERY_FILTER s0 w0)
      as (x & Hx & _).
    rewrite Hx. reflexivity. }
  cbv zeta in Hl2, Hm2, Hr2.
  destruct (benchmark "navcat query"%string _ 100 10000 tt w1)
    as [[[t2 u2] w2] tr2].
  cbn [trace_of result_of fst snd recastQueryTime navcatQueryTime] in *.
  intros Hcalls.
  exists ms1, ms2. subst t1 t2.
  split.
  { cbn [measurements]. rewrite Hm1. cbn [measurements].
    rewrite Hm2. cbn [measurements]. rewrite app_nil_r. reflexivity. }
  split; [exact Hl1|]. split; [exact Hl2|].
  split; [reflexivity|]. split; [reflexivity|].
  split.
  { eapply Forall_impl; [|exact HF1]. intros [[a body] b]. exact (fun H => H). }
  split.
  { eapply Forall_impl; [|exact HF2]. intros [[a body] b]. exact (fun H => H). }
  split; [exact Hcalls|].
  split; reflexivity.
Qed.

(** X8.  The markers [verifyPaths] builds.  The navcat group, named
    "Navcat Path (Green)", always receives one line of colour [0x00ff00]
    through the points of the navcat path and then one sphere of that
    colour at each point, in path order; for an empty path that is a
    line without points and no sphere.  The Recast group, named
    "Recast Path (Red)", stays empty when the Recast path is empty, and
    otherwise receives one line of colour [0xff0000] through the path
    and one sphere of that colour at each point.  The paths returned are
    those the two queries found, navcat's query being made first. *)
Theorem verifyPaths_visuals (g : GenerationResults) (w : World) :
  let v := result_of (verifyPaths g w) in
  let green := group_children (navcatPathVisuals v) in
  let red := group_children (recastPathVisuals v) in
  let navcat_query :=
    navcat_findPath (navcatNav g) (to_array startPos) (to_array endPos)
                    (to_array halfExtents) DEFAULT_QUERY_FILTER w in
  let recast_query :=
    recast_computePath (recastNav g) startPos endPos None (snd navcat_query) in
  let navcat_points :=
    map (fun p => let '(px, py, pz) := point_position p in
                  {| THREE.x := px; THREE.y := py; THREE.z := pz |})
        (navcatPath v) in
  navcatPath v = fst navcat_query /\
  recastPath v = fst recast_query /\
  world_of (verifyPaths g w) = snd recast_query /\
  group_name (navcatPathVisuals v) = "Navcat Path (Green)"%string /\
  group_name (recastPathVisuals v) = "Recast Path (Red)"%string /\
  green
  = Line navcat_points 65280
      :: map (fun point => Sphere point 65280) navcat_points /\
  red
  = match recastPath v with
    | [] => []
    | _ :: _ =>
        Line (recastPath v) 16711680
          :: map (fun point => Sphere point 16711680) (recastPath v)
    end /\
  List.length green = 1 + List.length (navcatPath v) /\
  List.length red
  = match recastPath v with [] => 0 | _ :: _ => 1 + List.length (recastPath v) end /\
  (navcatPath v = [] -> green = [Line [] 65280]).
Proof.
  cbv zeta.
  unfold verifyPaths, bind, call_navcat_findPath, call_recast_computePath.
  cbn [set_status console_log emit].
  destruct (navcat_findPath _ _ _ _ _ w) as [p1 w1].
  cbn [snd fst].
  destruct (recast_computePath _ _ _ _ w1) as [p2 w2].
  cbn [ret result_of world_of fst snd navcatPath recastPath navcatPathVisuals
       recastPathVisuals group_children group_name].
  assert (Hpts : map (fun p => of_array (point_position p)) p1
                 = map (fun p => let '(px, py, pz) := point_position p in
                                 {| THREE.x := px; THREE.y := py; THREE.z := pz |}) p1).
  { apply map_ext. intros p. unfold of_array.
    destruct (point_position p) as [[px py] pz]. reflexivity. }
  rewrite Hpts. unfold path_visuals.
  repeat split; try reflexivity.
  - cbn [List.length]. rewrite !length_map. reflexivity.
  - destruct p2 as [|q qs]; [reflexivity|].
    cbn [List.length]. rewrite !length_map. reflexivity.
  - intros ->. reflexivity.
Qed.

End QueryExtras.

Section RunExtras.

Context {host : Host} {B : Backends} {T : THREE.Transform}.

(** X9.  The calls a run makes into the packages of the two backends,
    constructor calls included, in order, when every one of them
    returns: Recast is initialised once, before anything else; then come
    thirteen Recast builds.  When the last of them hands back no navmesh,
    nothing follows.  Otherwise thirteen navcat builds follow, then the
    navcat display helper, the construction of the Recast debug drawer
    and its drawing call, the navcat query of the path comparison, the
    construction of a Recast query object and its query, the
    construction of a second query object, 10100 Recast queries and
    10100 navcat queries, and nothing else.  Every build of either
    backend receives the geometry extracted from the scene and the
    options derived from the canonical generation options; the navcat
    handle used afterwards is the one of the last navcat build. *)
Theorem run_call_sequence (glbScene : THREE.Object3D) (w : World) :
  let buffer := gatherTrianglesFromScene glbScene in
  let recast_build :=
    RecastGenerate (positions buffer) (indices buffer)
                   (recastOptions createGenerationOptions) in
  let navcat_build :=
    NavcatGenerate (positions buffer) (indices buffer)
                   (navcatOptions createGenerationOptions) in
  exists (recast_navs : list (option RecastNavMesh))
         (navcat_navs : list NavcatNavMesh),
    List.length recast_navs = 13 /\
    calls_of (trace_of (run glbScene w))
    = RecastInit :: map recast_build recast_navs
        ++ match last recast_navs None with
           | None => []
           | Some recastNav =>
               let navcatNav := final_of navcat_navs in
               let navcat_query :=
                 NavcatFindPath navcatNav (to_array startPos) (to_array endPos)
                                (to_array halfExtents) DEFAULT_QUERY_FILTER in
               let recast_query :=
                 RecastComputePath recastNav startPos endPos None in
               map navcat_build navcat_navs
                 ++ [CreateNavMeshHelper navcatNav; NewDebugDrawer;
                     DrawNavMesh recastNav;
                     navcat_query;
                     NewNavMeshQuery recastNav; recast_query;
                     NewNavMeshQuery recastNav]
                 ++ repeat recast_query (100 + 10000)
                 ++ repeat navcat_query (100 + 10000)
           end /\
    (last recast_navs None <> None ->
     List.length navcat_navs = 13 /\
     exists navcatNav, final_of navcat_navs = Some navcatNav).
Proof.
  cbv zeta.
  destruct (run_trace glbScene w) as (t_init & w1 & t0 & Hinit & Ht).
  cbv zeta in Ht. rewrite Ht. clear Ht.
  set (buffer := gatherTrianglesFromScene glbScene).
  destruct (benchmarkGeneration_run (positions buffer) (indices buffer)
              createGenerationOptions w1) as (navs & Hlen & Hrun).
  cbv zeta in Hrun.
  set (gen := benchmarkGeneration _ _ _ w1) in *.
  rewrite !calls_of_app, Hinit. cbn [app].
  destruct (last navs None) as [nav|] eqn:Hlast.
  - destruct Hrun as (xs & t1 & t2 & Hlx & Hcalls & Hres).
    exists navs, (map fst xs). rewrite Hlast, Hres, Hcalls.
    set (g := {| navcatNav := final_of (map fst xs);
                 navcatIntermediates := final_of (map snd xs);
                 navcatGenTime := t1; recastNav := nav; recastGenTime := t2 |}).
    destruct (after_generation_calls_exact t0 g (world_of gen))
      as (n1 & n2 & Hafter & -> & ->).
    rewrite Hafter. cbn [navcatNav recastNav g].
    rewrite map_map, <- app_assoc, length_map.
    split; [exact Hlen|]. split; [reflexivity|]. intros _.
    split; [exact Hlx|].
    destruct xs as [|x xs] using rev_ind; [discriminate Hlx|].
    exists (fst x). unfold final_of.
    rewrite !map_app, last_app_default. reflexivity.
  - destruct Hrun as [Hres Hcalls].
    exists navs, []. rewrite Hlast, Hres, Hcalls.
    cbn [calls_of flat_map calls_of_event app].
    split; [exact Hlen|]. split; [reflexivity|]. intros H. now destruct H.
Qed.

Lemma status_lines_initializeRecast w :
  status_lines (trace_of (initializeRecast w)) = [].
Proof.
  unfold initializeRecast, bind, now, call_recast_init.
  destruct (performance_now w) as [a w1].
  destruct (performance_now (recast_init w1)) as [b w2].
  reflexivity.
Qed.

Lemma status_lines_benchmarkGeneration positions indices options w :
  let r := benchmarkGeneration positions indices options w in
  status_lines (trace_of r)
  = "Benchmarking Recast generation..."%string
      :: match result_of r with
         | Thrown _ => []
         | Returned _ => ["Benchmarking Navcat generation..."%string]
         end.
Proof.
  cbv zeta. rewrite benchmarkGeneration_unfold.
  destruct (benchmark_measurements "recast generation"%string
              (recast_generation_fn positions indices (recastOptions options))
              (fun _ => True) default_warmupRuns default_runs None w)
    as (ms1 & _ & _ & _ & _ & Hs1); [auto|].
  cbv zeta in Hs1.
  destruct (benchmark "recast generation"%string _ _ _ None w)
    as [[[t2 [nav|]] w1] tr1].
  - destruct (benchmark_measurements "navcat generation"%string
                (navcat_generation_fn positions indices (navcatOptions options))
                (fun _ => True) default_warmupRuns default_runs (None, None) w1)
      as (ms2 & _ & _ & _ & _ & Hs2); [auto|].
    cbv zeta in Hs2.
    destruct (benchmark "navcat generation"%string _ _ _ (None, None) w1)
      as [[[t1 [nn ni]] w2] tr2].
    cbn [trace_of result_of fst snd] in *.
    cbn [status_lines]. rewrite status_lines_app, Hs1.
    cbn [app status_lines]. rewrite status_lines_app, Hs2. reflexivity.
  - cbn [trace_of result_of fst snd] in *.
    cbn [status_lines]. rewrite status_lines_app, Hs1. reflexivity.
Qed.

Lemma status_lines_benchmarkQueries g w :
  status_lines (trace_of (benchmarkQueries g w))
  = ["Benchmarking queries..."%string].
Proof.
  rewrite benchmarkQueries_unfold.
  destruct (benchmark_measurements "recast query"%string
              (recast_query_fn (recastNav g)) (fun _ => True) 100 10000 tt w)
    as (ms1 & _ & _ & _ & _ & Hs1); [auto|].
  cbv zeta in Hs1.
  destruct (benchmark "recast query"%string _ 100 10000 tt w)
    as [[[t1 u1] w1] tr1].
  destruct (benchmark_measurements "navcat query"%string
              (navcat_query_fn (navcatNav g) (to_array startPos) (to_array endPos)
                 (to_array halfExtents) DEFAULT_QUERY_FILTER)
              (fun _ => True) 100 10000 tt w1)
    as (ms2 & _ & _ & _ & _ & Hs2); [auto|].
  cbv zeta in Hs2.
  destruct (benchmark "navcat query"%string _ 100 10000 tt w1)
    as [[[t2 u2] w2] tr2].
  cbn [trace_of result_of fst snd] in *.
  cbn [status_lines]. rewrite status_lines_app, Hs1.
  cbn [app status_lines]. rewrite status_lines_app, Hs2. reflexivity.
Qed.

Lemma status_lines_verifyPaths g w :
  status_lines (trace_of (verifyPaths g w)) = ["Verifying paths..."%string].
Proof.
  unfold verifyPaths, bind, call_navcat_findPath, call_recast_computePath.
  cbn [set_status console_log emit].
  destruct (navcat_findPath _ _ _ _ _ w) as [p1 w1].
  destruct (recast_computePath _ _ _ _ w1) as [p2 w2].
  reflexivity.
Qed.

(** The stages after a successful generation end by logging the summary
    and showing it on the status line. *)
Lemma after_generation_status t0 g w :
  exists summary before,
    status_lines (trace_of (after_generation t0 g w))
    = ["Verifying paths..."%string; "Benchmarking queries..."%string; summary] /\
    trace_of (after_generation t0 g w)
    = before ++ [ConsoleLog summary; Status summary].
Proof.
  unfold after_generation.
  rewrite trace_bind.
  set (w1 := world_of (visualizeNavMeshes g w)).
  rewrite trace_bind.
  set (w2 := world_of (verifyPaths g w1)).
  rewrite trace_bind.
  set (q := result_of (benchmarkQueries g w2)).
  set (w3 := world_of (benchmarkQueries g w2)).
  assert (Hd : exists summary,
             trace_of (displaySummary t0 g q w3)
             = [ConsoleLog summary; Status summary])
    by (eexists; reflexivity).
  destruct Hd as (summary & Hd).
  exists summary,
    (trace_of (visualizeNavMeshes g w) ++ trace_of (verifyPaths g w1)
       ++ trace_of (benchmarkQueries g w2)).
  rewrite Hd. split; [|now rewrite <- !app_assoc].
  rewrite !status_lines_app, status_lines_verifyPaths,
    status_lines_benchmarkQueries.
  reflexivity.
Qed.

(** X10.  What the status line shows during a run.  Six texts are shown
    up to the Recast generation benchmark.  When the last Recast build
    hands back no navmesh the status line is not written again: it keeps
    reading "Benchmarking Recast generation..." while the error is
    reported elsewhere.  Otherwise four more texts follow, the last of
    them the summary, which is also the last text logged; the harness
    writes it as its final action. *)
Theorem run_status_lines (glbScene : THREE.Object3D) (w : World) :
  let r := run glbScene w in
  exists counts : string,
    let shown :=
      ["Initializing..."; "Loading model..."; "Extracting geometry...";
       counts; "Initializing Recast...";
       "Benchmarking Recast generation..."]%string in
    match last (recast_builds (trace_of r)) None with
    | None => status_lines (trace_of r) = shown
    | Some _ =>
        exists summary before,
          status_lines (trace_of r)
          = shown ++ ["Benchmarking Navcat generation..."; "Verifying paths...";
                      "Benchmarking queries..."; summary]%string /\
          trace_of r = before ++ [ConsoleLog summary; Status summary]
    end.
Proof.
  cbv zeta. unfold run. cbv zeta.
  set (buffer := gatherTrianglesFromScene glbScene).
  exists ("Triangles: "
            ++ toString (Number.of_nat (List.length (indices buffer)) / 3)%float
            ++ ", Vertices: "
            ++ toString (Number.of_nat (List.length (positions buffer)) / 3)%float)%string.
  rewrite trace_bind. cbn [set_status emit trace_of result_of world_of fst snd].
  rewrite trace_bind.
  destruct (setupScene_run glbScene w) as (Hb & Hw & _).
  rewrite Hb, Hw. fold buffer.
  rewrite trace_bind. cbn [set_status emit trace_of result_of world_of fst snd].
  rewrite trace_bind.
  set (i := initializeRecast w).
  rewrite trace_bind.
  destruct (benchmarkGeneration_run (positions buffer) (indices buffer)
              createGenerationOptions (world_of i)) as (navs & Hlen & Hrun).
  cbv zeta in Hrun.
  pose proof (status_lines_benchmarkGeneration (positions buffer) (indices buffer)
                createGenerationOptions (world_of i)) as Hsg.
  cbv zeta in Hsg.
  set (gen := benchmarkGeneration _ _ _ (world_of i)) in *.
  assert (Hss : trace_of (setupScene glbScene w)
                = [Status "Loading model..."%string;
                   Status "Extracting geometry..."%string;
                   Status ("Triangles: "
                             ++ toString (Number.of_nat (List.length (indices buffer)) / 3)%float
                             ++ ", Vertices: "
                             ++ toString (Number.of_nat (List.length (positions buffer)) / 3)%float)%string])
    by reflexivity.
  assert (Hsc : calls_of (trace_of (setupScene glbScene w)) = [])
    by (rewrite Hss; reflexivity).
  rewrite Hss. cbn [app].
  match goal with
  | |- context [recast_builds (?a :: ?b :: ?c :: ?d :: ?e :: ?t)] =>
      change (recast_builds (a :: b :: c :: d :: e :: t)) with (recast_builds t)
  end.
  cbn [app status_lines].
  rewrite !recast_builds_app, !status_lines_app.
  assert (Hir : recast_builds (trace_of i) = [])
    by (unfold recast_builds, i; rewrite initializeRecast_calls; reflexivity).
  assert (His : status_lines (trace_of i) = [])
    by apply status_lines_initializeRecast.
  rewrite Hir, His, Hsg. cbn [app].
  destruct (last navs None) as [nav|] eqn:Hlast.
  - destruct Hrun as (xs & t1 & t2 & Hlx & Hcalls & Hres).
    rewrite Hres.
    set (g := {| navcatNav := final_of (map fst xs);
                 navcatIntermediates := final_of (map snd xs);
                 navcatGenTime := t1; recastNav := nav; recastGenTime := t2 |}).
    change (trace_of
              ((visualizeNavMeshes g ;;;
                pathVisuals <- verifyPaths g ;;
                queryResults <- benchmarkQueries g ;;
                displaySummary (result_of i) g queryResults)%js (world_of gen)))
      with (trace_of (after_generation (result_of i) g (world_of gen))).
    destruct (no_builds _ (after_generation_calls (result_of i) g (world_of gen)))
      as [Hr _].
    rewrite Hr, app_nil_r.
    assert (Hgr : recast_builds (trace_of gen) = navs).
    { unfold recast_builds. rewrite Hcalls, flat_map_app, recast_calls_builds.
      rewrite (flat_map_nil _ (map _ xs)), app_nil_r by none_selected.
      reflexivity. }
    rewrite Hgr, Hlast.
    destruct (after_generation_status (result_of i) g (world_of gen))
      as (summary & before & Hst & Htr).
    exists summary. eexists. rewrite Hst, Htr. split; [reflexivity|].
    rewrite !app_comm_cons, !app_assoc. reflexivity.
  - destruct Hrun as [Hres Hcalls]. rewrite Hres.
    assert (Hgr : recast_builds (trace_of gen) = navs).
    { unfold recast_builds. rewrite Hcalls. apply recast_calls_builds. }
    rewrite Hgr.
    unfold bind, console_error, emit. cbn [trace_of snd app].
    change (recast_builds [ConsoleError _; ErrorOverlay _])
      with (@nil (option RecastNavMesh)).
    rewrite app_nil_r, Hlast. reflexivity.
Qed.

End RunExtras.

Lemma benchmarkGeneration_measurements_witness :
  let r := benchmarkGeneration (B := Examples.stub_backends true true)
             [] [] createGenerationOptions
             ([] : World (Host := Examples.scripted_host)) in
  result_of r = Returned MoreExamples.generated /\
  exists ms_recast ms_navcat : list (measurement (call:=backend_call)),
    measurements (trace_of r) = ms_recast ++ ms_navcat /\
    List.length ms_recast = 10 /\ List.length ms_navcat = 10.
Proof.
  cbv zeta.
  assert (Hg : result_of
                 (benchmarkGeneration (B := Examples.stub_backends true true)
                    [] [] createGenerationOptions
                    ([] : World (Host := Examples.scripted_host)))
               = Returned MoreExamples.generated)
    by (vm_compute; reflexivity).
  split; [exact Hg|].
  destruct (benchmarkGeneration_measurements
              (B := Examples.stub_backends true true)
              [] [] createGenerationOptions
              ([] : World (Host := Examples.scripted_host))
              MoreExamples.generated Hg)
    as (ms1 & ms2 & Hm & Hl1 & Hl2 & _).
  exists ms1, ms2. auto.
Defined.
